(** * PyAppEnv: typed-value pipeline, masking proxy and configuration cells

    A shallow embedding of [pyapp_env/classes.py], [pyapp_env/secure_value.py],
    [pyapp_env/global_vars.py] and [pyapp_env/exceptions.py].

    Python objects are represented by the inductive type [pyval]; a raised
    exception is the [Raise] outcome of a computation.  The attribute
    [self.value] of a descriptor is threaded explicitly through the pipeline
    by a small state-and-exception monad.  Characters are code points below
    256, so every string of the model is a Python [str] over Latin-1. *)

From Stdlib Require Import ZArith List String Ascii Bool Lia.
From stdpp Require Import gmap strings.
Import ListNotations.
Open Scope string_scope.
Set Warnings "-register-all".

(** ** Python values *)

(** A Python [float]: the dyadic rational [m * 2^e], the negative zero, an
    infinity or a NaN. *)
Inductive pyfloat : Type :=
| FFinite (m e : Z)
| FNegZero
| FInf (negative : bool)
| FNaN.

(** The classes that the pipeline tells apart.  [CSecureValue base] is a
    class named [SecureValue] built at run time by [CreateSecureValue] as a
    subclass of [base]. *)
Inductive pyclass : Type :=
| Cobject
| CNoneType
| CNotImplementedType
| Cbool
| Cint
| Cfloat
| Cstr
| Clist
| Cdict
| Cfunction
| CConfigValue
| Cuser (name : string)
| CSecureValue (base : pyclass).

(** The two forms of a masking proxy.  The mutable form keeps, in the
    closures of its forwarding members, the [ignored_class] and
    [ignored_methods] it was created with. *)
Inductive secure_form : Type :=
| Immutable
| Mutable (ignored_class : option pyclass) (ignored_methods : list string).

Inductive pyval : Type :=
| PNone
| PNotImplemented
| PBool (b : bool)
| PInt (n : Z)
| PFloat (f : pyfloat)
| PStr (s : string)
| PList (items : list pyval)
| PDict (items : list (pyval * pyval))
| PFunc (name : string)              (* a function object, e.g. [json.dumps] *)
| PObj (cls : string) (id : nat)     (* an instance of a user class that keeps
                                        the members inherited from [object] *)
| PConfigValue (value : pyval)       (* a [ConfigValue] cell, seen as a value *)
| PSecure (form : secure_form) (original : pyval).

(** ** Exceptions and outcomes *)

Inductive exc_class : Type :=
| ValueError
| TypeError
| KeyError
| AttributeError
| IndexError
| OverflowError
| ImmutableError
| OtherError (name : string).      (* any class a caller's validator raises *)

(** The text of an exception: the pieces of the f-string that builds it.
    [Fmt v] is the interpolation [{v}] of a value, left unrendered;
    [Builtin what] stands for the text the interpreter itself produces when
    the built-in operation [what] fails. *)
Inductive msg_part : Type :=
| Lit (s : string)
| Fmt (v : pyval)
| Builtin (what : string).

Record exception : Type := MkExc { exc_type : exc_class; exc_msg : list msg_part }.

(** [Unmodelled] marks behaviour of the interpreter that this development
    does not spell out, chiefly the forwarded members of [SecureValue]
    instances; no statement below draws a conclusion from it. *)
Inductive outcome (A : Type) : Type :=
| Return (a : A)
| Raise (e : exception)
| Unmodelled.
Arguments Return {A} a.
Arguments Raise {A} e.
Arguments Unmodelled {A}.

Definition obind {A B} (c : outcome A) (k : A -> outcome B) : outcome B :=
  match c with
  | Return a => k a
  | Raise e => Raise e
  | Unmodelled => Unmodelled
  end.

Notation "'let*' x ':=' c 'in' k" := (obind c (fun x => k))
  (at level 10, x name, c at level 100, k at level 200).

Definition raise {A} (t : exc_class) (m : list msg_part) : outcome A :=
  Raise (MkExc t m).

(** ** Classes: [type], [isinstance], [__name__] *)

Fixpoint class_eqb (a b : pyclass) : bool :=
  match a, b with
  | Cobject, Cobject | CNoneType, CNoneType
  | CNotImplementedType, CNotImplementedType
  | Cbool, Cbool | Cint, Cint | Cfloat, Cfloat | Cstr, Cstr
  | Clist, Clist | Cdict, Cdict | Cfunction, Cfunction
  | CConfigValue, CConfigValue => true
  | Cuser n, Cuser m => String.eqb n m
  | CSecureValue x, CSecureValue y => class_eqb x y
  | _, _ => false
  end.

(** [issubclass c target]: [bool] derives from [int], a [SecureValue] class
    from its base, every class from [object]. *)
Fixpoint issubclass (c target : pyclass) : bool :=
  class_eqb c target ||
  match c with
  | Cobject => false
  | Cbool => class_eqb Cint target || class_eqb Cobject target
  | CSecureValue base => issubclass base target
  | _ => class_eqb Cobject target
  end.

Definition class_name (c : pyclass) : string :=
  match c with
  | Cobject => "object"
  | CNoneType => "NoneType"
  | CNotImplementedType => "NotImplementedType"
  | Cbool => "bool"
  | Cint => "int"
  | Cfloat => "float"
  | Cstr => "str"
  | Clist => "list"
  | Cdict => "dict"
  | Cfunction => "function"
  | CConfigValue => "ConfigValue"
  | Cuser n => n
  | CSecureValue _ => "SecureValue"
  end.

(** [type(v)].  The class of a proxy derives from [value_class]: the class
    of the wrapped value, with [bool] replaced by [int]
    ([if isinstance(value, bool): value_class = int]). *)
Fixpoint type_of (v : pyval) : pyclass :=
  match v with
  | PNone => CNoneType
  | PNotImplemented => CNotImplementedType
  | PBool _ => Cbool
  | PInt _ => Cint
  | PFloat _ => Cfloat
  | PStr _ => Cstr
  | PList _ => Clist
  | PDict _ => Cdict
  | PFunc _ => Cfunction
  | PObj c _ => Cuser c
  | PConfigValue _ => CConfigValue
  | PSecure _ o =>
      CSecureValue (match o with PBool _ => Cint | _ => type_of o end)
  end.

Definition isinstance (v : pyval) (c : pyclass) : bool :=
  issubclass (type_of v) c.

Definition value_class (v : pyval) : pyclass :=
  if isinstance v Cbool then Cint else type_of v.

(** ** Characters and strings *)

Definition in_range (lo hi c : ascii) : bool :=
  (nat_of_ascii lo <=? nat_of_ascii c)%nat && (nat_of_ascii c <=? nat_of_ascii hi)%nat.

Definition char_of (n : nat) : ascii := ascii_of_nat n.

(** [str.isspace] on one character (code points below 256). *)
Definition is_space (c : ascii) : bool :=
  in_range (char_of 9) (char_of 13) c || in_range (char_of 28) (char_of 32) c
  || Ascii.eqb c (char_of 133) || Ascii.eqb c (char_of 160).

(** [str.lower] on one character: [A-Z] and the Latin-1 capitals
    U+00C0..U+00DE (but not the sign U+00D7) move up by 32. *)
Definition lower_char (c : ascii) : ascii :=
  if in_range "A" "Z" c
     || (in_range (char_of 192) (char_of 222) c && negb (Ascii.eqb c (char_of 215)))
  then char_of (nat_of_ascii c + 32) else c.

Fixpoint lower (s : string) : string :=
  match s with
  | EmptyString => EmptyString
  | String c t => String (lower_char c) (lower t)
  end.

Fixpoint lstrip (s : string) : string :=
  match s with
  | EmptyString => EmptyString
  | String c t => if is_space c then lstrip t else s
  end.

Fixpoint rstrip (s : string) : string :=
  match s with
  | EmptyString => EmptyString
  | String c t =>
      match rstrip t with
      | EmptyString => if is_space c then EmptyString else String c EmptyString
      | t' => String c t'
      end
  end.

(** [s.strip()]. *)
Definition strip (s : string) : string := rstrip (lstrip s).

(** The whitespace that [int] and [float] drop around a literal: the ASCII
    blanks and, above them, U+0085 and U+00A0. *)
Definition is_literal_space (c : ascii) : bool :=
  in_range (char_of 9) (char_of 13) c || Ascii.eqb c (char_of 32)
  || Ascii.eqb c (char_of 133) || Ascii.eqb c (char_of 160).

Fixpoint literal_lstrip (s : string) : string :=
  match s with
  | EmptyString => EmptyString
  | String c t => if is_literal_space c then literal_lstrip t else s
  end.

Fixpoint literal_rstrip (s : string) : string :=
  match s with
  | EmptyString => EmptyString
  | String c t =>
      match literal_rstrip t with
      | EmptyString => if is_literal_space c then EmptyString else String c EmptyString
      | t' => String c t'
      end
  end.

Definition literal_strip (s : string) : string := literal_rstrip (literal_lstrip s).

(** [s.split(sep)] for a one-character separator. *)
Fixpoint split_on (sep : ascii) (s : string) : list string :=
  match s with
  | EmptyString => [EmptyString]
  | String c t =>
      if Ascii.eqb c sep then EmptyString :: split_on sep t
      else match split_on sep t with
           | [] => [String c EmptyString]
           | p :: ps => String c p :: ps
           end
  end.

Fixpoint contains_char (c : ascii) (s : string) : bool :=
  match s with
  | EmptyString => false
  | String x t => Ascii.eqb x c || contains_char c t
  end.

Definition str_in (s : string) (l : list string) : bool :=
  existsb (String.eqb s) l.

(** ** The fragment of [re] used by the validators *)

(** A character class is a list of inclusive ranges, possibly negated.
    [RPlusSet] is [[...]+]: every repetition in the patterns of the source
    is over a character class. *)
Inductive regex : Type :=
| REps                        (* the empty pattern *)
| RLit (c : ascii)
| RSet (negated : bool) (ranges : list (ascii * ascii))
| RPlusSet (negated : bool) (ranges : list (ascii * ascii))
| RSeq (a b : regex)
| RAlt (a b : regex)
| ROpt (a : regex)
| RBegin                      (* ^ *)
| REnd.                       (* $ *)

Definition in_set (negated : bool) (ranges : list (ascii * ascii)) (c : ascii) : bool :=
  xorb negated (existsb (fun r => in_range (fst r) (snd r) c) ranges).

(** With [re.IGNORECASE] a literal matches either case. *)
Definition lit_matches (ignorecase : bool) (c x : ascii) : bool :=
  if ignorecase then Ascii.eqb (lower_char x) (lower_char c) else Ascii.eqb x c.

(** [plus_set p k s]: consume one or more characters satisfying [p], then
    continue with [k] on what is left. *)
Fixpoint plus_set (p : ascii -> bool) (k : string -> bool) (s : string) : bool :=
  match s with
  | EmptyString => false
  | String c t => p c && (k t || plus_set p k t)
  end.

(** Backtracking matcher in continuation-passing style.  [total] is the
    length of the whole subject, so that [^] holds only at its start; [$]
    holds at the end and just before a final newline. *)
Fixpoint rmatch (ignorecase : bool) (total : nat) (r : regex)
    (k : string -> bool) (s : string) : bool :=
  match r with
  | REps => k s
  | RLit c =>
      match s with
      | String x t => lit_matches ignorecase c x && k t
      | EmptyString => false
      end
  | RSet neg rs =>
      match s with
      | String x t => in_set neg rs x && k t
      | EmptyString => false
      end
  | RPlusSet neg rs => plus_set (in_set neg rs) k s
  | RSeq a b => rmatch ignorecase total a (rmatch ignorecase total b k) s
  | RAlt a b => rmatch ignorecase total a k s || rmatch ignorecase total b k s
  | ROpt a => rmatch ignorecase total a k s || k s
  | RBegin => Nat.eqb (String.length s) total && k s
  | REnd =>
      (String.eqb s EmptyString || String.eqb s (String (char_of 10) EmptyString))
      && k s
  end.

(** [re.match(r, s)] succeeds when a prefix of [s] matches. *)
Definition re_match (ignorecase : bool) (r : regex) (s : string) : bool :=
  rmatch ignorecase (String.length s) r (fun _ => true) s.

Fixpoint search_from (ignorecase : bool) (total : nat) (r : regex) (s : string) : bool :=
  rmatch ignorecase total r (fun _ => true) s
  || match s with
     | EmptyString => false
     | String _ t => search_from ignorecase total r t
     end.

(** [re.search(r, s)] succeeds when a match starts at some position. *)
Definition re_search (ignorecase : bool) (r : regex) (s : string) : bool :=
  search_from ignorecase (String.length s) r s.

(** A run of literal characters. *)
Fixpoint lits (s : string) : regex :=
  match s with
  | EmptyString => REps
  | String c t => RSeq (RLit c) (lits t)
  end.

(** [r1|r2|...]. *)
Fixpoint alts (l : list regex) : regex :=
  match l with
  | [] => RSet false []
  | r :: rs => RAlt r (alts rs)
  end.

Definition singles (s : string) : list (ascii * ascii) :=
  map (fun c => (c, c)) (list_ascii_of_string s).

(** ** [int(...)] and [float(...)] *)

Definition is_digit (c : ascii) : bool := in_range "0" "9" c.

Definition digit_value (c : ascii) : Z := Z.of_nat (nat_of_ascii c - 48).

(** The digits of an integer literal: decimal digits, with single
    underscores allowed between two digits.  [after_digit] tells whether the
    previous character was a digit; [count] is the number of digits read. *)
Fixpoint read_digits (acc : Z) (count : nat) (after_digit : bool) (s : string)
  : option (Z * nat) :=
  match s with
  | EmptyString => if after_digit then Some (acc, count) else None
  | String c t =>
      if is_digit c then read_digits (10 * acc + digit_value c) (S count) true t
      else if Ascii.eqb c "_" && after_digit then read_digits acc count false t
      else None
  end.

(** The interpreter refuses to read more than 4300 digits into an [int]. *)
Definition int_max_str_digits : nat := 4300.

(** An integer literal: surrounding whitespace is dropped, then an optional
    sign and the digits are read.  The result is the sign and the
    magnitude. *)
Definition int_literal (s : string) : option (bool * Z) :=
  let body := literal_strip s in
  let '(negative, digits) :=
    match body with
    | String "-" t => (true, t)
    | String "+" t => (false, t)
    | _ => (false, body)
    end in
  match read_digits 0 0 false digits with
  | Some (n, count) =>
      if (count <=? int_max_str_digits)%nat then Some (negative, n) else None
  | None => None
  end.

Definition signed (negative : bool) (magnitude : Z) : Z :=
  if negative then (- magnitude)%Z else magnitude.

(** [int(s)] for a string; [None] is [ValueError]. *)
Definition int_of_str (s : string) : option Z :=
  match int_literal s with
  | Some (negative, magnitude) => Some (signed negative magnitude)
  | None => None
  end.

(** [a / 2^shift] rounded to the nearest integer, ties to the even one
    ([0 <= a], [0 <= shift]). *)
Definition round_shift (a shift : Z) : Z :=
  let q := Z.shiftr a shift in
  let r := (a - Z.shiftl q shift)%Z in
  let half := Z.shiftl 1 (shift - 1) in
  if (shift =? 0)%Z then a
  else if (half <? r)%Z || ((r =? half)%Z && Z.odd q) then (q + 1)%Z else q.

(** The double nearest to the integer [n]: 53 significant bits are kept,
    and a magnitude of [2^1024] or more overflows to an infinity. *)
Definition double_of_Z (n : Z) : pyfloat :=
  let a := Z.abs n in
  let shift := Z.max 0 (Z.log2 a - 52) in
  let q := round_shift a shift in
  if (2 ^ 1024 <=? q * 2 ^ shift)%Z then FInf (n <? 0)%Z
  else FFinite (Z.sgn n * q) shift.

(** [float(s)] for an integer literal: the nearest double, with the sign
    of the literal when that is zero. *)
Definition float_of_int_literal (negative : bool) (magnitude : Z) : pyfloat :=
  if negative && (magnitude =? 0)%Z then FNegZero
  else double_of_Z (signed negative magnitude).

(** [n == f] for an [int] and a [float]: Python compares the exact values. *)
Definition Z_eq_float (n : Z) (f : pyfloat) : bool :=
  match f with
  | FFinite m e =>
      if (0 <=? e)%Z then (n =? m * 2 ^ e)%Z
      else ((m mod 2 ^ (- e) =? 0) && (n =? m / 2 ^ (- e)))%Z
  | FNegZero => (n =? 0)%Z
  | FInf _ | FNaN => false
  end.

Definition bool_to_Z (b : bool) : Z := if b then 1%Z else 0%Z.

(** What [json.loads] can return. *)
Inductive json : Type :=
| JNull
| JBool (b : bool)
| JInt (n : Z)
| JFloat (f : pyfloat)
| JStr (s : string)
| JArray (items : list json)
| JObject (items : list (string * json)).

Fixpoint json_value (j : json) : pyval :=
  match j with
  | JNull => PNone
  | JBool b => PBool b
  | JInt n => PInt n
  | JFloat f => PFloat f
  | JStr s => PStr s
  | JArray l => PList (map json_value l)
  | JObject l => PDict (map (fun kv => (PStr (fst kv), json_value (snd kv))) l)
  end.

Section Runtime.

(** What is left to the interpreter and to the libraries the source imports:
    [float(s)] for a text that is not an integer literal ([None] is
    [ValueError]), [json.loads] ([None] is [JSONDecodeError]), the lookup
    [tld.get_tld] ([false] when it raises), and the members of plain values
    that the forwarding wrappers may be asked to call. *)
Variable float_of_text : string -> option pyfloat.
Variable json_loads : string -> option json.
Variable get_tld : string -> bool.
Variable member_call : pyval -> string -> list pyval -> outcome pyval.

(** [int(v)]. *)
Definition py_int (v : pyval) : outcome Z :=
  match v with
  | PInt n => Return n
  | PBool b => Return (bool_to_Z b)
  | PFloat (FFinite m e) =>
      Return (if (0 <=? e)%Z then (m * 2 ^ e)%Z else Z.quot m (2 ^ (- e)))
  | PFloat FNegZero => Return 0%Z
  | PFloat (FInf _) => raise OverflowError [Builtin "int"]
  | PFloat FNaN => raise ValueError [Builtin "int"]
  | PStr s =>
      match int_of_str s with
      | Some n => Return n
      | None => raise ValueError [Builtin "int"]
      end
  | PSecure _ _ => Unmodelled
  | _ => raise TypeError [Builtin "int"]
  end.

(** [float(v)].  An integer literal reads as the nearest double; an [int]
    too large for a double raises [OverflowError]. *)
Definition py_float (v : pyval) : outcome pyfloat :=
  match v with
  | PFloat f => Return f
  | PInt n =>
      match double_of_Z n with
      | FInf _ => raise OverflowError [Builtin "float"]
      | f => Return f
      end
  | PBool b => Return (FFinite (bool_to_Z b) 0)
  | PStr s =>
      match int_literal s with
      | Some (negative, magnitude) => Return (float_of_int_literal negative magnitude)
      | None =>
          match float_of_text s with
          | Some f => Return f
          | None => raise ValueError [Builtin "float"]
          end
      end
  | PSecure _ _ => Unmodelled
  | _ => raise TypeError [Builtin "float"]
  end.

(** ** Exceptions of this package ([exceptions.py]) and sealed classes *)

(** [NoInheritClass.__init__(cls, name, bases, dct)]: after [type.__init__],
    a non-empty [bases] raises [ImmutableError]. *)
Definition NoInheritClass_init {B : Type} (name : string) (bases : list B) : outcome unit :=
  match bases with
  | [] => Return tt
  | _ :: _ => raise ImmutableError [Lit "Subclassing of "; Lit name; Lit " is not allowed"]
  end.

(** ** The masking proxy ([secure_value.py]) *)

Definition compariosn_methods_with_type_error : list string :=
  ["__lt__"; "__le__"; "__gt__"; "__ge__"].

Definition compariosn_methods_with_return : list string :=
  ["__eq__"; "__ne__"].

Definition comparion_method_symbol : list (string * string) :=
  [("__eq__", "=="); ("__ne__", "!="); ("__lt__", "<");
   ("__le__", "<="); ("__gt__", ">"); ("__ge__", ">=")].

Fixpoint assoc {A} (k : string) (l : list (string * A)) : option A :=
  match l with
  | [] => None
  | (k', a) :: rest => if String.eqb k k' then Some a else assoc k rest
  end.

(** [check_inheritable_class(class_name)]: defining [class Test(class_name)]
    raises [TypeError] for the classes that cannot be extended, which is
    caught; for [ConfigValue] the metaclass raises [ImmutableError], which is
    not. *)
Definition check_inheritable_class (c : pyclass) : outcome bool :=
  match c with
  | CNoneType | CNotImplementedType | Cbool | Cfunction => Return false
  | CConfigValue =>
      let* _ := NoInheritClass_init "Test" [c] in Return true
  | _ => Return true
  end.

(** The member names that [CreateSecureValue] never forwards. *)
Definition exceptions (value : pyval) : list string :=
  ["__str__"; "__repr__"; "__class__"; "__getattribute__"; "__new__"; "__init__";
   "__" ++ class_name (type_of value) ++ "__"].

Definition is_secure (v : pyval) : bool :=
  match v with PSecure _ _ => true | _ => false end.

(** [CreateSecureValue(value, is_mutable, ignored_class, ignored_method)].
    The result is [value] itself or an instance of a fresh [SecureValue]
    class, [PSecure form value].

    Immutable form: [class SecureValue(value_class)] with [__init__],
    [__str__], [__repr__] and the property [unmasked]; the instance is
    [SecureValue(value)].  Mutable form: the class is built by [type(...)]
    with a forwarding wrapper for every method of [value] outside
    [exceptions], and the instance by [SecureValue.__new__(SecureValue)].
    Wrapping a value that is itself a proxy in the mutable form, or a
    mutable proxy in the immutable form, runs the copied or forwarded
    members of the inner proxy and is not modelled. *)
Definition CreateSecureValue (value : pyval) (is_mutable : bool)
    (ignored_class : option pyclass) (ignored_method : option (list string))
  : outcome pyval :=
  if match ignored_class with
     | Some c => isinstance value c
     | None => false
     end || isinstance value CNoneType
  then Return value
  else
    let ignored_method :=
      match ignored_method with
      | None | Some [] => ["__len__"]
      | Some l => l
      end in
    let value_class := if isinstance value Cbool then Cint else type_of value in
    if negb is_mutable then
      let* inheritable := check_inheritable_class value_class in
      if negb inheritable then Return value
      else match value with
           | PSecure (Mutable _ _) _ => Unmodelled
           | _ => Return (PSecure Immutable value)
           end
    else
      let* inheritable := check_inheritable_class value_class in
      if negb inheritable then Return value
      else if is_secure value then Unmodelled
      else Return (PSecure (Mutable ignored_class ignored_method) value).

(** [self._original_data], and the property [unmasked] that returns it. *)
Definition _original_data (self : pyval) : outcome pyval :=
  match self with
  | PSecure _ original => Return original
  | _ => raise AttributeError [Builtin "_original_data"]
  end.

Definition unmasked (self : pyval) : outcome pyval :=
  match self with
  | PSecure _ _ => _original_data self
  | _ => raise AttributeError [Builtin "unmasked"]
  end.

(** [str(v)] and [repr(v)] where the classes of this package define them:
    both display members of a [SecureValue] return the marker. *)
Definition py_str (v : pyval) : outcome string :=
  match v with
  | PSecure _ _ => Return "******"
  | PStr s => Return s
  | _ => Unmodelled
  end.

Definition py_repr (v : pyval) : outcome string :=
  match v with
  | PSecure _ _ => Return "******"
  | _ => Unmodelled
  end.

(** [v.__eq__(a)] on a plain value for a [str] argument.  Every value of
    [pyval] keeps the [__eq__] of its built-in class or of [object]: an
    instance of a class that defines [__eq__] itself is not among them. *)
Definition eq_member (v a : pyval) : option pyval :=
  match v, a with
  | PSecure _ _, _ => None
  | PStr t, PStr s => Some (PBool (String.eqb t s))
  | _, PStr _ => Some PNotImplemented
  | _, _ => None
  end.

(** The call [getattr(original, name)] applied to [args]. *)
Definition getattr_call (original : pyval) (name : string) (args : list pyval)
  : outcome pyval :=
  match original with
  | PSecure _ _ => Unmodelled
  | _ =>
      match (if String.eqb name "__eq__" then
               match args with [a] => eq_member original a | _ => None end
             else None) with
      | Some r => Return r
      | None => member_call original name args
      end
  end.

Definition is_None (v : pyval) : bool :=
  match v with PNone => true | _ => false end.

Definition is_NotImplemented (v : pyval) : bool :=
  match v with PNotImplemented => true | _ => false end.

(** The function [wrapped] returned by
    [method_wrapper(method, ignored_class, ignored_methods)], where
    [method.__name__] is [name]. *)
Definition method_wrapper (name : string) (ignored_class : option pyclass)
    (ignored_methods : list string) (self : pyval) (args : list pyval)
  : outcome pyval :=
  let* original := _original_data self in
  let* result := getattr_call original name args in
  if is_None result
     || match ignored_class with
        | Some c => isinstance result c
        | None => false
        end
     || str_in name ignored_methods
  then Return result
  else if is_NotImplemented result && str_in name compariosn_methods_with_type_error then
    match args with
    | [] => raise IndexError [Builtin "args[0]"]
    | value :: _ =>
        match assoc name comparion_method_symbol with
        | None => raise KeyError [Lit name]
        | Some symbol =>
            raise TypeError
              [Lit "'"; Lit symbol; Lit "' not supported between instances of '";
               Lit (class_name (type_of self)); Lit "' and '";
               Lit (class_name (type_of value)); Lit "'"]
        end
    end
  else if is_NotImplemented result && str_in name compariosn_methods_with_return then
    Return (PBool false)
  else CreateSecureValue result true ignored_class (Some ignored_methods).

(** The text held by an instance of [str] or of an immutable-form subclass
    of it: [SecureValue(value)] builds it as [str(value)]. *)
Definition str_content (v : pyval) : option string :=
  match v with
  | PStr s => Some s
  | PSecure Immutable (PStr s) => Some s
  | PSecure Immutable (PSecure f o) =>
      if issubclass (type_of (PSecure f o)) Cstr then Some "******" else None
  | _ => None
  end.

(** [a == "s"].  A plain value or an immutable-form proxy compares by what
    it holds.  A mutable-form proxy forwards [__eq__] to the original value
    and wraps what comes back; when [__eq__] is not forwarded (the class of
    the original is itself named [eq]) the comparison inherited from
    [object] answers, by identity. *)
Definition py_eq_str (a : pyval) (s : string) : outcome pyval :=
  match a with
  | PSecure (Mutable ignored_class ignored_methods) original =>
      if str_in "__eq__" (exceptions original) then Return (PBool false)
      else
        let* r := method_wrapper "__eq__" ignored_class ignored_methods a [PStr s] in
        if is_NotImplemented r then Unmodelled else Return r
  | _ =>
      match str_content a with
      | Some t => Return (PBool (String.eqb t s))
      | None => Return (PBool false)
      end
  end.

(** [bool(v)], the truth value taken by an [if].  In a mutable-form proxy of
    a [bool] the member [__bool__] is named after the class of the wrapped
    value and so is not forwarded: the truth value is that of the [int]
    made by [SecureValue.__new__(SecureValue)], which is [0]. *)
Definition py_truth (v : pyval) : outcome bool :=
  match v with
  | PNone => Return false
  | PBool b => Return b
  | PInt n => Return (negb (n =? 0)%Z)
  | PFloat (FFinite m _) => Return (negb (m =? 0)%Z)
  | PFloat FNegZero => Return false
  | PFloat _ => Return true
  | PStr s => Return (negb (String.eqb s EmptyString))
  | PList l => Return (match l with [] => false | _ => true end)
  | PDict l => Return (match l with [] => false | _ => true end)
  | PFunc _ | PObj _ _ | PConfigValue _ => Return true
  | PSecure (Mutable _ _) (PBool b) =>
      if str_in "__bool__" (exceptions (PBool b)) then Return false else Unmodelled
  | _ => Unmodelled
  end.

(** ** The global masking policy ([global_vars.py]) *)

Record policy : Type := {
  show_secured_values : bool;
  make_secured_values_mutable : bool
}.

(** ** Type descriptors ([classes.py]) *)

Inductive dkind : Type :=
| KString | KInteger | KPositiveInteger | KNegativeInteger | KFloat | KBoolean
| KList | KDict | KAny | KSecret | KStrongPassword | KEmail.

(** The attributes of a descriptor object.  [value] is [None] while the
    attribute [self.value] does not exist.  [convert] is [false] when the
    constructor replaced [convert_type] by [lambda: None].  A caller's
    validator either returns ([None]) or raises.  The attributes from
    [min_length] to [special_chars_list] exist on a StrongPassword
    descriptor only, [support_boolean] and [support_inf] on the numeric
    ones; elsewhere the record holds defaults that no stage reads. *)
Record descriptor : Type := {
  kind : dkind;
  data_type : pyclass;
  datatype_name : string;
  mask_value : bool;
  convert : bool;
  support_boolean : bool;
  support_inf : bool;
  min_length : Z;
  max_length : option Z;             (* [None]: [float("inf")] *)
  special_chars : bool;
  numbers : bool;
  uppercase : bool;
  lowercase : bool;
  special_chars_list : string;
  user_validator : option (pyval -> option exception);
  value : option pyval
}.

Definition with_value (d : descriptor) (v : pyval) : descriptor :=
  {| kind := kind d; data_type := data_type d; datatype_name := datatype_name d;
     mask_value := mask_value d; convert := convert d;
     support_boolean := support_boolean d; support_inf := support_inf d;
     min_length := min_length d; max_length := max_length d;
     special_chars := special_chars d; numbers := numbers d;
     uppercase := uppercase d; lowercase := lowercase d;
     special_chars_list := special_chars_list d;
     user_validator := user_validator d; value := Some v |}.

Definition SPECIAL_CHARS : string := "!@#$%^&*()_+".

(** [StandardDataType.__init__(datatype, datatype_name, value_validator)]
    with the attributes the subclasses set around it. *)
Definition StandardDataType (k : dkind) (datatype : pyclass) (name : string)
    (value_validator : option (pyval -> option exception)) : descriptor :=
  {| kind := k; data_type := datatype; datatype_name := name;
     mask_value := false; convert := true;
     support_boolean := false; support_inf := false;
     min_length := 8; max_length := None;
     special_chars := true; numbers := true; uppercase := true; lowercase := true;
     special_chars_list := SPECIAL_CHARS;
     user_validator := value_validator; value := None |}.

Definition set_convert (c : bool) (d : descriptor) : descriptor :=
  {| kind := kind d; data_type := data_type d; datatype_name := datatype_name d;
     mask_value := mask_value d; convert := c;
     support_boolean := support_boolean d; support_inf := support_inf d;
     min_length := min_length d; max_length := max_length d;
     special_chars := special_chars d; numbers := numbers d;
     uppercase := uppercase d; lowercase := lowercase d;
     special_chars_list := special_chars_list d;
     user_validator := user_validator d; value := value d |}.

Definition set_support (sb si : bool) (d : descriptor) : descriptor :=
  {| kind := kind d; data_type := data_type d; datatype_name := datatype_name d;
     mask_value := mask_value d; convert := convert d;
     support_boolean := sb; support_inf := si;
     min_length := min_length d; max_length := max_length d;
     special_chars := special_chars d; numbers := numbers d;
     uppercase := uppercase d; lowercase := lowercase d;
     special_chars_list := special_chars_list d;
     user_validator := user_validator d; value := value d |}.

Definition set_mask (m : bool) (d : descriptor) : descriptor :=
  {| kind := kind d; data_type := data_type d; datatype_name := datatype_name d;
     mask_value := m; convert := convert d;
     support_boolean := support_boolean d; support_inf := support_inf d;
     min_length := min_length d; max_length := max_length d;
     special_chars := special_chars d; numbers := numbers d;
     uppercase := uppercase d; lowercase := lowercase d;
     special_chars_list := special_chars_list d;
     user_validator := user_validator d; value := value d |}.

Definition StringDataType value_validator : descriptor :=
  StandardDataType KString Cstr "string" value_validator.

Definition IntegerDataType value_validator (convert support_boolean : bool) : descriptor :=
  set_convert convert
    (set_support support_boolean false
       (StandardDataType KInteger Cint "integer" value_validator)).

Definition PositiveIntegerDataType value_validator (convert : bool) : descriptor :=
  set_convert convert (StandardDataType KPositiveInteger Cint "integer" value_validator).

Definition NegativeIntegerDataType value_validator (convert : bool) : descriptor :=
  set_convert convert (StandardDataType KNegativeInteger Cint "integer" value_validator).

Definition FloatDataType value_validator (convert support_inf support_boolean : bool)
  : descriptor :=
  set_convert convert
    (set_support support_boolean support_inf
       (StandardDataType KFloat Cfloat "float" value_validator)).

Definition BooleanDataType value_validator (convert : bool) : descriptor :=
  set_convert convert (StandardDataType KBoolean Cbool "boolean" value_validator).

Definition ListDataType value_validator (convert : bool) : descriptor :=
  set_convert convert (StandardDataType KList Clist "list" value_validator).

Definition DictDataType value_validator (convert : bool) : descriptor :=
  set_convert convert (StandardDataType KDict Cdict "dictionary" value_validator).

Definition AnyDataType value_validator : descriptor :=
  StandardDataType KAny Cobject "any" value_validator.

Definition SecretDataType value_validator : descriptor :=
  set_mask true (StandardDataType KSecret Cobject "string" value_validator).

Definition EmailDataType value_validator : descriptor :=
  StandardDataType KEmail Cstr "string" value_validator.

(** [StrongPasswordDataType.__init__].  [max_length or inf] and
    [special_chars_list or SPECIAL_CHARS] take the default for a missing
    argument and for the falsy [0] and empty string; a list of characters
    is joined into a string by [__validate_special_chars]. *)
Definition StrongPasswordDataType value_validator (min_length : Z)
    (max_length : option Z) (special_chars numbers uppercase lowercase : bool)
    (special_chars_list : option string) : descriptor :=
  {| kind := KStrongPassword; data_type := Cobject; datatype_name := "string";
     mask_value := true; convert := true;
     support_boolean := false; support_inf := false;
     min_length := min_length;
     max_length := match max_length with
                   | Some 0%Z | None => None
                   | Some m => Some m
                   end;
     special_chars := special_chars; numbers := numbers;
     uppercase := uppercase; lowercase := lowercase;
     special_chars_list := match special_chars_list with
                           | Some EmptyString | None => SPECIAL_CHARS
                           | Some l => l
                           end;
     user_validator := value_validator; value := None |}.

(** *** The stages of the pipeline, in the state of one descriptor *)

Definition step (A : Type) : Type := descriptor -> outcome A * descriptor.

Definition sret {A} (a : A) : step A := fun d => (Return a, d).

Definition sbind {A B} (c : step A) (k : A -> step B) : step B :=
  fun d =>
    match c d with
    | (Return a, d') => k a d'
    | (Raise e, d') => (Raise e, d')
    | (Unmodelled, d') => (Unmodelled, d')
    end.

Definition lift {A} (o : outcome A) : step A := fun d => (o, d).

Notation "'run*' x ':=' c 'in' k" := (sbind c (fun x => k))
  (at level 10, x name, c at level 100, k at level 200).

Definition sraise {A} (t : exc_class) (m : list msg_part) : step A :=
  lift (raise t m).

(** Reading [self.value]. *)
Definition get_value : step pyval :=
  fun d =>
    match value d with
    | Some v => (Return v, d)
    | None => (raise AttributeError [Builtin "value"], d)
    end.

(** The assignment [self.value = v]. *)
Definition put_value (v : pyval) : step unit :=
  fun d => (Return tt, with_value d v).

(** [BaseDataType.precheck_empty_value]. *)
Definition precheck_empty_value : step unit :=
  fun d =>
    match value d with
    | None => (raise ValueError [Lit "Value not set."], d)
    | Some v =>
        lift (let* r := py_eq_str v "NOT_SET" in
              let* unset := py_truth r in
              if unset then raise ValueError [Lit "Value not set."]
              else Return tt) d
    end.

(** [IntegerDataType.convert_type].  The handler of the [try] logs and
    raises the exception again; logging does not change the outcome. *)
Definition Integer_convert_type : step unit :=
  fun d =>
    (run* v := get_value in
     if isinstance v Cint && negb (isinstance v Cbool && negb (support_boolean d))
     then
       run* n := lift (py_int v) in put_value (PInt n)
     else
       run* int_value := lift (py_int v) in
       run* float_value := lift (py_float v) in
       if negb (Z_eq_float int_value float_value)
          || negb (existsb (class_eqb (type_of v)) [Cstr; Cfloat])
       then sraise ValueError
              [Lit "Value "; Fmt v;
               Lit " must be an integer not of type float or boolean."]
       else put_value (PInt int_value)) d.

(** [FloatDataType.convert_type]. *)
Definition Float_convert_type : step unit :=
  fun d =>
    (run* v := get_value in
     if isinstance v Cfloat && negb (isinstance v Cbool && negb (support_boolean d))
     then sret tt
     else
       run* _ :=
         (if negb (support_inf d) && isinstance v Cstr then
            match v with
            | PStr s =>
                if str_in (strip (lower s)) ["inf"; "-inf"]
                then sraise ValueError [Lit "Value "; Fmt v; Lit " must be a finite float."]
                else sret tt
            | _ => lift Unmodelled
            end
          else sret tt) in
       if negb (support_boolean d) && isinstance v Cbool
       then sraise ValueError
              [Lit "Value "; Fmt v; Lit " must be a float and not a boolean."]
       else
         run* f := lift (py_float v) in put_value (PFloat f)) d.

(** [BooleanDataType.convert_type]. *)
Definition Boolean_convert_type : step unit :=
  run* v := get_value in
  let err_msg :=
    [Lit "Value "; Fmt v;
     Lit " must be in a string format or boolean. Valid values are: true, 1, yes, y, false, 0, no, n."] in
  if isinstance v Cbool then sret tt
  else if isinstance v Cint then
    match v with
    | PInt n =>
        if ((n =? 0) || (n =? 1))%Z then put_value (PBool (negb (n =? 0)%Z))
        else sraise ValueError
               [Lit "Value "; Fmt v;
                Lit " as an interger is not supported for boolean conversion."]
    | _ => lift Unmodelled
    end
  else if negb (isinstance v Cstr) then sraise ValueError err_msg
  else
    match v with
    | PStr s =>
        if str_in (lower (strip s)) ["true"; "1"; "yes"; "y"] then put_value (PBool true)
        else if str_in (lower (strip s)) ["false"; "0"; "no"; "n"] then put_value (PBool false)
        else sraise ValueError err_msg
    | _ => lift Unmodelled
    end.

(** [ListDataType.convert_type] and [DictDataType.convert_type]. *)
Definition json_convert_type (container : pyclass) (what : string) : step unit :=
  run* v := get_value in
  if isinstance v container then sret tt
  else if isinstance v Cstr then
    match v with
    | PStr s =>
        match json_loads s with
        | Some j => put_value (json_value j)
        | None => sraise ValueError
                    [Lit "Value "; Fmt v; Lit " is not a valid "; Lit what;
                     Lit " in JSON format."]
        end
    | _ => lift Unmodelled
    end
  else sret tt.

(** The [convert_type] bound to the descriptor. *)
Definition convert_type : step unit :=
  fun d =>
    (if negb (convert d) then sret tt
     else match kind d with
          | KInteger | KPositiveInteger | KNegativeInteger => Integer_convert_type
          | KFloat => Float_convert_type
          | KBoolean => Boolean_convert_type
          | KList => json_convert_type Clist "list"
          | KDict => json_convert_type Cdict "dictionary"
          | _ => sret tt
          end) d.

(** [StandardDataType.validate_type]. *)
Definition validate_type : step unit :=
  fun d =>
    (run* v := get_value in
     if negb (isinstance v (data_type d))
     then sraise TypeError
            [Lit "Data must be of type "; Lit (datatype_name d); Lit " for value ";
             Fmt v; Lit "."]
     else sret tt) d.

(** [len(v)]. *)
Definition py_len (v : pyval) : outcome Z :=
  match v with
  | PStr s => Return (Z.of_nat (String.length s))
  | PList l => Return (Z.of_nat (List.length l))
  | PDict l => Return (Z.of_nat (List.length l))
  | PSecure _ _ => Unmodelled
  | _ => raise TypeError [Builtin "len"]
  end.

(** The subject of [re.search] and [re.match] must be a string. *)
Definition re_subject (v : pyval) : outcome string :=
  match v with
  | PStr s => Return s
  | PSecure _ _ => Unmodelled
  | _ => raise TypeError [Builtin "re"]
  end.

(** *** StrongPassword *)

Definition upper_pattern : regex := RSet false [("A", "Z")]%char.      (* [A-Z] *)
Definition lower_pattern : regex := RSet false [("a", "z")]%char.      (* [a-z] *)
Definition digit_pattern : regex := RSet false [("0", "9")]%char.      (* \d *)

(** The pattern [f"[{special_chars_list}]"].  It is a set of the listed
    characters when none of them has a meaning of its own inside a
    character class; other lists are not modelled. *)
Definition plain_class_body (l : string) : bool :=
  match l with
  | EmptyString => false
  | String c _ =>
      negb (Ascii.eqb c "^")
      && negb (contains_char "\" l) && negb (contains_char "]" l)
      && negb (contains_char "[" l) && negb (contains_char "-" l)
  end.

Definition special_pattern (l : string) : option regex :=
  if plain_class_body l then Some (RSet false (singles l)) else None.

(** 1234|abcd|qwerty|password|abc@123|password@123|12345678 *)
Definition common_patterns : regex :=
  alts (map lits ["1234"; "abcd"; "qwerty"; "password"; "abc@123";
                  "password@123"; "12345678"]).

(** [StrongPasswordDataType._value_validator]. *)
Definition StrongPassword_value_validator : step unit :=
  fun d =>
    (run* v := get_value in
     run* password_value :=
       (if String.eqb (class_name (type_of v)) "SecureValue"
        then lift (_original_data v) else sret v) in
     run* n := lift (py_len password_value) in
     if (n <? min_length d)%Z then
       sraise ValueError
         [Lit "Password must be at least "; Fmt (PInt (min_length d));
          Lit " characters long."]
     else if match max_length d with
             | Some m => (m <? n)%Z
             | None => false
             end then
       sraise ValueError
         [Lit "Password must be at most ";
          Fmt (match max_length d with Some m => PInt m | None => PFloat (FInf false) end);
          Lit " characters long."]
     else
       run* s := lift (re_subject password_value) in
       if negb (re_search false upper_pattern s) then
         sraise ValueError [Lit "Password must contain at least one uppercase letter."]
       else if negb (re_search false lower_pattern s) then
         sraise ValueError [Lit "Password must contain at least one lowercase letter."]
       else if negb (re_search false digit_pattern s) then
         sraise ValueError [Lit "Password must contain at least one digit."]
       else
         match special_pattern (special_chars_list d) with
         | None => lift Unmodelled
         | Some special =>
             if negb (re_search false special s) then
               sraise ValueError
                 [Lit "Password must contain at least one special character."]
             else if re_search true common_patterns s then
               sraise ValueError
                 [Lit "Password should not contain common patterns or sequences."]
             else sret tt
         end) d.

(** *** Email *)

(** [^@]+@[^@]+\.[^@]+ *)
Definition email_pattern : regex :=
  RSeq (RPlusSet true (singles "@"))
    (RSeq (RLit "@")
       (RSeq (RPlusSet true (singles "@"))
          (RSeq (RLit ".") (RPlusSet true (singles "@"))))).

Definition domain_chars : list (ascii * ascii) :=
  [("a", "z"); ("A", "Z"); ("0", "9"); (".", "."); ("-", "-")]%char.

(** ^[a-zA-Z0-9.-]+$ *)
Definition domain_pattern : regex :=
  RSeq RBegin (RSeq (RPlusSet false domain_chars) REnd).

(** https?://(?:www\.)?([a-zA-Z0-9.-]+) *)
Definition url_pattern : regex :=
  RSeq (lits "http")
    (RSeq (ROpt (RLit "s"))
       (RSeq (lits "://")
          (RSeq (ROpt (lits "www.")) (RPlusSet false domain_chars)))).

(** [EmailDataType.is_valid_domain_name]. *)
Definition is_valid_domain_name (domain_name : string) : bool :=
  if negb (re_match false domain_pattern domain_name) then false
  else
    let url := "http://" ++ domain_name in
    if negb (re_match false url_pattern url) then false
    else get_tld url.

(** [EmailDataType._value_validator]. *)
Definition Email_value_validator : step unit :=
  run* v := get_value in
  run* s := lift (re_subject v) in
  let invalid := [Lit "Value '"; Fmt v; Lit "' is not a valid email address."] in
  if negb (re_match false email_pattern s) then sraise ValueError invalid
  else
    match split_on "@" s with
    | [_; domain] =>
        if negb (is_valid_domain_name domain) then sraise ValueError invalid
        else sret tt
    | _ => sret tt
    end.

(** The sign of a number compared with the [int] [0]: [-1], [0] or [1];
    a NaN compares false both ways and has none. *)
Definition sign_of (v : pyval) : outcome (option Z) :=
  match v with
  | PInt n => Return (Some (Z.sgn n))
  | PBool b => Return (Some (bool_to_Z b))
  | PFloat (FFinite m _) => Return (Some (Z.sgn m))
  | PFloat FNegZero => Return (Some 0%Z)
  | PFloat (FInf negative) => Return (Some (if negative then (-1)%Z else 1%Z))
  | PFloat FNaN => Return None
  | PSecure _ _ => Unmodelled
  | _ => raise TypeError [Builtin "compare"]
  end.

(** [v <= 0] and [v >= 0]. *)
Definition le_zero (v : pyval) : outcome bool :=
  let* s := sign_of v in
  Return (match s with Some z => (z <=? 0)%Z | None => false end).

Definition ge_zero (v : pyval) : outcome bool :=
  let* s := sign_of v in
  Return (match s with Some z => (0 <=? z)%Z | None => false end).

(** The [value_validator] bound to the descriptor: the [_value_validator]
    of its class when there is one. *)
Definition value_validator : step unit :=
  fun d =>
    (match kind d with
     | KString =>
         run* v := get_value in
         if negb (isinstance v Cstr)
         then sraise ValueError [Lit "Value "; Fmt v; Lit " must be a string."]
         else sret tt
     | KInteger =>
         run* v := get_value in
         if negb (isinstance v Cint)
         then sraise ValueError [Lit "Value "; Fmt v; Lit " must be an integer."]
         else sret tt
     | KPositiveInteger =>
         run* v := get_value in
         run* not_positive := lift (le_zero v) in
         if not_positive
         then sraise ValueError [Lit "Value "; Fmt v; Lit " must be a positive integer."]
         else sret tt
     | KNegativeInteger =>
         run* v := get_value in
         run* not_negative := lift (ge_zero v) in
         if not_negative
         then sraise ValueError [Lit "Value "; Fmt v; Lit " must be a negative integer."]
         else sret tt
     | KStrongPassword => StrongPassword_value_validator
     | KEmail => Email_value_validator
     | _ => sret tt
     end) d.

(** [self.user_validator(self.value)]. *)
Definition call_user_validator : step unit :=
  fun d =>
    (run* v := get_value in
     match user_validator d with
     | None => sret tt
     | Some check =>
         match check v with
         | None => sret tt
         | Some e => lift (Raise e)
         end
     end) d.

(** [StandardDataType.convert_to_secure_value]. *)
Definition convert_to_secure_value (pol : policy) (d : descriptor) (v : pyval)
  : outcome pyval :=
  if mask_value d && negb (show_secured_values pol)
  then CreateSecureValue v (make_secured_values_mutable pol) (Some CConfigValue) None
  else Return v.

(** [StandardDataType.__set_value__(value)]. *)
Definition set_value (pol : policy) (raw : pyval) : step unit :=
  fun d =>
    (run* v := lift (convert_to_secure_value pol d raw) in
     run* _ := put_value v in
     run* _ := precheck_empty_value in
     run* _ := convert_type in
     run* _ := validate_type in
     run* _ := value_validator in
     call_user_validator) d.

End Runtime.

(** ** Configuration cells and their collection ([classes.py]) *)

(** A [ConfigValue]: [__init__] stores the validator and copies the value
    it holds at that moment. *)
Record ConfigValue : Type := {
  cv_value_validator : descriptor;
  cv_value : pyval
}.

Definition ConfigValue_init (validator : descriptor) : outcome ConfigValue :=
  match value validator with
  | Some v => Return {| cv_value_validator := validator; cv_value := v |}
  | None => raise AttributeError [Builtin "value"]
  end.

(** The entries of a [dict], in insertion order, keys unique. *)
Fixpoint dict_get {A} (k : string) (l : list (string * A)) : option A :=
  match l with
  | [] => None
  | (k', a) :: rest => if String.eqb k k' then Some a else dict_get k rest
  end.

Fixpoint dict_set {A} (k : string) (a : A) (l : list (string * A)) : list (string * A) :=
  match l with
  | [] => [(k, a)]
  | (k', a') :: rest =>
      if String.eqb k k' then (k, a) :: rest else (k', a') :: dict_set k a rest
  end.

Fixpoint dict_del {A} (k : string) (l : list (string * A)) : list (string * A) :=
  match l with
  | [] => []
  | (k', a') :: rest =>
      if String.eqb k k' then rest else (k', a') :: dict_del k rest
  end.

(** An [EnvConfig] object: the entries of the underlying [dict] and the
    instance attributes, among them the flag [is_dict_initialized]. *)
Record EnvConfig : Type := {
  entries : list (string * ConfigValue);
  attributes : gmap string pyval
}.

Section EnvConfigMethods.

(** The names found on the class: the methods of [dict] and of [EnvConfig]. *)
Variable class_attribute : string -> bool.

Definition method (A : Type) : Type := EnvConfig -> outcome A * EnvConfig.

(** [getattr(self, name)] succeeds on an instance or class attribute. *)
Definition has_attribute (self : EnvConfig) (name : string) : bool :=
  match attributes self !! name with
  | Some _ => true
  | None => class_attribute name
  end.

(** [setattr(self, name, v)]. *)
Definition set_attribute (name : string) (v : pyval) (self : EnvConfig) : EnvConfig :=
  {| entries := entries self; attributes := <[name := v]> (attributes self) |}.

(** [try: delattr(self, name) except AttributeError: pass].  Two names are
    no plain attributes: deleting [__class__] raises a [TypeError], which
    the handler does not catch, and deleting [__dict__] takes every
    instance attribute away.  Under any other name the instance attribute
    is deleted, and the [AttributeError] of a missing one is passed over. *)
Definition try_delattr (name : string) : method unit :=
  fun self =>
    if String.eqb name "__class__" then (raise TypeError [Builtin "delattr"], self)
    else if String.eqb name "__dict__" then
      (Return tt, {| entries := entries self; attributes := ∅ |})
    else
      (Return tt,
       {| entries := entries self; attributes := delete name (attributes self) |}).

Definition with_entries (l : list (string * ConfigValue)) (self : EnvConfig) : EnvConfig :=
  {| entries := l; attributes := attributes self |}.

(** [EnvConfig.__init__(mapping)]: the entries are stored, the flag is
    cleared, every key that is not yet an attribute becomes one holding the
    unwrapped value, and the flag is set. *)
Definition EnvConfig_init (mapping : list (string * ConfigValue)) : EnvConfig :=
  let stored := fold_left (fun acc kv => dict_set (fst kv) (snd kv) acc) mapping [] in
  let self0 :=
    {| entries := stored;
       attributes := {[ "is_dict_initialized" := PBool false ]} |} in
  let self1 :=
    fold_left
      (fun self kv =>
         if has_attribute self (fst kv) then self
         else set_attribute (fst kv) (cv_value (snd kv)) self)
      stored self0 in
  set_attribute "is_dict_initialized" (PBool true) self1.

(** [EnvConfig.get(key, default)]. *)
Definition EnvConfig_get (key : string) (default : pyval) (self : EnvConfig) : pyval :=
  match dict_get key (entries self) with
  | Some cell => cv_value cell
  | None =>
      match default with
      | PConfigValue v => v
      | _ => default
      end
  end.

(** [EnvConfig.__getitem__(key)]. *)
Definition EnvConfig_getitem (key : string) (self : EnvConfig) : outcome pyval :=
  match dict_get key (entries self) with
  | Some cell => Return (cv_value cell)
  | None => raise KeyError [Lit key]
  end.

(** [dict.keys], which [EnvConfig] inherits. *)
Definition EnvConfig_keys (self : EnvConfig) : list string :=
  map fst (entries self).

(** [EnvConfig.__setitem__(key, value)] for a [ConfigValue]; any other
    value raises [ValueError] once the flag has been found false. *)
Definition EnvConfig_setitem (key : string) (new : ConfigValue + pyval)
  : method unit :=
  fun self =>
    match attributes self !! "is_dict_initialized" with
    | None => (raise AttributeError [Builtin "is_dict_initialized"], self)
    | Some flag =>
        match py_truth flag with
        | Return true =>
            (raise ImmutableError
               [Lit "Cannot set or update values of the environment config once initalized."],
             self)
        | Return false =>
            match new with
            | inr _ =>
                (raise ValueError [Lit "Value must be an instance of ConfigValue."], self)
            | inl cell =>
                let self1 := with_entries (dict_set key cell (entries self)) self in
                if has_attribute self1 key then (Return tt, self1)
                else (Return tt, set_attribute key PNone self1)
            end
        | Raise e => (Raise e, self)
        | Unmodelled => (Unmodelled, self)
        end
    end.

(** [EnvConfig.__delitem__(key)]. *)
Definition EnvConfig_delitem (key : string) : method unit :=
  fun self =>
    match dict_get key (entries self) with
    | None => (raise KeyError [Lit key], self)
    | Some _ => try_delattr key (with_entries (dict_del key (entries self)) self)
    end.

(** [EnvConfig.pop(key, default)]: what is removed comes back as stored,
    a cell and not its unwrapped value. *)
Definition EnvConfig_pop (key : string) (default : pyval) : method pyval :=
  fun self =>
    let r :=
      match dict_get key (entries self) with
      | Some cell => PConfigValue (cv_value cell)
      | None => default
      end in
    let '(deleted, after) :=
      try_delattr key (with_entries (dict_del key (entries self)) self) in
    (let* _ := deleted in Return r, after).

(** [EnvConfig.popitem()]: the entry inserted last. *)
Definition EnvConfig_popitem : method (string * ConfigValue) :=
  fun self =>
    match rev (entries self) with
    | [] => (raise KeyError [Builtin "popitem"], self)
    | (key, cell) :: earlier =>
        let '(deleted, after) := try_delattr key (with_entries (rev earlier) self) in
        (let* _ := deleted in Return (key, cell), after)
    end.

End EnvConfigMethods.

(** ** Class definitions and the metaclass [NoInheritClass] *)




















(** ** The password rules as the specification lists them *)

(** The rules of the StrongPassword check, in the order in which the
    specification says they fail. *)
Inductive password_rule : Type :=
| TooShort | TooLong | MissingUppercase | MissingLowercase | MissingDigit
| MissingSpecial | CommonPattern.

Definition rule_order : list password_rule :=
  [TooShort; TooLong; MissingUppercase; MissingLowercase; MissingDigit;
   MissingSpecial; CommonPattern].

Definition deny_list : list string :=
  ["1234"; "abcd"; "qwerty"; "password"; "abc@123"; "password@123"; "12345678"].

Definition has_char (p : ascii -> bool) (s : string) : bool :=
  existsb p (list_ascii_of_string s).

(** [p] occurs at the start of [s], letter case aside. *)
Fixpoint prefix_ci (p s : string) : bool :=
  match p, s with
  | EmptyString, _ => true
  | String _ _, EmptyString => false
  | String a p', String b s' =>
      Ascii.eqb (lower_char b) (lower_char a) && prefix_ci p' s'
  end.

(** [p] occurs somewhere in [s], letter case aside. *)
Fixpoint contains_ci (p s : string) : bool :=
  prefix_ci p s
  || match s with
     | EmptyString => false
     | String _ t => contains_ci p t
     end.

(** Whether the password [pw] breaks the rule [r] of the descriptor [d]. *)
Definition violates (d : descriptor) (pw : string) (r : password_rule) : bool :=
  match r with
  | TooShort => (Z.of_nat (String.length pw) <? min_length d)%Z
  | TooLong =>
      match max_length d with
      | Some m => (m <? Z.of_nat (String.length pw))%Z
      | None => false
      end
  | MissingUppercase => negb (has_char (in_range "A" "Z") pw)
  | MissingLowercase => negb (has_char (in_range "a" "z") pw)
  | MissingDigit => negb (has_char (in_range "0" "9") pw)
  | MissingSpecial =>
      negb (has_char (fun c => contains_char c (special_chars_list d)) pw)
  | CommonPattern => existsb (fun p => contains_ci p pw) deny_list
  end.

Definition first_failing_rule (d : descriptor) (pw : string) : option password_rule :=
  find (violates d pw) rule_order.

(** The message each rule is reported with. *)
Definition rule_message (d : descriptor) (r : password_rule) : list msg_part :=
  match r with
  | TooShort =>
      [Lit "Password must be at least "; Fmt (PInt (min_length d));
       Lit " characters long."]
  | TooLong =>
      [Lit "Password must be at most ";
       Fmt (match max_length d with Some m => PInt m | None => PFloat (FInf false) end);
       Lit " characters long."]
  | MissingUppercase => [Lit "Password must contain at least one uppercase letter."]
  | MissingLowercase => [Lit "Password must contain at least one lowercase letter."]
  | MissingDigit => [Lit "Password must contain at least one digit."]
  | MissingSpecial => [Lit "Password must contain at least one special character."]
  | CommonPattern => [Lit "Password should not contain common patterns or sequences."]
  end.

Definition default_password : descriptor :=
  StrongPasswordDataType None 8 None true true true true None.


(** ** Sample objects for the examples *)

(** The public names that [getattr] finds on the class [EnvConfig]: the
    methods of [dict] and [get_config_value]. *)
Definition public_class_names (name : string) : bool :=
  str_in name
    ["clear"; "copy"; "fromkeys"; "get"; "items"; "keys"; "pop"; "popitem";
     "setdefault"; "update"; "values"; "get_config_value"].



Definition reveal_off_immutable : policy :=
  {| show_secured_values := false; make_secured_values_mutable := false |}.

Definition reveal_off_mutable : policy :=
  {| show_secured_values := false; make_secured_values_mutable := true |}.

(** The interpreter and the libraries reduced to their failing answers:
    no text is a float, no text is JSON, every domain lookup raises. *)
Definition no_float : string -> option pyfloat := fun _ => None.
Definition no_json : string -> option json := fun _ => None.
Definition no_tld : string -> bool := fun _ => false.
Definition no_member : pyval -> string -> list pyval -> outcome pyval :=
  fun _ _ _ => Unmodelled.

(** The descriptors a program can hold: what the twelve constructors build,
    in any state a call of [__set_value__] leaves. *)
Inductive variant : descriptor -> Prop :=
| variant_String check : variant (StringDataType check)
| variant_Integer check conv sb : variant (IntegerDataType check conv sb)
| variant_PositiveInteger check conv : variant (PositiveIntegerDataType check conv)
| variant_NegativeInteger check conv : variant (NegativeIntegerDataType check conv)
| variant_Float check conv si sb : variant (FloatDataType check conv si sb)
| variant_Boolean check conv : variant (BooleanDataType check conv)
| variant_List check conv : variant (ListDataType check conv)
| variant_Dict check conv : variant (DictDataType check conv)
| variant_Any check : variant (AnyDataType check)
| variant_Secret check : variant (SecretDataType check)
| variant_StrongPassword check min max sc nb up lo scl :
    variant (StrongPasswordDataType check min max sc nb up lo scl)
| variant_Email check : variant (EmailDataType check)
| variant_state d v : variant d -> variant (with_value d v).

(** ** Auxiliary notions for the proofs *)

(** A stage that leaves the descriptor as it found it. *)
Definition pure_step {A} (c : step A) : Prop := forall d, snd (c d) = d.




(** ** Further notions used by the properties of the pipeline *)

(** The assignment [self.user_validator = check] that
    [StandardDataType.__init__] makes for a caller's validator; [None]
    leaves the method of the class, which returns. *)
Definition with_user_validator (check : option (pyval -> option exception))
    (d : descriptor) : descriptor :=
  {| kind := kind d; data_type := data_type d; datatype_name := datatype_name d;
     mask_value := mask_value d; convert := convert d;
     support_boolean := support_boolean d; support_inf := support_inf d;
     min_length := min_length d; max_length := max_length d;
     special_chars := special_chars d; numbers := numbers d;
     uppercase := uppercase d; lowercase := lowercase d;
     special_chars_list := special_chars_list d;
     user_validator := check; value := value d |}.

(** A stage that either leaves the descriptor as it found it or returns
    after one assignment to [self.value]. *)
Definition assigns_once (c : step unit) : Prop :=
  forall d, snd (c d) = d
            \/ exists v, fst (c d) = Return tt /\ snd (c d) = with_value d v.

Notation "'run*' x ':=' c 'in' k" := (sbind c (fun x => k))
  (at level 10, x name, c at level 100, k at level 200).

(** A stage that neither reads nor writes [self.user_validator]. *)
Definition ignores_user_validator {A} (c : step A) : Prop :=
  forall check d,
    c (with_user_validator check d)
    = (fst (c d), with_user_validator check (snd (c d))).

(** The stages of [__set_value__] that come before the call of the
    caller's validator. *)
Definition builtin_stages
    (float_of_text : string -> option pyfloat) (json_loads : string -> option json)
    (get_tld : string -> bool)
    (member_call : pyval -> string -> list pyval -> outcome pyval)
    (pol : policy) (raw : pyval) : step unit :=
  fun d =>
    (run* v := lift (convert_to_secure_value pol d raw) in
     run* _ := put_value v in
     run* _ := precheck_empty_value member_call in
     run* _ := convert_type float_of_text json_loads in
     run* _ := validate_type in
     value_validator get_tld) d.

(** Every character of [s] satisfies [p]. *)
Definition every_char (p : ascii -> bool) (s : string) : bool :=
  forallb p (list_ascii_of_string s).

(** The characters that [is_valid_domain_name] admits in a domain. *)
Definition domain_char (c : ascii) : bool := in_set false domain_chars c.

(** ** The masking proxy: which values can be wrapped *)


(** ** More of [EnvConfig] ([classes.py]) *)

(** [EnvConfig.values()]: the unwrapped values, in the order of the keys. *)
Definition EnvConfig_values (self : EnvConfig) : list pyval :=
  map (fun kv => cv_value (snd kv)) (entries self).

(** [EnvConfig.items()]: the pairs of a key and its unwrapped value. *)
Definition EnvConfig_items (self : EnvConfig) : list (string * pyval) :=
  map (fun kv => (fst kv, cv_value (snd kv))) (entries self).

(** [EnvConfig.get_config_value(key)]. *)
Definition EnvConfig_get_config_value (key : string) (self : EnvConfig) : pyval :=
  EnvConfig_get key PNone self.

(** [sep.join(l)]. *)
Fixpoint join (sep : string) (l : list string) : string :=
  match l with
  | [] => EmptyString
  | [s] => s
  | s :: rest => s ++ sep ++ join sep rest
  end.

Definition quoted (s : string) : string :=
  String (char_of 34) (s ++ String (char_of 34) EmptyString).

(** One element of [prnt_list] in [EnvConfig.__repr__], for a key and the
    value that [items()] pairs with it. *)
Definition repr_item (kv : string * pyval) : outcome string :=
  let key := quoted (fst kv) in
  let value := match snd kv with PConfigValue v => v | v => v end in
  let* shown := py_str value in
  Return (key ++ ": " ++ (if isinstance value Cstr then quoted shown else shown)).

Fixpoint sequence {A} (l : list (outcome A)) : outcome (list A) :=
  match l with
  | [] => Return []
  | o :: rest =>
      let* a := o in
      let* others := sequence rest in
      Return (a :: others)
  end.

(** [EnvConfig.__repr__], which [__str__] returns too. *)
Definition EnvConfig_repr (self : EnvConfig) : outcome string :=
  let* prnt_list := sequence (map repr_item (EnvConfig_items self)) in
  Return ("{" ++ join ", " prnt_list ++ "}").

(** A call of one of the methods of [EnvConfig] that change a [dict]. *)
Inductive mutation : Type :=
| Setitem (key : string) (new : ConfigValue + pyval)
| Delitem (key : string)
| Pop (key : string) (default : pyval)
| Popitem.

(** The object after the call, whether the call returned or raised. *)
Definition mutate (class_attribute : string -> bool) (m : mutation) (self : EnvConfig)
  : EnvConfig :=
  match m with
  | Setitem key new => snd (EnvConfig_setitem class_attribute key new self)
  | Delitem key => snd (EnvConfig_delitem key self)
  | Pop key default => snd (EnvConfig_pop key default self)
  | Popitem => snd (EnvConfig_popitem self)
  end.

Definition mutate_all (class_attribute : string -> bool) (ms : list mutation)
    (self : EnvConfig) : EnvConfig :=
  fold_left (fun s m => mutate class_attribute m s) ms self.

(** ** [BaseEnvironment] ([classes.py]) *)

(** [exceptions.InvalidEnvironmentConfigError(message)], whose [__init__]
    puts a fixed prefix before the message. *)
Definition InvalidEnvironmentConfigError (message : list msg_part) : exception :=
  MkExc (OtherError "InvalidEnvironmentConfigError")
    (Lit "Invalid Environment Config. " :: message).

Section BaseEnvironment.

Variable float_of_text : string -> option pyfloat.
Variable json_loads : string -> option json.
Variable get_tld : string -> bool.
Variable member_call : pyval -> string -> list pyval -> outcome pyval.
Variable class_attribute : string -> bool.
Variable pol : policy.

(** The dictionary [validators]: under a key, a descriptor or some object
    that is no instance of [BaseDataType].  The descriptors are taken to be
    distinct objects, one for each key. *)
Definition validator_table : Type := list (string * (descriptor + pyval)).

(** One turn of the loop of [BaseEnvironment.__load_config]: the validator
    of the key, or a fresh [AnyDataType()], takes the value, and a
    [ConfigValue] is built on it.  The handler of the [try] logs and raises
    the exception again. *)
Definition load_entry (validators : validator_table) (key : string) (value : pyval)
  : outcome ConfigValue :=
  match dict_get key validators with
  | Some (inr _) =>
      Raise (InvalidEnvironmentConfigError
               [Lit "Environment validator for "; Lit key;
                Lit (" must be a subclass of BaseDataType."
                     ++ String (char_of 10) "Import from classes.py")])
  | Some (inl validator) =>
      let '(o, after) :=
        set_value float_of_text json_loads get_tld member_call pol value validator in
      let* _ := o in
      ConfigValue_init after
  | None =>
      let '(o, after) :=
        set_value float_of_text json_loads get_tld member_call pol value
          (AnyDataType None) in
      let* _ := o in
      ConfigValue_init after
  end.

(** The loop over [config.items()], filling [derieved_config]. *)
Fixpoint load_entries (validators : validator_table) (config : list (string * pyval))
    (derieved_config : list (string * ConfigValue))
  : outcome (list (string * ConfigValue)) :=
  match config with
  | [] => Return derieved_config
  | (key, value) :: rest =>
      let* config_value := load_entry validators key value in
      load_entries validators rest (dict_set key config_value derieved_config)
  end.

(** [BaseEnvironment.__load_config(config, validators)]: what is assigned
    to [self.config] when the method returns.  [config] is a dictionary
    with text keys, or some other object. *)
Definition load_config (config : list (string * pyval) + pyval)
    (validators : validator_table) : outcome EnvConfig :=
  match config with
  | inr _ =>
      Raise (InvalidEnvironmentConfigError
               [Lit "Environment configs must be a dictionary."])
  | inl items =>
      let* derieved_config := load_entries validators items [] in
      Return (EnvConfig_init class_attribute derieved_config)
  end.

End BaseEnvironment.

(** The validator that the loop uses for a key. *)
Definition validator_for (V : list (string * (descriptor + pyval))) (key : string) : descriptor :=
  match dict_get key V with
  | Some (inl validator) => validator
  | _ => AnyDataType None
  end.

(** ** The application object ([main.py]) *)

(** The attributes of a [PyAppEnv] object that hold the masking policy, and
    the [value] attributes of the two objects of [global_vars.py] that the
    descriptors read. *)
Record masking_switches : Type := {
  _show_secured_values : pyval;
  _make_secured_values_mutable : pyval;
  glb_show_secured_values : pyval;
  glb_make_secured_values_mutable : pyval
}.

(** [PyAppEnv.set_secured_values(value)]. *)
Definition set_secured_values (v : pyval) (s : masking_switches) : masking_switches :=
  {| _show_secured_values := v;
     _make_secured_values_mutable := _make_secured_values_mutable s;
     glb_show_secured_values := v;
     glb_make_secured_values_mutable := glb_make_secured_values_mutable s |}.

(** [PyAppEnv.set_secured_mutable(value)]. *)
Definition set_secured_mutable (v : pyval) (s : masking_switches) : masking_switches :=
  {| _show_secured_values := _show_secured_values s;
     _make_secured_values_mutable := v;
     glb_show_secured_values := glb_show_secured_values s;
     glb_make_secured_values_mutable := v |}.

(** The setter of the property [show_secured_values].  The attribute is
    always found, on the object or on the class. *)
Definition show_secured_values_setter (v : pyval) (s : masking_switches)
  : outcome unit * masking_switches :=
  if negb (is_None (_show_secured_values s)) then
    (raise ImmutableError [Lit "show_secured_values can only be initalized once."], s)
  else if negb (isinstance v Cbool) then
    (raise TypeError [Lit "show_secured_values must be a boolean."], s)
  else (Return tt, set_secured_values v s).

(** The setter of the property [make_secured_values_mutable]. *)
Definition make_secured_values_mutable_setter (v : pyval) (s : masking_switches)
  : outcome unit * masking_switches :=
  if negb (is_None (_make_secured_values_mutable s)) then
    (raise ImmutableError
       [Lit "make_secured_values_mutable can only be initalized once."], s)
  else if negb (isinstance v Cbool) then
    (raise TypeError [Lit "make_secured_values_mutable must be a boolean."], s)
  else (Return tt, set_secured_mutable v s).

(** What [PyAppEnv.__init__] does to the switches: the two arguments are
    stored as they come, on the object and in [global_vars]. *)
Definition init_switches (show mutable : pyval) (s : masking_switches)
  : masking_switches :=
  set_secured_mutable mutable (set_secured_values show s).

(** An assignment to one of the two properties. *)
Inductive switch_assignment : Type :=
| AssignShow (v : pyval)
| AssignMutable (v : pyval).

Definition assign_switch (a : switch_assignment) (s : masking_switches)
  : outcome unit * masking_switches :=
  match a with
  | AssignShow v => show_secured_values_setter v s
  | AssignMutable v => make_secured_values_mutable_setter v s
  end.

(** [key in d] for a dictionary with text keys: a list or a dictionary
    cannot be hashed, and nothing but a text equals a key. *)
Definition key_in (k : pyval) (keys : list string) : outcome bool :=
  match k with
  | PStr s => Return (str_in s keys)
  | PList _ | PDict _ => raise TypeError [Builtin "hash"]
  | PSecure _ _ => Unmodelled
  | _ => Return false
  end.

(** [a or b]. *)
Definition py_or (a b : pyval) : outcome pyval :=
  let* t := py_truth a in
  Return (if t then a else b).

(** [PyAppEnv.set_env()].  [env_name] is what [__init__] was given;
    [default_env] is the attribute, which [__init__] has set to
    [default_env or env_name]; [env_configs] is the list of keys of a
    dictionary with text keys, or some other object; [getenv] is
    [os.getenv("ENV", None)].  The calls of the logger do not change the
    outcome. *)
Definition set_env (env_name default_env : pyval) (env_configs : list string + pyval)
    (getenv : option string) : outcome pyval :=
  let* env := py_or env_name default_env in
  let* configs :=
    match env_configs with
    | inl keys => Return (inl keys)
    | inr other =>
        let* t := py_truth other in
        Return (if t then inr other else inl [])
    end in
  let* named := py_truth env in
  if named && negb (isinstance env Cstr) then
    Raise (InvalidEnvironmentConfigError [Lit "Environment must be a string."])
  else
    match configs with
    | inr _ =>
        Raise (InvalidEnvironmentConfigError
                 [Lit "Environment configs must be a dictionary."])
    | inl keys =>
        let* missing :=
          match keys with
          | [] => Return false
          | _ => let* found := key_in env keys in Return (negb found)
          end in
        if missing then
          Raise (InvalidEnvironmentConfigError
                   [Lit "Environment '"; Fmt env;
                    Lit "' not available in env_configs. Please select from available environment :- ";
                    Lit (join ", " (map quoted keys)); Lit "."])
        else if named then Return env
        else
          match getenv with
          | Some (String c rest) => Return (PStr (String c rest))
          | _ =>
              let* fallback := py_truth default_env in
              if negb fallback then
                Raise (InvalidEnvironmentConfigError
                         [Lit "Environment not defined in application or code."])
              else Return default_env
          end
    end.

(** * Properties *)

(** ** Agreement with the tests of the package *)

(** The cases of [test_strong_password_datatype] (minimum 8, maximum 20),
    under the default policy of [PyAppEnv]: reveal off, mutable on. *)
Example test_strong_password_datatype :
  map (fun pw =>
         fst (set_value no_float no_json no_tld no_member reveal_off_mutable (PStr pw)
                (StrongPasswordDataType None 8 (Some 20%Z) true true true true None)))
      ["Abc@1234"; "weakpassword"; "Abcde1234"; "abc@1234"; "ABC@1234";
       "Abc@abcd"; "DEF@123456"; "Abc@1234!"; "Abc@1234#";
       "Abces@123456894555678445"; "Abc@14"; "Abc@2265"]
  = [ raise ValueError [Lit "Password should not contain common patterns or sequences."];
      raise ValueError [Lit "Password must contain at least one uppercase letter."];
      raise ValueError [Lit "Password must contain at least one special character."];
      raise ValueError [Lit "Password must contain at least one uppercase letter."];
      raise ValueError [Lit "Password must contain at least one lowercase letter."];
      raise ValueError [Lit "Password must contain at least one digit."];
      raise ValueError [Lit "Password must contain at least one lowercase letter."];
      raise ValueError [Lit "Password should not contain common patterns or sequences."];
      raise ValueError [Lit "Password should not contain common patterns or sequences."];
      raise ValueError [Lit "Password must be at most "; Fmt (PInt 20);
                        Lit " characters long."];
      raise ValueError [Lit "Password must be at least "; Fmt (PInt 8);
                        Lit " characters long."];
      Return tt ].
Proof. reflexivity. Qed.

(** The cases of [test_email_datatype], with a lookup that succeeds on the
    two URLs that end in a known top-level domain. *)
Example test_email_datatype :
  let known_tld url :=
    existsb (String.eqb url) ["http://gmail.com"; "http://abc" ++ String (char_of 34) "c.com"] in
  map (fun s =>
         match fst (set_value no_float no_json known_tld no_member reveal_off_mutable
                      (PStr s) (EmailDataType None)) with
         | Return _ => true
         | _ => false
         end)
      ["sample.email@gmail.com"; "abc"; "abc@"; "abc@abc"; "abc@abc."; "abc@abc.c";
       "abc@abc" ++ String (char_of 34) "c.com"; "rahul+kumar@gmail.com"]
  = [true; false; false; false; false; false; false; true].
Proof. reflexivity. Qed.

(** The cases of [test_validate_integer_datetype]; the float [9.99] is
    [5623870034678907 * 2^-49]. *)
Example test_validate_integer_datetype :
  map (fun v =>
         snd (set_value no_float no_json no_tld no_member reveal_off_mutable v
                (IntegerDataType None true false)))
      [PStr "1"; PFloat (FFinite 1 0); PFloat (FFinite 2 0); PInt 99999999999;
       PInt 0; PInt (-1)]
  = map (with_value (IntegerDataType None true false))
      [PInt 1; PInt 1; PInt 2; PInt 99999999999; PInt 0; PInt (-1)]
  /\ map (fun v =>
            fst (set_value no_float no_json no_tld no_member reveal_off_mutable v
                   (IntegerDataType None true false)))
       [PFloat (FFinite 5623870034678907 (-49)); PBool true; PNone; PStr "inf"]
     = [ raise ValueError [Lit "Value "; Fmt (PFloat (FFinite 5623870034678907 (-49)));
                           Lit " must be an integer not of type float or boolean."];
         raise ValueError [Lit "Value "; Fmt (PBool true);
                           Lit " must be an integer not of type float or boolean."];
         raise TypeError [Builtin "int"];
         raise ValueError [Builtin "int"] ].
Proof. split; reflexivity. Qed.

(** The first cases of [test_secret_datatype]: the secret [2] under the
    default policy, the secret text with reveal on, and with mutable off. *)
Example test_secret_datatype :
  let stored pol v :=
    value (snd (set_value no_float no_json no_tld no_member pol v (SecretDataType None))) in
  let proxy := PSecure (Mutable (Some CConfigValue) ["__len__"]) (PInt 2) in
  stored reveal_off_mutable (PInt 2) = Some proxy
  /\ py_str proxy = Return "******"
  /\ py_repr proxy = Return "******"
  /\ unmasked proxy = Return (PInt 2)
  /\ stored {| show_secured_values := true; make_secured_values_mutable := true |}
       (PStr "secret") = Some (PStr "secret")
  /\ stored reveal_off_immutable (PStr "secret")
     = Some (PSecure Immutable (PStr "secret"))
  /\ py_eq_str no_member (PSecure Immutable (PStr "secret")) "secret"
     = Return (PBool true)
  /\ py_str (PSecure Immutable (PStr "secret")) = Return "******"
  /\ unmasked (PSecure Immutable (PStr "secret")) = Return (PStr "secret").
Proof. repeat split; reflexivity. Qed.

(** ** Regular expressions *)

Lemma search_from_set ic total neg rs s :
  search_from ic total (RSet neg rs) s = has_char (in_set neg rs) s.
Proof.
  unfold has_char. induction s as [|c t IH]; simpl.
  - reflexivity.
  - rewrite IH, andb_true_r. reflexivity.
Qed.

Lemma re_search_set ic neg rs s :
  re_search ic (RSet neg rs) s = has_char (in_set neg rs) s.
Proof. apply search_from_set. Qed.

Lemma in_set_singles l c : in_set false (singles l) c = contains_char c l.
Proof.
  unfold in_set, singles. simpl. induction l as [|x t IH]; simpl.
  - reflexivity.
  - rewrite IH. f_equal. unfold in_range. simpl.
    destruct (Ascii.eqb_spec x c) as [->|Hne].
    + rewrite !Nat.leb_refl. reflexivity.
    + destruct (Nat.leb_spec (nat_of_ascii x) (nat_of_ascii c));
        destruct (Nat.leb_spec (nat_of_ascii c) (nat_of_ascii x)); simpl; try reflexivity.
      exfalso. apply Hne.
      rewrite <- (ascii_nat_embedding x), <- (ascii_nat_embedding c).
      f_equal. lia.
Qed.

Lemma in_set_one_range lo hi c : in_set false [(lo, hi)] c = in_range lo hi c.
Proof. unfold in_set. simpl. rewrite orb_false_r. reflexivity. Qed.

Lemma has_char_ext p q s : (forall c, p c = q c) -> has_char p s = has_char q s.
Proof.
  intros H. unfold has_char. induction (list_ascii_of_string s) as [|c t IH]; simpl.
  - reflexivity.
  - rewrite H, IH. reflexivity.
Qed.

Lemma rmatch_lits total p s :
  rmatch true total (lits p) (fun _ => true) s = prefix_ci p s.
Proof.
  revert s. induction p as [|a p IH]; intros s; simpl.
  - reflexivity.
  - destruct s as [|b s]; [reflexivity|]. unfold lit_matches. rewrite IH. reflexivity.
Qed.

Lemma rmatch_alts ic total l k s :
  rmatch ic total (alts l) k s = existsb (fun r => rmatch ic total r k s) l.
Proof.
  induction l as [|r rs IH]; simpl.
  - destruct s; reflexivity.
  - rewrite IH. reflexivity.
Qed.

Lemma existsb_orb {A} (f g : A -> bool) l :
  existsb (fun x => f x || g x) l = existsb f l || existsb g l.
Proof.
  induction l as [|x t IH]; simpl; [reflexivity|].
  rewrite IH. destruct (f x), (g x), (existsb f t); reflexivity.
Qed.

Lemma existsb_map_fun {A B} (f : B -> bool) (g : A -> B) l :
  existsb f (map g l) = existsb (fun x => f (g x)) l.
Proof. induction l as [|x t IH]; simpl; [reflexivity|]. rewrite IH. reflexivity. Qed.

Lemma existsb_eq {A} (f g : A -> bool) l :
  (forall x, f x = g x) -> existsb f l = existsb g l.
Proof.
  intros H. induction l as [|x t IH]; simpl; [reflexivity|].
  rewrite H, IH. reflexivity.
Qed.

Lemma search_from_alts_lits total l s :
  search_from true total (alts (map lits l)) s = existsb (fun p => contains_ci p s) l.
Proof.
  induction s as [|c t IH].
  - simpl. rewrite rmatch_alts, existsb_map_fun, orb_false_r.
    apply existsb_eq. intros p. rewrite rmatch_lits, orb_false_r. reflexivity.
  - simpl search_from. rewrite IH, rmatch_alts, existsb_map_fun.
    simpl contains_ci. rewrite existsb_orb. f_equal.
    apply existsb_eq. intros p. apply rmatch_lits.
Qed.

(** ** StrongPassword *)

Lemma special_pattern_plain l :
  plain_class_body l = true -> special_pattern l = Some (RSet false (singles l)).
Proof. intros H. unfold special_pattern. rewrite H. reflexivity. Qed.

Lemma rule_message_injective d r1 r2 :
  rule_message d r1 = rule_message d r2 -> r1 = r2.
Proof. destruct r1, r2; simpl; intros H; try reflexivity; discriminate H. Qed.

Lemma re_search_class lo hi s :
  re_search false (RSet false [(lo, hi)]) s = has_char (in_range lo hi) s.
Proof. rewrite re_search_set. apply has_char_ext. apply in_set_one_range. Qed.

Lemma re_search_special l s :
  re_search false (RSet false (singles l)) s = has_char (fun c => contains_char c l) s.
Proof. rewrite re_search_set. apply has_char_ext. apply in_set_singles. Qed.

Lemma re_search_common s :
  re_search true common_patterns s = existsb (fun p => contains_ci p s) deny_list.
Proof. unfold re_search, common_patterns. apply search_from_alts_lits. Qed.

(** Unfolds the validator on a descriptor whose stored value is known. *)
Ltac unfold_password_validator :=
  unfold StrongPassword_value_validator, sbind, get_value, lift, sret, sraise, raise;
  cbn [value with_value type_of class_name String.eqb Ascii.eqb Bool.eqb fst snd
       _original_data py_len re_subject min_length max_length special_chars_list].

(** The validator on a stored text, or on a proxy of it, is the first
    failing rule. *)
Lemma StrongPassword_validator_on_text d pw v :
  plain_class_body (special_chars_list d) = true ->
  v = PStr pw \/ (exists form, v = PSecure form (PStr pw)) ->
  fst (StrongPassword_value_validator (with_value d v)) =
  match first_failing_rule d pw with
  | Some r => Raise (MkExc ValueError (rule_message d r))
  | None => Return tt
  end.
Proof.
  intros Hplain Hv.
  unfold first_failing_rule, rule_order, rule_message. cbn [find violates].
  destruct Hv as [->|[form ->]]; unfold_password_validator;
    rewrite (special_pattern_plain _ Hplain);
    unfold upper_pattern, lower_pattern, digit_pattern;
    rewrite !re_search_class, re_search_special, re_search_common;
    (destruct (Z.of_nat (String.length pw) <? min_length d)%Z; [reflexivity|]);
    (destruct (max_length d) as [m|];
     [destruct (m <? Z.of_nat (String.length pw))%Z; [reflexivity|] |]);
    (destruct (has_char (in_range "A" "Z") pw); [|reflexivity]);
    (destruct (has_char (in_range "a" "z") pw); [|reflexivity]);
    (destruct (has_char (in_range "0" "9") pw); [|reflexivity]);
    (destruct (has_char (fun c => contains_char c (special_chars_list d)) pw);
     [|reflexivity]);
    (destruct (existsb (fun p => contains_ci p pw) deny_list); reflexivity).
Qed.

(** C5. Whatever rules a password breaks, the validator reports exactly the
    first broken one in the order: shorter than the minimum, longer than the
    maximum, no uppercase letter, no lowercase letter, no digit, no special
    character, a common pattern (1234, abcd, qwerty, password, abc@123,
    password@123, 12345678, letter case aside).  The messages of the seven
    rules differ.  "Abc@14" is reported as too short; "Abc@1234!" is
    reported for its common pattern while it satisfies the four
    character-class rules. *)
Theorem StrongPassword_reports_first_failing_rule d pw v :
  plain_class_body (special_chars_list d) = true ->
  v = PStr pw \/ (exists form, v = PSecure form (PStr pw)) ->
  fst (StrongPassword_value_validator (with_value d v)) =
    match first_failing_rule d pw with
    | Some r => Raise (MkExc ValueError (rule_message d r))
    | None => Return tt
    end
  /\ (forall r1 r2, rule_message d r1 = rule_message d r2 -> r1 = r2)
  /\ fst (StrongPassword_value_validator (with_value default_password (PStr "Abc@14")))
     = Raise (MkExc ValueError (rule_message default_password TooShort))
  /\ fst (StrongPassword_value_validator (with_value default_password (PStr "Abc@1234!")))
     = Raise (MkExc ValueError (rule_message default_password CommonPattern))
  /\ forallb (fun r => negb (violates default_password "Abc@1234!" r))
       [MissingUppercase; MissingLowercase; MissingDigit; MissingSpecial] = true.
Proof.
  intros Hplain Hv. split; [|split; [|split; [|split]]].
  - apply StrongPassword_validator_on_text; assumption.
  - apply rule_message_injective.
  - reflexivity.
  - reflexivity.
  - reflexivity.
Qed.

Lemma StrongPassword_reports_first_failing_rule_witness :
  fst (StrongPassword_value_validator
         (with_value default_password (PSecure Immutable (PStr "weakpassword"))))
  = Raise (MkExc ValueError (rule_message default_password MissingUppercase)).
Proof.
  exact (proj1 (StrongPassword_reports_first_failing_rule default_password
                  "weakpassword" (PSecure Immutable (PStr "weakpassword"))
                  eq_refl (or_intror (ex_intro _ Immutable eq_refl)))).
Defined.

(** C4. The validator never reads the four toggles: with the special
    characters switched off, a password without one is still refused for
    lacking it, and likewise for the uppercase, lowercase and digit
    toggles.  This holds under every masking policy. *)
Theorem StrongPassword_toggles_not_consulted
    (float_of_text : string -> option pyfloat) (json_loads : string -> option json)
    (get_tld : string -> bool)
    (member_call : pyval -> string -> list pyval -> outcome pyval) (pol : policy) :
  fst (set_value float_of_text json_loads get_tld member_call pol (PStr "Xkcdpass9")
         (StrongPasswordDataType None 8 None false true true true None))
  = Raise (MkExc ValueError
             [Lit "Password must contain at least one special character."])
  /\ fst (set_value float_of_text json_loads get_tld member_call pol (PStr "Xkcdpass!")
            (StrongPasswordDataType None 8 None true false true true None))
     = Raise (MkExc ValueError [Lit "Password must contain at least one digit."])
  /\ fst (set_value float_of_text json_loads get_tld member_call pol (PStr "xkcdpass9!")
            (StrongPasswordDataType None 8 None true true false true None))
     = Raise (MkExc ValueError
                [Lit "Password must contain at least one uppercase letter."])
  /\ fst (set_value float_of_text json_loads get_tld member_call pol (PStr "XKCDPASS9!")
            (StrongPasswordDataType None 8 None true true true false None))
     = Raise (MkExc ValueError
                [Lit "Password must contain at least one lowercase letter."]).
Proof. destruct pol as [[] []]; repeat split; reflexivity. Qed.

(** ** Email *)

(** C1. The address "a@b.c@d" holds two at-signs and passes the whole
    pipeline of an Email descriptor, whatever the top-level-domain lookup
    answers: the pattern is matched against a prefix only, and the domain
    check is skipped when splitting at the at-sign gives more than two
    parts. *)
Theorem Email_second_at_sign_accepted
    (float_of_text : string -> option pyfloat) (json_loads : string -> option json)
    (get_tld : string -> bool)
    (member_call : pyval -> string -> list pyval -> outcome pyval) (pol : policy) :
  fst (set_value float_of_text json_loads get_tld member_call pol (PStr "a@b.c@d")
         (EmailDataType None))
  = Return tt.
Proof. reflexivity. Qed.

(** ** Integer conversion of text *)

Lemma read_digits_dot s : forall acc count after_digit,
  contains_char "." s = true -> read_digits acc count after_digit s = None.
Proof.
  induction s as [|c t IH]; intros acc count after_digit H; simpl in *.
  - discriminate H.
  - destruct (Ascii.eqb_spec c ".") as [->|Hne].
    + reflexivity.
    + simpl in H. destruct (is_digit c); [apply IH; exact H|].
      destruct (Ascii.eqb c "_" && after_digit); [apply IH; exact H|reflexivity].
Qed.

Lemma contains_literal_lstrip c s :
  is_literal_space c = false ->
  contains_char c (literal_lstrip s) = contains_char c s.
Proof.
  intros Hc. induction s as [|x t IH]; simpl; [reflexivity|].
  destruct (is_literal_space x) eqn:Hx; [|reflexivity].
  rewrite IH. destruct (Ascii.eqb_spec x c) as [->|]; [congruence|reflexivity].
Qed.

Lemma contains_literal_rstrip c s :
  is_literal_space c = false ->
  contains_char c (literal_rstrip s) = contains_char c s.
Proof.
  intros Hc. induction s as [|x t IH]; simpl; [reflexivity|].
  destruct (literal_rstrip t) as [|y t'] eqn:Ht.
  - simpl in IH. rewrite <- IH. destruct (is_literal_space x) eqn:Hx; simpl.
    + destruct (Ascii.eqb_spec x c) as [->|]; [congruence|reflexivity].
    + rewrite orb_false_r. reflexivity.
  - simpl. simpl in IH. rewrite IH. reflexivity.
Qed.

(** A text with a decimal point is not an integer literal. *)
Lemma int_literal_dot t : contains_char "." t = true -> int_literal t = None.
Proof.
  intros H. unfold int_literal.
  assert (Hb : contains_char "." (literal_strip t) = true).
  { unfold literal_strip.
    rewrite contains_literal_rstrip, contains_literal_lstrip by reflexivity. exact H. }
  destruct (literal_strip t) as [|c body] eqn:Hs; [discriminate Hb|].
  assert (Hdigits : forall (neg : bool) (digits : string),
            contains_char "." digits = true ->
            match read_digits 0 0 false digits with
            | Some (n, count) =>
                if (count <=? int_max_str_digits)%nat then Some (neg, n) else None
            | None => None
            end = (None : option (bool * Z))).
  { intros neg digits Hd. rewrite (read_digits_dot _ _ _ _ Hd). reflexivity. }
  destruct (Ascii.eqb_spec c "-") as [->|Hminus].
  - apply (Hdigits true). exact Hb.
  - destruct (Ascii.eqb_spec c "+") as [->|Hplus].
    + apply (Hdigits false). exact Hb.
    + transitivity (match read_digits 0 0 false (String c body) with
                    | Some (n, count) =>
                        if (count <=? int_max_str_digits)%nat
                        then Some (false, n) else None
                    | None => None
                    end).
      * destruct c as [[] [] [] [] [] [] [] []]; try reflexivity;
          exfalso; (apply Hminus; reflexivity) || (apply Hplus; reflexivity).
      * rewrite (read_digits_dot _ _ _ _ Hb). reflexivity.
Qed.

Lemma int_of_str_dot t : contains_char "." t = true -> int_of_str t = None.
Proof. intros H. unfold int_of_str. rewrite (int_literal_dot t H). reflexivity. Qed.

Lemma round_shift_zero a : round_shift a 0 = a.
Proof. reflexivity. Qed.

(** An integer of magnitude at most [2^53] is its own nearest double. *)
Lemma double_of_Z_exact n :
  (Z.abs n <= 2 ^ 53)%Z -> Z_eq_float n (double_of_Z n) = true.
Proof.
  intros Hn.
  assert (Hcase : (Z.abs n < 2 ^ 53 \/ n = 2 ^ 53 \/ n = - 2 ^ 53)%Z) by lia.
  destruct Hcase as [Hlt|[->| ->]]; [|vm_compute; reflexivity|vm_compute; reflexivity].
  unfold double_of_Z.
  assert (Hlog : (Z.log2 (Z.abs n) <= 52)%Z).
  { destruct (Z.eq_dec (Z.abs n) 0%Z) as [->|Hnz]; [simpl; lia|].
    assert (Z.log2 (Z.abs n) < 53)%Z by (apply Z.log2_lt_pow2; lia). lia. }
  replace (Z.max 0 (Z.log2 (Z.abs n) - 52))%Z with 0%Z by lia.
  rewrite round_shift_zero.
  assert (Hbig : (2 ^ 53 < 2 ^ 1024)%Z) by (apply Z.pow_lt_mono_r; lia).
  replace (2 ^ 1024 <=? Z.abs n * 2 ^ 0)%Z with false
    by (symmetry; apply Z.leb_gt; lia).
  unfold Z_eq_float. simpl (0 <=? 0)%Z. cbv iota.
  apply Z.eqb_eq. lia.
Qed.

Lemma float_of_int_literal_exact negative magnitude :
  (Z.abs (signed negative magnitude) <= 2 ^ 53)%Z ->
  Z_eq_float (signed negative magnitude) (float_of_int_literal negative magnitude) = true.
Proof.
  intros Hn. unfold float_of_int_literal.
  destruct (negative && (magnitude =? 0)%Z) eqn:Hzero.
  - apply andb_true_iff in Hzero as [-> Hm]. apply Z.eqb_eq in Hm. subst magnitude.
    reflexivity.
  - apply double_of_Z_exact. exact Hn.
Qed.

(** The convert stage on a text that reads as an integer: it is accepted
    exactly when the integer equals the float the same text reads as. *)
Lemma Integer_convert_type_text float_of_text d t negative magnitude :
  int_literal t = Some (negative, magnitude) ->
  Integer_convert_type float_of_text (with_value d (PStr t)) =
  if Z_eq_float (signed negative magnitude) (float_of_int_literal negative magnitude)
  then (Return tt, with_value d (PInt (signed negative magnitude)))
  else (Raise (MkExc ValueError
                 [Lit "Value "; Fmt (PStr t);
                  Lit " must be an integer not of type float or boolean."]),
        with_value d (PStr t)).
Proof.
  intros Ht.
  unfold Integer_convert_type, sbind, get_value, lift, sraise, raise, put_value.
  cbn [value with_value]. simpl isinstance. cbn [andb].
  unfold py_int, py_float, int_of_str. rewrite Ht.
  destruct (Z_eq_float (signed negative magnitude)
              (float_of_int_literal negative magnitude)); reflexivity.
Qed.

(** C3, amended. For every integer [n] of magnitude at most [2^53] and
    every text that [int] reads as [n], the convert stage of an Integer
    descriptor accepts the text and stores the [int] [n]; a text with a
    decimal point is refused with the [ValueError] of [int]. *)
Theorem Integer_convert_roundtrip
    (float_of_text : string -> option pyfloat) (json_loads : string -> option json)
    (check : option (pyval -> option exception)) (support_boolean : bool)
    (t : string) (n : Z) :
  int_of_str t = Some n ->
  (Z.abs n <= 2 ^ 53)%Z ->
  convert_type float_of_text json_loads
    (with_value (IntegerDataType check true support_boolean) (PStr t))
  = (Return tt, with_value (IntegerDataType check true support_boolean) (PInt n))
  /\ forall t',
       contains_char "." t' = true ->
       fst (convert_type float_of_text json_loads
              (with_value (IntegerDataType check true support_boolean) (PStr t')))
       = Raise (MkExc ValueError [Builtin "int"]).
Proof.
  intros Ht Hn. split.
  - unfold int_of_str in Ht.
    destruct (int_literal t) as [[negative magnitude]|] eqn:Hlit; [|discriminate Ht].
    injection Ht as <-.
    unfold convert_type. cbn [convert kind with_value IntegerDataType set_convert
                              set_support StandardDataType negb].
    rewrite (Integer_convert_type_text _ _ _ _ _ Hlit),
      (float_of_int_literal_exact _ _ Hn).
    reflexivity.
  - intros t' Hdot.
    unfold convert_type. cbn [convert kind with_value IntegerDataType set_convert
                              set_support StandardDataType negb].
    unfold Integer_convert_type, sbind, get_value, lift.
    cbn [value with_value]. simpl isinstance. cbn [andb].
    unfold py_int. rewrite (int_of_str_dot _ Hdot). reflexivity.
Qed.

Lemma Integer_convert_roundtrip_witness :
  convert_type (fun _ => None) (fun _ => None)
    (with_value (IntegerDataType None true false) (PStr " -1_000 "))
  = (Return tt, with_value (IntegerDataType None true false) (PInt (-1000))).
Proof.
  refine (proj1 (Integer_convert_roundtrip (fun _ => None) (fun _ => None)
                   None false " -1_000 " (-1000) eq_refl _)).
  vm_compute. discriminate.
Defined.

(** C3 fails as stated: the text "9007199254740993" reads as the integer
    [2^53 + 1], whose nearest double is [2^53]; the round-trip check
    refuses it. *)
Lemma Integer_convert_roundtrip_counterexample :
  int_of_str "9007199254740993" = Some 9007199254740993%Z
  /\ fst (convert_type (fun _ => None) (fun _ => None)
            (with_value (IntegerDataType None true false) (PStr "9007199254740993")))
     = Raise (MkExc ValueError
                [Lit "Value "; Fmt (PStr "9007199254740993");
                 Lit " must be an integer not of type float or boolean."]).
Proof. split; vm_compute; reflexivity. Qed.

(** ** The masking proxy *)







(** ** The finalized collection *)

Lemma dict_get_keys {A} key (l : list (string * A)) :
  str_in key (map fst l) = match dict_get key l with Some _ => true | None => false end.
Proof.
  induction l as [|[k a] rest IH]; simpl; [reflexivity|].
  destruct (String.eqb key k); [reflexivity|exact IH].
Qed.

Lemma EnvConfig_init_flag class_attribute mapping :
  attributes (EnvConfig_init class_attribute mapping) !! "is_dict_initialized"
  = Some (PBool true).
Proof. unfold EnvConfig_init, set_attribute. simpl. apply lookup_insert_eq. Qed.



(** ** The sealed class [ConfigValue] *)



















(** ** The precheck *)

(** C9. The text NOT_SET is refused by the precheck, with
    [ValueError("Value not set.")], whenever what the descriptor stores is
    that text or an immutable-form proxy of it: the descriptor does not
    mask, or the reveal switch is on, or the mutable switch is off.  Under
    the policy that [PyAppEnv] sets when it is given none, reveal off and
    mutable on, a Secret descriptor stores a mutable-form proxy of the
    text.  Comparing that proxy with NOT_SET goes through the forwarded
    [__eq__], whose answer [True] is wrapped into a proxy that is false in
    an [if]: the precheck returns, and so does the call, with NOT_SET
    stored behind the mask. *)
Theorem precheck_sentinel
    (float_of_text : string -> option pyfloat) (json_loads : string -> option json)
    (get_tld : string -> bool)
    (member_call : pyval -> string -> list pyval -> outcome pyval)
    (pol : policy) (d : descriptor) :
  (mask_value d = false \/ show_secured_values pol = true
   \/ make_secured_values_mutable pol = false ->
   fst (set_value float_of_text json_loads get_tld member_call pol (PStr "NOT_SET") d)
   = Raise (MkExc ValueError [Lit "Value not set."]))
  /\ set_value float_of_text json_loads get_tld member_call reveal_off_mutable
       (PStr "NOT_SET") (SecretDataType None)
     = (Return tt,
        with_value (SecretDataType None)
          (PSecure (Mutable (Some CConfigValue) ["__len__"]) (PStr "NOT_SET")))
  /\ py_eq_str member_call
       (PSecure (Mutable (Some CConfigValue) ["__len__"]) (PStr "NOT_SET")) "NOT_SET"
     = Return (PSecure (Mutable (Some CConfigValue) ["__len__"]) (PBool true))
  /\ py_truth (PSecure (Mutable (Some CConfigValue) ["__len__"]) (PBool true))
     = Return false.
Proof.
  split; [|repeat split; reflexivity].
  intros Hcase.
  unfold set_value, sbind, lift, convert_to_secure_value.
  destruct pol as [show mutable]. simpl in *.
  destruct (mask_value d) eqn:Hmask, show, mutable; simpl;
    try reflexivity.
  destruct Hcase as [H|[H|H]]; discriminate H.
Qed.

(** ** Running the pipeline twice *)

Lemma pure_sret {A} (a : A) : pure_step (sret a).
Proof. intros d. reflexivity. Qed.

Lemma pure_lift {A} (o : outcome A) : pure_step (lift o).
Proof. intros d. reflexivity. Qed.

Lemma pure_sraise {A} t m : pure_step (@sraise A t m).
Proof. intros d. reflexivity. Qed.

Lemma pure_get_value : pure_step get_value.
Proof. intros d. unfold get_value. destruct (value d); reflexivity. Qed.

Lemma pure_sbind {A B} (c : step A) (k : A -> step B) :
  pure_step c -> (forall a, pure_step (k a)) -> pure_step (sbind c k).
Proof.
  intros Hc Hk d. unfold sbind. specialize (Hc d).
  destruct (c d) as [[a| |] d']; simpl in *; subst d'; [apply Hk|reflexivity|reflexivity].
Qed.

Ltac pure_tac :=
  repeat first
    [ apply pure_sret | apply pure_lift | apply pure_sraise | apply pure_get_value
    | apply pure_sbind; [|intros ?]
    | match goal with
      | |- pure_step (if ?b then _ else _) => destruct b
      | |- pure_step (match ?x with _ => _ end) => destruct x
      end ].

(** For a stage that also reads the descriptor it runs on. *)
Ltac pure_reader_tac :=
  match goal with
  | |- snd (?c ?d) = ?d =>
      let H := fresh "H" in
      assert (H : pure_step c) by pure_tac; apply H
  end.

Lemma pure_precheck member_call : pure_step (precheck_empty_value member_call).
Proof. intros d. unfold precheck_empty_value. destruct (value d); reflexivity. Qed.

Lemma pure_validate_type : pure_step validate_type.
Proof. intros d. unfold validate_type. pure_reader_tac. Qed.

Lemma pure_StrongPassword : pure_step StrongPassword_value_validator.
Proof. intros d. unfold StrongPassword_value_validator. pure_reader_tac. Qed.

Lemma pure_Email get_tld : pure_step (Email_value_validator get_tld).
Proof. unfold Email_value_validator. pure_tac. Qed.

Lemma pure_value_validator get_tld : pure_step (value_validator get_tld).
Proof.
  intros d. unfold value_validator.
  destruct (kind d); try apply pure_StrongPassword; try apply pure_Email;
    pure_reader_tac.
Qed.

Lemma pure_call_user_validator : pure_step call_user_validator.
Proof. intros d. unfold call_user_validator. pure_reader_tac. Qed.

Lemma sbind_Return {A B} (c : step A) (k : A -> step B) d b d2 :
  sbind c k d = (Return b, d2) ->
  exists a d1, c d = (Return a, d1) /\ k a d1 = (Return b, d2).
Proof.
  unfold sbind. destruct (c d) as [[a| |] d1]; intros H; try discriminate.
  exists a, d1. split; [reflexivity|exact H].
Qed.

Lemma pure_Return {A} (c : step A) d a d1 :
  pure_step c -> c d = (Return a, d1) -> d1 = d.
Proof. intros Hp H. specialize (Hp d). rewrite H in Hp. exact Hp. Qed.

(** The constructors give a List or Dict descriptor its container class. *)
Lemma variant_container d :
  variant d ->
  (kind d = KList -> data_type d = Clist) /\ (kind d = KDict -> data_type d = Cdict).
Proof.
  induction 1; simpl; try (split; intros H; (reflexivity || discriminate H)).
  exact IHvariant.
Qed.

Lemma json_value_container j c :
  (c = Clist \/ c = Cdict) -> isinstance (json_value j) c = true ->
  forall mc d, precheck_empty_value mc (with_value d (json_value j))
               = (Return tt, with_value d (json_value j)).
Proof.
  intros Hc Hinst mc d.
  destruct j; destruct Hc as [-> | ->]; try discriminate Hinst; reflexivity.
Qed.

(** Case analysis on a term that occurs in the hypothesis [H]. *)
Ltac case_in H x :=
  revert H; destruct x; intros H; simpl in H; try discriminate H.

(** The same on the condition of the first [if] of [H], and on an
    innermost scrutinee of [H]. *)
Ltac case_if H :=
  match type of H with
  | context [if ?c then _ else _] => case_in H c
  end.

Ltac case_match H :=
  match type of H with
  | context [match ?x with _ => _ end] =>
      lazymatch x with
      | context [match _ with _ => _ end] => fail
      | _ => case_in H x
      end
  end.

Ltac unfold_steps H :=
  unfold sbind, get_value, lift, sraise, raise, put_value, sret in H;
  cbn [value with_value] in H.

Lemma Integer_settles ft d raw d' :
  Integer_convert_type ft (with_value d raw) = (Return tt, d') ->
  exists c,
    d' = with_value d c
    /\ Integer_convert_type ft (with_value d c) = (Return tt, with_value d c)
    /\ (c = raw
        \/ forall mc, precheck_empty_value mc (with_value d c)
                      = (Return tt, with_value d c)).
Proof.
  intros Hconv. unfold Integer_convert_type in Hconv. unfold_steps Hconv.
  cbn [support_boolean] in Hconv.
  case_if Hconv.
  - case_in Hconv (py_int raw).
    injection Hconv as <-. exists (PInt a).
    split; [reflexivity|]. split; [reflexivity|]. right. intros mc. reflexivity.
  - case_in Hconv (py_int raw). case_in Hconv (py_float ft raw).
    case_if Hconv.
    injection Hconv as <-. exists (PInt a).
    split; [reflexivity|]. split; [reflexivity|]. right. intros mc. reflexivity.
Qed.

Lemma Float_settles ft d raw d' :
  Float_convert_type ft (with_value d raw) = (Return tt, d') ->
  exists c,
    d' = with_value d c
    /\ Float_convert_type ft (with_value d c) = (Return tt, with_value d c)
    /\ (c = raw
        \/ forall mc, precheck_empty_value mc (with_value d c)
                      = (Return tt, with_value d c)).
Proof.
  intros Hconv. pose proof Hconv as Hraw.
  unfold Float_convert_type in Hconv. unfold_steps Hconv.
  cbn [support_boolean support_inf] in Hconv.
  case_if Hconv.
  - injection Hconv as <-. exists raw. split; [reflexivity|]. split; [exact Hraw|left; reflexivity].
  - assert (Hput : exists f, d' = with_value d (PFloat f)).
    { repeat case_match Hconv; injection Hconv as <-; eexists; reflexivity. }
    destruct Hput as [f ->]. exists (PFloat f).
    split; [reflexivity|]. split; [reflexivity|]. right. intros mc. reflexivity.
Qed.

Lemma Boolean_settles d raw d' :
  Boolean_convert_type (with_value d raw) = (Return tt, d') ->
  exists c,
    d' = with_value d c
    /\ Boolean_convert_type (with_value d c) = (Return tt, with_value d c)
    /\ (c = raw
        \/ forall mc, precheck_empty_value mc (with_value d c)
                      = (Return tt, with_value d c)).
Proof.
  intros Hconv. pose proof Hconv as Hraw.
  unfold Boolean_convert_type in Hconv. unfold_steps Hconv.
  case_if Hconv.
  - injection Hconv as <-. exists raw. split; [reflexivity|]. split; [exact Hraw|left; reflexivity].
  - assert (Hput : exists b, d' = with_value d (PBool b)).
    { repeat case_match Hconv; injection Hconv as <-; eexists; reflexivity. }
    destruct Hput as [b ->]. exists (PBool b).
    split; [reflexivity|]. split; [reflexivity|]. right. intros mc. reflexivity.
Qed.

Lemma json_settles js container what d raw d' :
  container = Clist \/ container = Cdict ->
  data_type d = container ->
  json_convert_type js container what (with_value d raw) = (Return tt, d') ->
  fst (validate_type d') = Return tt ->
  exists c,
    d' = with_value d c
    /\ json_convert_type js container what (with_value d c)
       = (Return tt, with_value d c)
    /\ (c = raw
        \/ forall mc, precheck_empty_value mc (with_value d c)
                      = (Return tt, with_value d c)).
Proof.
  intros Hcont Hdt Hconv Hvalid. pose proof Hconv as Hraw.
  unfold json_convert_type in Hconv. unfold_steps Hconv.
  case_if Hconv.
  { injection Hconv as <-. exists raw.
    split; [reflexivity|]. split; [exact Hraw|left; reflexivity]. }
  case_if Hconv.
  2:{ injection Hconv as <-. exists raw.
      split; [reflexivity|]. split; [exact Hraw|left; reflexivity]. }
  case_in Hconv raw. case_in Hconv (js s). injection Hconv as <-.
  assert (Hinst : isinstance (json_value j) container = true).
  { unfold validate_type in Hvalid. unfold_steps Hvalid.
    cbn [data_type with_value value] in Hvalid. rewrite Hdt in Hvalid.
    destruct (isinstance (json_value j) container); [reflexivity|discriminate Hvalid]. }
  exists (json_value j). split; [reflexivity|]. split.
  - unfold json_convert_type, sbind, get_value, sret. cbn [value with_value].
    rewrite Hinst. reflexivity.
  - right. intros mc. apply (json_value_container j container Hcont Hinst).
Qed.

Lemma convert_type_settles ft js d raw d' :
  variant d ->
  convert_type ft js (with_value d raw) = (Return tt, d') ->
  fst (validate_type d') = Return tt ->
  exists c,
    d' = with_value d c
    /\ convert_type ft js (with_value d c) = (Return tt, with_value d c)
    /\ (c = raw
        \/ forall mc, precheck_empty_value mc (with_value d c)
                      = (Return tt, with_value d c)).
Proof.
  intros Hvar Hconv Hvalid.
  destruct (variant_container d Hvar) as [HList HDict].
  unfold convert_type in Hconv |- *. cbn [convert with_value kind] in Hconv |- *.
  destruct (convert d) eqn:Hc; cbn [negb] in Hconv |- *.
  2:{ injection Hconv as <-. exists raw. repeat split; auto. }
  destruct (kind d) eqn:Hk;
    try (injection Hconv as <-; exists raw; repeat split; auto; fail).
  - apply (Integer_settles ft d raw d' Hconv).
  - apply (Integer_settles ft d raw d' Hconv).
  - apply (Integer_settles ft d raw d' Hconv).
  - apply (Float_settles ft d raw d' Hconv).
  - apply (Boolean_settles d raw d' Hconv).
  - apply (json_settles js Clist "list" d raw d' (or_introl eq_refl)
             (HList eq_refl) Hconv Hvalid).
  - apply (json_settles js Cdict "dictionary" d raw d' (or_intror eq_refl)
             (HDict eq_refl) Hconv Hvalid).
Qed.


Lemma sbind_step {A B} (c : step A) (k : A -> step B) d a d1 :
  c d = (Return a, d1) -> sbind c k d = k a d1.
Proof. intros H. unfold sbind. rewrite H. reflexivity. Qed.

Lemma convert_to_secure_value_unmasked pol d v :
  mask_value d = false \/ show_secured_values pol = true ->
  convert_to_secure_value pol d v = Return v.
Proof.
  intros [H|H]; unfold convert_to_secure_value; rewrite H;
    [reflexivity|rewrite andb_false_r; reflexivity].
Qed.

(** C8, amended. For every variant descriptor that does not mask (one of
    the ten variants that are not secret, or any variant while the reveal
    switch is on) and every raw value on which [__set_value__] returns,
    leaving the canonical output [c] in the descriptor, a second call on
    [c] returns and leaves the descriptor, and so [c], as they were. *)
Theorem set_value_idempotent_without_masking
    (float_of_text : string -> option pyfloat) (json_loads : string -> option json)
    (get_tld : string -> bool)
    (member_call : pyval -> string -> list pyval -> outcome pyval)
    (pol : policy) (d d1 : descriptor) (raw : pyval) :
  variant d ->
  mask_value d = false \/ show_secured_values pol = true ->
  set_value float_of_text json_loads get_tld member_call pol raw d = (Return tt, d1) ->
  exists c,
    value d1 = Some c
    /\ set_value float_of_text json_loads get_tld member_call pol c d1
       = (Return tt, d1).
Proof.
  intros Hvar Hmask Hrun.
  unfold set_value in Hrun.
  rewrite (convert_to_secure_value_unmasked pol d raw Hmask) in Hrun.
  change (sbind (lift (Return raw)) ?k d) with (k raw d) in Hrun.
  cbv beta in Hrun.
  change (sbind (put_value raw) ?k d) with (k tt (with_value d raw)) in Hrun.
  cbv beta in Hrun.
  apply sbind_Return in Hrun as ([] & dA & Hpre & Hrun).
  pose proof (pure_Return _ _ _ _ (pure_precheck member_call) Hpre) as ->.
  apply sbind_Return in Hrun as ([] & dB & Hconv & Hrun).
  apply sbind_Return in Hrun as ([] & dC & Hvalid & Hrun).
  pose proof (pure_Return _ _ _ _ pure_validate_type Hvalid) as ->.
  apply sbind_Return in Hrun as ([] & dD & Hcheck & Huser).
  pose proof (pure_Return _ _ _ _ (pure_value_validator get_tld) Hcheck) as ->.
  pose proof (pure_Return _ _ _ _ pure_call_user_validator Huser) as ->.
  destruct (convert_type_settles float_of_text json_loads d raw dB Hvar Hconv)
    as (c & -> & Hsettled & Hc).
  { rewrite Hvalid. reflexivity. }
  exists c. split; [reflexivity|].
  assert (Hpre2 : precheck_empty_value member_call (with_value d c)
                  = (Return tt, with_value d c)).
  { destruct Hc as [->|Hc]; [exact Hpre|apply Hc]. }
  unfold set_value.
  rewrite (convert_to_secure_value_unmasked pol (with_value d c) c Hmask).
  change (sbind (lift (Return c)) ?k (with_value d c)) with (k c (with_value d c)).
  cbv beta.
  change (sbind (put_value c) ?k (with_value d c)) with (k tt (with_value d c)).
  cbv beta.
  rewrite (sbind_step _ _ _ _ _ Hpre2), (sbind_step _ _ _ _ _ Hsettled),
    (sbind_step _ _ _ _ _ Hvalid), (sbind_step _ _ _ _ _ Hcheck).
  exact Huser.
Qed.

Lemma set_value_idempotent_without_masking_witness :
  exists c,
    value (with_value (ListDataType None true) (PList [PInt 1])) = Some c
    /\ set_value no_float (fun _ => Some (JArray [JInt 1])) no_tld no_member
         reveal_off_mutable c (with_value (ListDataType None true) (PList [PInt 1]))
       = (Return tt, with_value (ListDataType None true) (PList [PInt 1])).
Proof.
  exact (set_value_idempotent_without_masking
           no_float (fun _ => Some (JArray [JInt 1])) no_tld no_member
           reveal_off_mutable (ListDataType None true)
           (with_value (ListDataType None true) (PList [PInt 1])) (PStr "[1]")
           (variant_List None true) (or_introl eq_refl) eq_refl).
Defined.

(** C8 fails as stated: with reveal off and mutable off, a Secret
    descriptor turns "secret" into an immutable-form proxy of it; a second
    call on that proxy returns with a proxy of the proxy, whose [unmasked]
    is the first proxy and not "secret". *)
Lemma set_value_idempotence_counterexample :
  set_value no_float no_json no_tld no_member reveal_off_immutable
    (PStr "secret") (SecretDataType None)
  = (Return tt,
     with_value (SecretDataType None) (PSecure Immutable (PStr "secret")))
  /\ set_value no_float no_json no_tld no_member reveal_off_immutable
       (PSecure Immutable (PStr "secret"))
       (with_value (SecretDataType None) (PSecure Immutable (PStr "secret")))
     = (Return tt,
        with_value (SecretDataType None)
          (PSecure Immutable (PSecure Immutable (PStr "secret"))))
  /\ unmasked (PSecure Immutable (PSecure Immutable (PStr "secret")))
     = Return (PSecure Immutable (PStr "secret"))
  /\ unmasked (PSecure Immutable (PStr "secret")) = Return (PStr "secret").
Proof. repeat split; reflexivity. Qed.

(** ** The pipeline as a whole *)

Lemma assigns_once_pure (c : step unit) : pure_step c -> assigns_once c.
Proof. intros H d. left. apply H. Qed.

Lemma assigns_once_put v : assigns_once (put_value v).
Proof. intros d. right. exists v. split; reflexivity. Qed.

Lemma assigns_once_sbind {A} (c : step A) (k : A -> step unit) :
  pure_step c -> (forall a, assigns_once (k a)) -> assigns_once (sbind c k).
Proof.
  intros Hc Hk d. unfold sbind. specialize (Hc d).
  destruct (c d) as [[a| |] d']; simpl in *; subst d';
    [apply Hk|left; reflexivity|left; reflexivity].
Qed.

Ltac assigns_tac :=
  repeat first
    [ apply assigns_once_put
    | apply assigns_once_sbind; [solve [pure_tac]|intros ?]
    | apply assigns_once_pure; solve [pure_tac]
    | match goal with
      | |- assigns_once (if ?b then _ else _) => destruct b
      | |- assigns_once (match ?x with _ => _ end) => destruct x
      end ].

Lemma convert_type_assigns_once ft js : assigns_once (convert_type ft js).
Proof.
  intros d. unfold convert_type.
  destruct (convert d); cbn [negb]; [|left; reflexivity].
  destruct (kind d); try (left; reflexivity);
    unfold Integer_convert_type, Float_convert_type, Boolean_convert_type,
      json_convert_type;
    match goal with
    | |- snd (?c d) = d \/ _ =>
        let H := fresh in assert (H : assigns_once c) by assigns_tac; apply H
    end.
Qed.

(** What [convert_type] leaves in a descriptor that holds [v]: the
    descriptor holding [v] still, or holding the converted value. *)
Lemma convert_type_with_value ft js d v o d' :
  convert_type ft js (with_value d v) = (o, d') ->
  d' = with_value d v \/ (o = Return tt /\ exists c, d' = with_value d c).
Proof.
  intros H. destruct (convert_type_assigns_once ft js (with_value d v)) as [Hs|[c [Hf Hs]]];
    rewrite H in *; simpl in *.
  - left. exact Hs.
  - right. split; [exact Hf|]. exists c. exact Hs.
Qed.

Lemma validate_type_Return d v d' :
  validate_type (with_value d v) = (Return tt, d') ->
  isinstance v (data_type d) = true.
Proof.
  unfold validate_type, sbind, get_value, sraise, lift, sret.
  cbn [value with_value data_type].
  destruct (isinstance v (data_type d)); [reflexivity|discriminate].
Qed.

(** The stages behind a call of [__set_value__] that returns. *)
Lemma set_value_Return_stages ft js tld mc pol raw d d1 :
  set_value ft js tld mc pol raw d = (Return tt, d1) ->
  exists v c,
    convert_to_secure_value pol d raw = Return v
    /\ precheck_empty_value mc (with_value d v) = (Return tt, with_value d v)
    /\ convert_type ft js (with_value d v) = (Return tt, with_value d c)
    /\ validate_type (with_value d c) = (Return tt, with_value d c)
    /\ value_validator tld (with_value d c) = (Return tt, with_value d c)
    /\ call_user_validator (with_value d c) = (Return tt, with_value d c)
    /\ d1 = with_value d c.
Proof.
  intros Hrun. unfold set_value in Hrun.
  apply sbind_Return in Hrun as (v & d0 & Hwrap & Hrun).
  unfold lift in Hwrap. injection Hwrap as Hwrap <-.
  apply sbind_Return in Hrun as ([] & dP & Hput & Hrun).
  unfold put_value in Hput. injection Hput as <-.
  apply sbind_Return in Hrun as ([] & dA & Hpre & Hrun).
  pose proof (pure_Return _ _ _ _ (pure_precheck mc) Hpre) as ->.
  apply sbind_Return in Hrun as ([] & dB & Hconv & Hrun).
  apply sbind_Return in Hrun as ([] & dC & Hvalid & Hrun).
  pose proof (pure_Return _ _ _ _ pure_validate_type Hvalid) as ->.
  apply sbind_Return in Hrun as ([] & dD & Hcheck & Huser).
  pose proof (pure_Return _ _ _ _ (pure_value_validator tld) Hcheck) as ->.
  pose proof (pure_Return _ _ _ _ pure_call_user_validator Huser) as ->.
  exists v.
  apply convert_type_with_value in Hconv as Hcases.
  destruct Hcases as [->|[_ [c ->]]]; [exists v|exists c]; repeat split; assumption.
Qed.

(** X1. Whenever [__set_value__] returns, the descriptor differs from the
    one it was called on in the attribute [value] only, and the value
    stored is an instance of the descriptor's [data_type]: the stages after
    [validate_type] do not assign. *)
Theorem set_value_stores_instance
    (float_of_text : string -> option pyfloat) (json_loads : string -> option json)
    (get_tld : string -> bool)
    (member_call : pyval -> string -> list pyval -> outcome pyval)
    (pol : policy) (raw : pyval) (d d1 : descriptor) :
  set_value float_of_text json_loads get_tld member_call pol raw d = (Return tt, d1) ->
  exists c, d1 = with_value d c /\ isinstance c (data_type d) = true.
Proof.
  intros Hrun.
  apply set_value_Return_stages in Hrun
    as (v & c & _ & _ & _ & Hvalid & _ & _ & ->).
  exists c. split; [reflexivity|]. apply (validate_type_Return d c _ Hvalid).
Qed.

Lemma set_value_stores_instance_witness :
  exists c,
    with_value (BooleanDataType None true) (PBool true)
    = with_value (BooleanDataType None true) c
    /\ isinstance c (data_type (BooleanDataType None true)) = true.
Proof.
  exact (set_value_stores_instance no_float no_json no_tld no_member
           reveal_off_mutable (PStr " YES ") (BooleanDataType None true)
           (with_value (BooleanDataType None true) (PBool true)) eq_refl).
Defined.

Lemma set_value_builtin_stages ft js tld mc pol raw d :
  set_value ft js tld mc pol raw d
  = sbind (builtin_stages ft js tld mc pol raw) (fun _ => call_user_validator) d.
Proof.
  unfold set_value, builtin_stages, sbind.
  repeat match goal with
         | |- context [match ?c ?x with _ => _ end] =>
             destruct (c x) as [[?| |] ?]
         end; reflexivity.
Qed.

Lemma ignores_sret {A} (a : A) : ignores_user_validator (sret a).
Proof. intros u d. reflexivity. Qed.

Lemma ignores_lift {A} (o : outcome A) : ignores_user_validator (lift o).
Proof. intros u d. reflexivity. Qed.

Lemma ignores_sraise {A} t m : ignores_user_validator (@sraise A t m).
Proof. intros u d. reflexivity. Qed.

Lemma ignores_get_value : ignores_user_validator get_value.
Proof. intros u d. unfold get_value. cbn [value with_user_validator]. destruct (value d); reflexivity. Qed.

Lemma ignores_put_value v : ignores_user_validator (put_value v).
Proof. intros u d. reflexivity. Qed.

Lemma ignores_sbind {A B} (c : step A) (k : A -> step B) :
  ignores_user_validator c -> (forall a, ignores_user_validator (k a)) ->
  ignores_user_validator (sbind c k).
Proof.
  intros Hc Hk u d. unfold sbind. rewrite Hc.
  destruct (c d) as [[a| |] d']; cbn [fst snd]; [apply Hk|reflexivity|reflexivity].
Qed.

Ltac ignores_tac :=
  repeat first
    [ apply ignores_sret | apply ignores_lift | apply ignores_sraise
    | apply ignores_get_value | apply ignores_put_value
    | apply ignores_sbind; [|intros ?]
    | match goal with
      | |- ignores_user_validator (if ?b then _ else _) => destruct b
      | |- ignores_user_validator (match ?x with _ => _ end) => destruct x
      end ].

(** For a stage that reads other attributes of the descriptor it runs on. *)
Ltac ignores_reader_tac :=
  cbn [kind data_type datatype_name mask_value convert support_boolean support_inf
       min_length max_length special_chars numbers uppercase lowercase
       special_chars_list value with_user_validator];
  match goal with
  | |- ?c (with_user_validator ?u ?d) = _ =>
      let H := fresh "H" in
      assert (H : ignores_user_validator c) by ignores_tac; apply H
  end.

Lemma ignores_precheck mc : ignores_user_validator (precheck_empty_value mc).
Proof.
  intros u d. unfold precheck_empty_value. cbn [value with_user_validator].
  destruct (value d); reflexivity.
Qed.

Lemma ignores_convert_type ft js : ignores_user_validator (convert_type ft js).
Proof.
  intros u d. unfold convert_type.
  cbn [convert kind with_user_validator].
  destruct (convert d); cbn [negb]; [|reflexivity].
  destruct (kind d); try reflexivity;
    unfold Integer_convert_type, Float_convert_type, Boolean_convert_type,
      json_convert_type; ignores_reader_tac.
Qed.

Lemma ignores_validate_type : ignores_user_validator validate_type.
Proof. intros u d. unfold validate_type. ignores_reader_tac. Qed.

Lemma ignores_value_validator tld : ignores_user_validator (value_validator tld).
Proof.
  intros u d. unfold value_validator. cbn [kind with_user_validator].
  destruct (kind d); try reflexivity;
    unfold StrongPassword_value_validator, Email_value_validator;
    ignores_reader_tac.
Qed.

Lemma ignores_builtin_stages ft js tld mc pol raw :
  ignores_user_validator (builtin_stages ft js tld mc pol raw).
Proof.
  intros u d. unfold builtin_stages, convert_to_secure_value.
  cbn [mask_value with_user_validator].
  match goal with
  | |- ?c (with_user_validator ?u ?d) = _ =>
      let H := fresh "H" in
      assert (H : ignores_user_validator c); [|apply H]
  end.
  repeat (apply ignores_sbind; [|intros ?]);
    auto using ignores_lift, ignores_put_value, ignores_precheck,
      ignores_convert_type, ignores_validate_type, ignores_value_validator.
Qed.

(** X2. The caller's validator is called last and only when every stage
    of the package has accepted the value: it receives the value as stored
    (converted, and masked when the descriptor masks), its exception is the
    outcome of the call, and when an earlier stage raises it is not
    consulted. *)
Theorem user_validator_runs_last
    (float_of_text : string -> option pyfloat) (json_loads : string -> option json)
    (get_tld : string -> bool)
    (member_call : pyval -> string -> list pyval -> outcome pyval)
    (pol : policy) (raw : pyval) (d : descriptor)
    (check : pyval -> option exception) :
  (forall d1,
      set_value float_of_text json_loads get_tld member_call pol raw
        (with_user_validator None d) = (Return tt, d1) ->
      exists c,
        value d1 = Some c
        /\ set_value float_of_text json_loads get_tld member_call pol raw
             (with_user_validator (Some check) d)
           = (match check c with None => Return tt | Some e => Raise e end,
              with_user_validator (Some check) d1))
  /\ (forall e,
        fst (set_value float_of_text json_loads get_tld member_call pol raw
               (with_user_validator None d)) = Raise e ->
        fst (set_value float_of_text json_loads get_tld member_call pol raw
               (with_user_validator (Some check) d)) = Raise e).
Proof.
  rewrite !set_value_builtin_stages. unfold sbind.
  rewrite !ignores_builtin_stages.
  destruct (builtin_stages float_of_text json_loads get_tld member_call pol raw d)
    as [[[]| |] dB]; cbn [fst snd].
  - unfold call_user_validator, sbind, get_value, sret, lift.
    cbn [value user_validator with_user_validator].
    destruct (value dB) as [c|] eqn:Hc.
    + split.
      * intros d1 H. injection H as <-. exists c. split; [exact Hc|].
        destruct (check c); reflexivity.
      * intros e H. discriminate H.
    + split.
      * intros d1 H. discriminate H.
      * intros e H. exact H.
  - split; [intros d1 H; discriminate H|intros e' H; exact H].
  - split; [intros d1 H; discriminate H|intros e' H; discriminate H].
Qed.

(** X3. A call of [__set_value__] that gets past masking never leaves the
    value the descriptor held before: whether the call returns or raises,
    the descriptor then holds the value given (masked when it masks) or
    what [convert_type] made of it.  A rejected value stays stored. *)
Theorem set_value_keeps_rejected_value
    (float_of_text : string -> option pyfloat) (json_loads : string -> option json)
    (get_tld : string -> bool)
    (member_call : pyval -> string -> list pyval -> outcome pyval)
    (pol : policy) (raw v : pyval) (d : descriptor) :
  convert_to_secure_value pol d raw = Return v ->
  exists c,
    snd (set_value float_of_text json_loads get_tld member_call pol raw d)
    = with_value d c
    /\ (c = v
        \/ convert_type float_of_text json_loads (with_value d v)
           = (Return tt, with_value d c)).
Proof.
  intros Hwrap. unfold set_value.
  unfold sbind at 1. unfold lift at 1. rewrite Hwrap.
  unfold sbind at 1. unfold put_value at 1.
  unfold sbind at 1.
  pose proof (pure_precheck member_call (with_value d v)) as Hpre.
  destruct (precheck_empty_value member_call (with_value d v)) as [[[]| |] dA];
    simpl in Hpre; subst dA;
    try (exists v; split; [reflexivity|left; reflexivity]).
  unfold sbind at 1.
  destruct (convert_type float_of_text json_loads (with_value d v))
    as [oB dB] eqn:Hconv.
  assert (Hrest : forall dB' : descriptor,
             snd ((run* _ := validate_type in
                   run* _ := value_validator get_tld in call_user_validator) dB')
             = dB').
  { intros dB'.
    apply (pure_sbind validate_type
             (fun _ => run* _ := value_validator get_tld in call_user_validator)
             pure_validate_type).
    intros _. apply (pure_sbind _ (fun _ => call_user_validator)
                       (pure_value_validator get_tld)).
    intros _. apply pure_call_user_validator. }
  apply convert_type_with_value in Hconv as Hcases.
  destruct Hcases as [->|[-> [c ->]]].
  - exists v. split; [|left; reflexivity].
    destruct oB as [[]| |]; [apply Hrest|reflexivity|reflexivity].
  - exists c. split; [apply Hrest|right; reflexivity].
Qed.

Lemma set_value_keeps_rejected_value_witness :
  exists c,
    snd (set_value no_float no_json no_tld no_member reveal_off_mutable (PInt 5)
           (with_value (StringDataType None) (PStr "localhost")))
    = with_value (with_value (StringDataType None) (PStr "localhost")) c
    /\ (c = PInt 5
        \/ convert_type no_float no_json
             (with_value (with_value (StringDataType None) (PStr "localhost")) (PInt 5))
           = (Return tt,
              with_value (with_value (StringDataType None) (PStr "localhost")) c)).
Proof.
  exact (set_value_keeps_rejected_value no_float no_json no_tld no_member
           reveal_off_mutable (PInt 5) (PInt 5)
           (with_value (StringDataType None) (PStr "localhost")) eq_refl).
Defined.

Lemma user_validator_runs_last_witness :
  exists c,
    value (with_user_validator None (with_value (StringDataType None) (PStr "localhost")))
    = Some c
    /\ set_value no_float no_json no_tld no_member reveal_off_mutable (PStr "localhost")
         (with_user_validator
            (Some (fun _ => Some (MkExc (OtherError "RuntimeError")
                                    [Lit "This is a custom test exception"])))
            (StringDataType None))
       = (match Some (MkExc (OtherError "RuntimeError")
                        [Lit "This is a custom test exception"]) with
          | None => Return tt
          | Some e => Raise e
          end,
          with_user_validator
            (Some (fun _ => Some (MkExc (OtherError "RuntimeError")
                                    [Lit "This is a custom test exception"])))
            (with_user_validator None
               (with_value (StringDataType None) (PStr "localhost")))).
Proof.
  exact (proj1 (user_validator_runs_last no_float no_json no_tld no_member
                  reveal_off_mutable (PStr "localhost") (StringDataType None)
                  (fun _ => Some (MkExc (OtherError "RuntimeError")
                                    [Lit "This is a custom test exception"])))
           (with_user_validator None (with_value (StringDataType None) (PStr "localhost")))
           eq_refl).
Defined.

(** ** Numbers *)

Lemma quot_exact (m b : Z) :
  (0 < b)%Z -> (m mod b = 0)%Z -> Z.quot m b = (m / b)%Z.
Proof.
  intros Hb Hm.
  assert (Heq : m = (m / b * b)%Z).
  { rewrite (Z.div_mod m b) at 1 by lia. rewrite Hm. lia. }
  rewrite Heq at 1. apply Z.quot_mul. lia.
Qed.

(** X4. [IntegerDataType.convert_type] on a number that is not a text.  An
    [int] is kept.  A [bool] becomes [0] or [1] when the descriptor
    supports booleans and is refused otherwise.  A finite [float] is
    accepted exactly when it is a whole number, and becomes that [int]; the
    negative zero becomes [0]; an infinity raises the [OverflowError] of
    [int], a NaN its [ValueError]. *)
Theorem Integer_convert_number
    (float_of_text : string -> option pyfloat) (d : descriptor) :
  (forall n,
      Integer_convert_type float_of_text (with_value d (PInt n))
      = (Return tt, with_value d (PInt n)))
  /\ (forall b,
        Integer_convert_type float_of_text (with_value d (PBool b))
        = if support_boolean d
          then (Return tt, with_value d (PInt (bool_to_Z b)))
          else (Raise (MkExc ValueError
                         [Lit "Value "; Fmt (PBool b);
                          Lit " must be an integer not of type float or boolean."]),
                with_value d (PBool b)))
  /\ (forall m e,
        Integer_convert_type float_of_text (with_value d (PFloat (FFinite m e)))
        = if (0 <=? e)%Z then (Return tt, with_value d (PInt (m * 2 ^ e)))
          else if (m mod 2 ^ (- e) =? 0)%Z
               then (Return tt, with_value d (PInt (m / 2 ^ (- e))))
               else (Raise (MkExc ValueError
                              [Lit "Value "; Fmt (PFloat (FFinite m e));
                               Lit " must be an integer not of type float or boolean."]),
                     with_value d (PFloat (FFinite m e))))
  /\ Integer_convert_type float_of_text (with_value d (PFloat FNegZero))
     = (Return tt, with_value d (PInt 0))
  /\ (forall negative,
        fst (Integer_convert_type float_of_text
               (with_value d (PFloat (FInf negative))))
        = Raise (MkExc OverflowError [Builtin "int"]))
  /\ fst (Integer_convert_type float_of_text (with_value d (PFloat FNaN)))
     = Raise (MkExc ValueError [Builtin "int"]).
Proof.
  split; [|split; [|split; [|split; [|split]]]].
  - intros n. reflexivity.
  - intros b. unfold Integer_convert_type, sbind, get_value, lift, put_value, sraise.
    cbn [value with_value support_boolean].
    destruct (support_boolean d), b; reflexivity.
  - intros m e.
    unfold Integer_convert_type, sbind, get_value, lift, put_value, sraise, raise.
    cbn [value with_value support_boolean isinstance type_of issubclass class_eqb
         orb andb negb py_int py_float Z_eq_float existsb].
    destruct (0 <=? e)%Z eqn:He.
    + rewrite Z.eqb_refl. reflexivity.
    + apply Z.leb_gt in He.
      destruct (m mod 2 ^ (- e) =? 0)%Z eqn:Hm; cbn [andb negb orb]; [|reflexivity].
      apply Z.eqb_eq in Hm.
      rewrite (quot_exact m (2 ^ (- e))) by (try apply Z.pow_pos_nonneg; lia || exact Hm).
      rewrite Z.eqb_refl. reflexivity.
  - reflexivity.
  - intros negative. reflexivity.
  - reflexivity.
Qed.

(** What [IntegerDataType.convert_type] returns with is an [int]. *)
Lemma Integer_convert_Return ft d v c :
  Integer_convert_type ft (with_value d v) = (Return tt, with_value d c) ->
  exists n, c = PInt n.
Proof.
  intros H. unfold Integer_convert_type in H. unfold_steps H.
  cbn [support_boolean] in H.
  case_if H.
  - case_in H (py_int v). injection H as <-. eexists. reflexivity.
  - case_in H (py_int v). case_in H (py_float ft v). case_if H.
    injection H as <-. eexists. reflexivity.
Qed.


(** X5. When [__set_value__] returns on a PositiveInteger descriptor, the
    value stored is an [int] greater than zero; with the conversion
    switched off it may also be the [bool] [True], which is an instance of
    [int] and is not [<= 0]. *)
Theorem PositiveInteger_stores_positive
    (float_of_text : string -> option pyfloat) (json_loads : string -> option json)
    (get_tld : string -> bool)
    (member_call : pyval -> string -> list pyval -> outcome pyval)
    (pol : policy) (check : option (pyval -> option exception)) (conv : bool)
    (raw : pyval) (d1 : descriptor) :
  set_value float_of_text json_loads get_tld member_call pol raw
    (PositiveIntegerDataType check conv) = (Return tt, d1) ->
  exists c,
    d1 = with_value (PositiveIntegerDataType check conv) c
    /\ ((exists n, c = PInt n /\ (0 < n)%Z) \/ (conv = false /\ c = PBool true)).
Proof.
  intros Hrun.
  apply set_value_Return_stages in Hrun
    as (v & c & _ & _ & Hconv & Hvalid & Hcheck & _ & ->).
  exists c. split; [reflexivity|].
  apply validate_type_Return in Hvalid.
  unfold value_validator in Hcheck. unfold_steps Hcheck.
  cbn [kind with_value PositiveIntegerDataType set_convert StandardDataType] in Hcheck.
  destruct conv.
  - unfold convert_type in Hconv.
    cbn [convert kind with_value PositiveIntegerDataType set_convert StandardDataType negb]
      in Hconv.
    apply Integer_convert_Return in Hconv as [n ->]. left. exists n.
    split; [reflexivity|].
    simpl in Hcheck. destruct (Z.sgn n <=? 0)%Z eqn:Hs; [discriminate Hcheck|].
    apply Z.leb_gt in Hs. lia.
  - destruct c; try discriminate Hvalid; simpl in Hcheck.
    + destruct b; [right; split; reflexivity|discriminate Hcheck].
    + left. exists n. split; [reflexivity|].
      destruct (Z.sgn n <=? 0)%Z eqn:Hs; [discriminate Hcheck|].
      apply Z.leb_gt in Hs. lia.
    + discriminate Hcheck.
Qed.

Lemma PositiveInteger_stores_positive_witness :
  exists c,
    with_value (PositiveIntegerDataType None true) (PInt 27017)
    = with_value (PositiveIntegerDataType None true) c
    /\ ((exists n, c = PInt n /\ (0 < n)%Z) \/ (true = false /\ c = PBool true)).
Proof.
  exact (PositiveInteger_stores_positive no_float no_json no_tld no_member
           reveal_off_mutable None true (PStr "27017")
           (with_value (PositiveIntegerDataType None true) (PInt 27017)) eq_refl).
Defined.

(** X6. When [__set_value__] returns on a NegativeInteger descriptor, the
    value stored is an [int] less than zero, with the conversion on or
    off: no [bool] is [< 0]. *)
Theorem NegativeInteger_stores_negative
    (float_of_text : string -> option pyfloat) (json_loads : string -> option json)
    (get_tld : string -> bool)
    (member_call : pyval -> string -> list pyval -> outcome pyval)
    (pol : policy) (check : option (pyval -> option exception)) (conv : bool)
    (raw : pyval) (d1 : descriptor) :
  set_value float_of_text json_loads get_tld member_call pol raw
    (NegativeIntegerDataType check conv) = (Return tt, d1) ->
  exists n,
    d1 = with_value (NegativeIntegerDataType check conv) (PInt n) /\ (n < 0)%Z.
Proof.
  intros Hrun.
  apply set_value_Return_stages in Hrun
    as (v & c & _ & _ & Hconv & Hvalid & Hcheck & _ & ->).
  apply validate_type_Return in Hvalid.
  unfold value_validator in Hcheck. unfold_steps Hcheck.
  cbn [kind with_value NegativeIntegerDataType set_convert StandardDataType] in Hcheck.
  assert (Hint : exists n, c = PInt n).
  { destruct conv.
    - unfold convert_type in Hconv.
      cbn [convert kind with_value NegativeIntegerDataType set_convert StandardDataType negb]
        in Hconv.
      apply (Integer_convert_Return _ _ _ _ Hconv).
    - destruct c; try discriminate Hvalid; simpl in Hcheck.
      + destruct b; discriminate Hcheck.
      + exists n. reflexivity.
      + discriminate Hcheck. }
  destruct Hint as [n ->]. exists n. split; [reflexivity|].
  simpl in Hcheck. destruct (0 <=? Z.sgn n)%Z eqn:Hs; [discriminate Hcheck|].
  apply Z.leb_gt in Hs. lia.
Qed.

Lemma NegativeInteger_stores_negative_witness :
  exists n,
    with_value (NegativeIntegerDataType None true) (PInt (-1))
    = with_value (NegativeIntegerDataType None true) (PInt n) /\ (n < 0)%Z.
Proof.
  exact (NegativeInteger_stores_negative no_float no_json no_tld no_member
           reveal_off_mutable None true (PFloat (FFinite (-1) 0))
           (with_value (NegativeIntegerDataType None true) (PInt (-1))) eq_refl).
Defined.

(** X7. The finite-float guard of a Float descriptor looks at texts only,
    and only at the two texts [inf] and [-inf] (letter case and surrounding
    blanks aside).  Such a text is refused when [support_inf] is off.  A
    value that is a [float] already is stored as it is, infinities and NaN
    included, whatever [support_inf] says; any other text goes to [float],
    and what [float] reads from it is stored, be it an infinity. *)
Theorem Float_finite_guard_scope
    (float_of_text : string -> option pyfloat) (json_loads : string -> option json)
    (get_tld : string -> bool)
    (member_call : pyval -> string -> list pyval -> outcome pyval)
    (pol : policy) (conv inf_ok bool_ok : bool) :
  (forall f,
      set_value float_of_text json_loads get_tld member_call pol (PFloat f)
        (FloatDataType None conv inf_ok bool_ok)
      = (Return tt,
         with_value (FloatDataType None conv inf_ok bool_ok) (PFloat f)))
  /\ (forall s,
        str_in (strip (lower s)) ["inf"; "-inf"] = true ->
        set_value float_of_text json_loads get_tld member_call pol (PStr s)
          (FloatDataType None true false bool_ok)
        = (Raise (MkExc ValueError
                    [Lit "Value "; Fmt (PStr s); Lit " must be a finite float."]),
           with_value (FloatDataType None true false bool_ok) (PStr s)))
  /\ (forall s f,
        str_in (strip (lower s)) ["inf"; "-inf"] = false ->
        s <> "NOT_SET" ->
        int_literal s = None ->
        float_of_text s = Some f ->
        set_value float_of_text json_loads get_tld member_call pol (PStr s)
          (FloatDataType None true false bool_ok)
        = (Return tt,
           with_value (FloatDataType None true false bool_ok) (PFloat f))).
Proof.
  split; [|split].
  - intros f. destruct conv; reflexivity.
  - intros s Hs.
    assert (Hne : String.eqb s "NOT_SET" = false).
    { destruct (String.eqb_spec s "NOT_SET") as [->|_]; [discriminate Hs|reflexivity]. }
    unfold set_value, sbind, lift, convert_to_secure_value, put_value,
      precheck_empty_value, py_eq_str, str_content, py_truth, convert_type,
      Float_convert_type, get_value, sraise, raise.
    cbn [mask_value FloatDataType set_convert set_support StandardDataType andb
         value with_value kind convert negb support_inf support_boolean isinstance
         type_of issubclass class_eqb orb].
    rewrite Hne. cbn -[str_in strip lower]. rewrite Hs. reflexivity.
  - intros s f Hs Hne Hint Hf.
    apply String.eqb_neq in Hne.
    unfold set_value, sbind, lift, convert_to_secure_value, put_value,
      precheck_empty_value, py_eq_str, str_content, py_truth, convert_type,
      Float_convert_type, get_value, sraise, raise, sret, py_float.
    cbn [mask_value FloatDataType set_convert set_support StandardDataType andb
         value with_value kind convert negb support_inf support_boolean isinstance
         type_of issubclass class_eqb orb].
    rewrite Hne. cbn -[str_in strip lower int_literal]. rewrite Hs. cbn -[int_literal].
    rewrite Hint, Hf. destruct bool_ok; reflexivity.
Qed.

Lemma Float_finite_guard_scope_witness :
  set_value (fun s => if String.eqb s "Infinity" then Some (FInf false) else None)
    no_json no_tld no_member reveal_off_mutable (PStr "Infinity")
    (FloatDataType None true false false)
  = (Return tt, with_value (FloatDataType None true false false) (PFloat (FInf false))).
Proof.
  refine (proj2 (proj2 (Float_finite_guard_scope
                          (fun s => if String.eqb s "Infinity"
                                    then Some (FInf false) else None)
                          no_json no_tld no_member reveal_off_mutable true false false))
            "Infinity" (FInf false) eq_refl _ eq_refl eq_refl).
  discriminate.
Defined.

(** ** Lists and dictionaries *)

Lemma precheck_text mc d s :
  s <> "NOT_SET" ->
  precheck_empty_value mc (with_value d (PStr s)) = (Return tt, with_value d (PStr s)).
Proof.
  intros Hne. apply String.eqb_neq in Hne.
  unfold precheck_empty_value, lift, py_eq_str, str_content.
  cbn [value with_value obind]. rewrite Hne. reflexivity.
Qed.



(** ** Email addresses *)

Lemma append_nil (s : string) : EmptyString ++ s = s.
Proof. reflexivity. Qed.

Lemma append_cons c (a b : string) : String c a ++ b = String c (a ++ b).
Proof. reflexivity. Qed.

Lemma plus_set_split p k s :
  plus_set p k s = true ->
  exists pre rest,
    s = pre ++ rest /\ pre <> EmptyString /\ every_char p pre = true /\ k rest = true.
Proof.
  induction s as [|c t IH]; simpl; [discriminate|].
  intros H. apply andb_true_iff in H as [Hc H].
  apply orb_true_iff in H as [H|H].
  - exists (String c EmptyString), t. repeat split.
    + discriminate.
    + unfold every_char. simpl. rewrite Hc. reflexivity.
    + exact H.
  - destruct (IH H) as (pre & rest & -> & _ & Hpre & Hk).
    exists (String c pre), rest. repeat split.
    + discriminate.
    + unfold every_char in *. simpl. rewrite Hc. exact Hpre.
    + exact Hk.
Qed.

Lemma plus_set_intro p k pre rest :
  pre <> EmptyString -> every_char p pre = true -> k rest = true ->
  plus_set p k (pre ++ rest) = true.
Proof.
  intros Hne Hpre Hk. induction pre as [|c t IH]; [contradiction|].
  unfold every_char in Hpre. simpl in Hpre. apply andb_true_iff in Hpre as [Hc Ht].
  rewrite append_cons. simpl. rewrite Hc. simpl.
  destruct t as [|c' t'].
  - rewrite append_nil, Hk. reflexivity.
  - rewrite IH; [apply orb_true_r|discriminate|exact Ht].
Qed.

Lemma not_at_set c : in_set true (singles "@") c = negb (Ascii.eqb c "@").
Proof.
  unfold in_set. rewrite xorb_true_l. f_equal.
  change (existsb (fun r => in_range (fst r) (snd r) c) (singles "@"))
    with (in_set false (singles "@") c).
  rewrite in_set_singles. cbn [contains_char]. rewrite orb_false_r.
  apply Ascii.eqb_sym.
Qed.

Lemma every_char_not_at s :
  every_char (in_set true (singles "@")) s = negb (contains_char "@" s).
Proof.
  unfold every_char.
  induction s as [|c t IH]; cbn [list_ascii_of_string forallb contains_char];
    [reflexivity|].
  rewrite IH, not_at_set, negb_orb. reflexivity.
Qed.

Lemma append_empty_r (s : string) : s ++ EmptyString = s.
Proof. induction s as [|c t IH]; [reflexivity|]. rewrite append_cons, IH. reflexivity. Qed.

Lemma rmatch_email k s :
  rmatch false (String.length s) email_pattern k s
  = plus_set (in_set true (singles "@"))
      (fun s1 =>
         match s1 with
         | String c s2 =>
             Ascii.eqb c "@"
             && plus_set (in_set true (singles "@"))
                  (fun s3 =>
                     match s3 with
                     | String c' s4 =>
                         Ascii.eqb c' "."
                         && plus_set (in_set true (singles "@")) k s4
                     | EmptyString => false
                     end) s2
         | EmptyString => false
         end) s.
Proof. reflexivity. Qed.

(** X9. Every text that [EmailDataType._value_validator] accepts begins
    with [local@x.y], where [local], [x] and [y] are not empty and hold no
    at-sign.  So a text with no at-sign, with nothing before it, or with no
    dot after it that has a character on both sides is refused. *)
Theorem Email_accepted_shape
    (get_tld : string -> bool) (d d' : descriptor) (s : string) :
  Email_value_validator get_tld (with_value d (PStr s)) = (Return tt, d') ->
  exists local x y rest,
    s = local ++ "@" ++ x ++ "." ++ y ++ rest
    /\ local <> EmptyString /\ x <> EmptyString /\ y <> EmptyString
    /\ contains_char "@" local = false
    /\ contains_char "@" x = false
    /\ contains_char "@" y = false.
Proof.
  intros H. unfold Email_value_validator in H. unfold_steps H.
  cbn [re_subject] in H.
  destruct (re_match false email_pattern s) eqn:Hm; [clear H|discriminate H].
  unfold re_match in Hm. rewrite rmatch_email in Hm.
  apply plus_set_split in Hm as (local & r1 & -> & Hl & Hnl & Hm).
  destruct r1 as [|c r2]; [discriminate Hm|].
  apply andb_true_iff in Hm as [Hc Hm]. apply Ascii.eqb_eq in Hc as ->.
  apply plus_set_split in Hm as (x & r3 & -> & Hx & Hnx & Hm).
  destruct r3 as [|c r4]; [discriminate Hm|].
  apply andb_true_iff in Hm as [Hc Hm]. apply Ascii.eqb_eq in Hc as ->.
  apply plus_set_split in Hm as (y & rest & -> & Hy & Hny & _).
  rewrite every_char_not_at in Hnl, Hnx, Hny.
  apply negb_true_iff in Hnl, Hnx, Hny.
  exists local, x, y, rest. repeat split; assumption.
Qed.

Lemma Email_accepted_shape_witness :
  exists local x y rest,
    "user+tag@gmail.com" = local ++ "@" ++ x ++ "." ++ y ++ rest
    /\ local <> EmptyString /\ x <> EmptyString /\ y <> EmptyString
    /\ contains_char "@" local = false
    /\ contains_char "@" x = false
    /\ contains_char "@" y = false.
Proof.
  exact (Email_accepted_shape (fun _ => true) (EmailDataType None)
           (with_value (EmailDataType None) (PStr "user+tag@gmail.com"))
           "user+tag@gmail.com" eq_refl).
Defined.

Lemma rmatch_domain s :
  re_match false domain_pattern s
  = plus_set domain_char
      (fun rest =>
         (String.eqb rest EmptyString
          || String.eqb rest (String (char_of 10) EmptyString)) && true) s.
Proof.
  unfold re_match, domain_pattern. cbn [rmatch]. rewrite Nat.eqb_refl. reflexivity.
Qed.

Lemma rmatch_url s :
  re_match false url_pattern ("http://" ++ s)
  = (rmatch false (String.length ("http://" ++ s)) (lits "www.")
       (plus_set domain_char (fun _ => true)) s
     || plus_set domain_char (fun _ => true) s).
Proof. reflexivity. Qed.

(** X10. [EmailDataType.is_valid_domain_name] accepts a domain exactly when
    it is a non-empty run of letters, digits, dots and hyphens, possibly
    followed by one newline (which [$] lets through), and the lookup of its
    top-level domain succeeds.  The match against the URL pattern never
    fails once the characters have been checked. *)
Theorem is_valid_domain_name_spec (get_tld : string -> bool) (domain_name : string) :
  is_valid_domain_name get_tld domain_name = true
  <-> (exists body,
          (domain_name = body
           \/ domain_name = body ++ String (char_of 10) EmptyString)
          /\ body <> EmptyString
          /\ every_char domain_char body = true)
      /\ get_tld ("http://" ++ domain_name) = true.
Proof.
  unfold is_valid_domain_name. rewrite rmatch_domain. split.
  - intros H.
    destruct (plus_set domain_char _ domain_name) eqn:Hd; [|discriminate H].
    cbn [negb] in H.
    destruct (re_match false url_pattern ("http://" ++ domain_name));
      [|discriminate H].
    cbn [negb] in H. split; [|exact H].
    apply plus_set_split in Hd as (body & rest & -> & Hne & Hbody & Hrest).
    rewrite andb_true_r in Hrest. apply orb_true_iff in Hrest as [Hr|Hr];
      apply String.eqb_eq in Hr; subst rest; exists body.
    + rewrite append_empty_r. auto.
    + auto.
  - intros [(body & Hshape & Hne & Hbody) Htld].
    assert (Hd : plus_set domain_char
                   (fun rest =>
                      (String.eqb rest EmptyString
                       || String.eqb rest (String (char_of 10) EmptyString)) && true)
                   domain_name = true).
    { destruct Hshape as [->| ->].
      - rewrite <- (append_empty_r body). apply plus_set_intro; auto.
      - apply plus_set_intro; auto. }
    assert (Hu : plus_set domain_char (fun _ => true) domain_name = true).
    { destruct Hshape as [->| ->].
      - rewrite <- (append_empty_r body). apply plus_set_intro; auto.
      - apply plus_set_intro; auto. }
    rewrite Hd, rmatch_url, Hu, orb_true_r. exact Htld.
Qed.

Lemma split_on_absent sep s :
  contains_char sep s = false -> split_on sep s = [s].
Proof.
  induction s as [|c t IH]; cbn [contains_char split_on]; [reflexivity|].
  intros H. apply orb_false_iff in H as [Hc Ht].
  rewrite Hc, (IH Ht). reflexivity.
Qed.

Lemma split_on_once sep a b :
  contains_char sep a = false -> contains_char sep b = false ->
  split_on sep (a ++ String sep b) = [a; b].
Proof.
  intros Ha Hb. induction a as [|c t IH].
  - rewrite append_nil. cbn [split_on]. rewrite Ascii.eqb_refl.
    rewrite (split_on_absent sep b Hb). reflexivity.
  - cbn [contains_char] in Ha. apply orb_false_iff in Ha as [Hc Ht].
    rewrite append_cons. cbn [split_on]. rewrite Hc, (IH Ht). reflexivity.
Qed.

(** X11. An address [local@x.y] with one at-sign, where [local], [x] and
    [y] are not empty, passes [EmailDataType._value_validator] exactly when
    [is_valid_domain_name] accepts [x.y]; otherwise the validator raises
    its [ValueError]. *)
Theorem Email_single_at_sign
    (get_tld : string -> bool) (d : descriptor) (local x y : string) :
  local <> EmptyString -> x <> EmptyString -> y <> EmptyString ->
  contains_char "@" local = false ->
  contains_char "@" x = false ->
  contains_char "@" y = false ->
  fst (Email_value_validator get_tld
         (with_value d (PStr (local ++ "@" ++ x ++ "." ++ y))))
  = if is_valid_domain_name get_tld (x ++ "." ++ y) then Return tt
    else Raise (MkExc ValueError
                  [Lit "Value '"; Fmt (PStr (local ++ "@" ++ x ++ "." ++ y));
                   Lit "' is not a valid email address."]).
Proof.
  intros Hl Hx Hy Hnl Hnx Hny.
  assert (Hm : re_match false email_pattern (local ++ "@" ++ x ++ "." ++ y) = true).
  { unfold re_match. rewrite rmatch_email.
    apply plus_set_intro; [exact Hl|rewrite every_char_not_at, Hnl; reflexivity|].
    change ("@" ++ x ++ "." ++ y) with (String "@" (x ++ "." ++ y)).
    cbv beta iota. rewrite Ascii.eqb_refl. cbn [andb].
    apply plus_set_intro; [exact Hx|rewrite every_char_not_at, Hnx; reflexivity|].
    change ("." ++ y) with (String "." y).
    cbv beta iota. rewrite Ascii.eqb_refl. cbn [andb].
    rewrite <- (append_empty_r y).
    apply plus_set_intro; [exact Hy|rewrite every_char_not_at, Hny; reflexivity|].
    reflexivity. }
  assert (Hdom : contains_char "@" (x ++ "." ++ y) = false).
  { clear -Hnx Hny. induction x as [|c t IH].
    - rewrite append_nil. change ("." ++ y) with (String "." y).
      cbn [contains_char]. rewrite Hny. reflexivity.
    - cbn [contains_char] in Hnx. apply orb_false_iff in Hnx as [Hc Ht].
      rewrite append_cons. cbn [contains_char]. rewrite Hc, (IH Ht). reflexivity. }
  unfold Email_value_validator, sbind, get_value, lift, sret, sraise, raise.
  cbn [value with_value re_subject].
  rewrite Hm. cbn [negb].
  change (local ++ "@" ++ x ++ "." ++ y) with (local ++ String "@" (x ++ "." ++ y)).
  rewrite (split_on_once "@" local (x ++ "." ++ y) Hnl Hdom).
  destruct (is_valid_domain_name get_tld (x ++ "." ++ y)); reflexivity.
Qed.

Lemma Email_single_at_sign_witness :
  fst (Email_value_validator (fun _ => true)
         (with_value (EmailDataType None)
            (PStr ("user+tag" ++ "@" ++ "gmail" ++ "." ++ "com"))))
  = if is_valid_domain_name (fun _ => true) ("gmail" ++ "." ++ "com") then Return tt
    else Raise (MkExc ValueError
                  [Lit "Value '";
                   Fmt (PStr ("user+tag" ++ "@" ++ "gmail" ++ "." ++ "com"));
                   Lit "' is not a valid email address."]).
Proof.
  apply (Email_single_at_sign (fun _ => true) (EmailDataType None)
           "user+tag" "gmail" "com"); (discriminate || reflexivity).
Defined.

(** ** More on the masking proxy *)



(** X13. [isinstance] does not tell a proxy from the value it wraps: for
    every class that is not itself a proxy class, the proxy is an instance
    exactly when the value is, with the one exception of [bool], of which
    no proxy is an instance since the proxy of a [bool] is built on
    [int]. *)
Theorem proxy_keeps_isinstance (form : secure_form) (v : pyval) (c : pyclass) :
  (forall base, c <> CSecureValue base) ->
  (c <> Cbool -> isinstance (PSecure form v) c = isinstance v c)
  /\ (forall b, isinstance (PSecure form (PBool b)) Cbool = false).
Proof.
  intros Hc. split; [|reflexivity].
  intros Hbool. unfold isinstance. cbn [type_of issubclass].
  assert (Hno : forall base, class_eqb (CSecureValue base) c = false).
  { intros base. destruct c; try reflexivity. exfalso. apply (Hc c). reflexivity. }
  rewrite Hno. cbn [orb].
  destruct v; try reflexivity.
  cbn [type_of issubclass].
  destruct c; try reflexivity. exfalso. apply Hbool. reflexivity.
Qed.

Lemma proxy_keeps_isinstance_witness :
  (Cint <> Cbool ->
   isinstance (PSecure Immutable (PBool true)) Cint = isinstance (PBool true) Cint)
  /\ (forall b, isinstance (PSecure Immutable (PBool b)) Cbool = false).
Proof.
  apply (proxy_keeps_isinstance Immutable (PBool true) Cint). discriminate.
Defined.



(** ** More on the finalized collection *)

Lemma dict_del_keys_incl {A} key (l : list (string * A)) :
  incl (map fst (dict_del key l)) (map fst l).
Proof.
  induction l as [|[k a] rest IH]; simpl; [apply incl_refl|].
  destruct (String.eqb key k).
  - apply incl_tl, incl_refl.
  - apply incl_cons; [left; reflexivity|apply incl_tl, IH].
Qed.

Lemma rev_tail_keys_incl {A} (l : list (string * A)) k a earlier :
  rev l = (k, a) :: earlier -> incl (map fst (rev earlier)) (map fst l).
Proof.
  intros H. rewrite <- (rev_involutive l), H. simpl.
  rewrite map_app. apply incl_appl, incl_refl.
Qed.

(** After [__init__] the flag is set, and none of the four methods clears
    it: it stays set or the attribute is deleted. *)
Lemma try_delattr_entries key self :
  entries (snd (try_delattr key self)) = entries self.
Proof.
  unfold try_delattr.
  destruct (String.eqb key "__class__"); [reflexivity|].
  destruct (String.eqb key "__dict__"); reflexivity.
Qed.

Lemma try_delattr_closed key self :
  attributes self !! "is_dict_initialized" = Some (PBool true)
  \/ attributes self !! "is_dict_initialized" = None ->
  attributes (snd (try_delattr key self)) !! "is_dict_initialized" = Some (PBool true)
  \/ attributes (snd (try_delattr key self)) !! "is_dict_initialized" = None.
Proof.
  intros Hflag. unfold try_delattr.
  destruct (String.eqb key "__class__"); [exact Hflag|].
  destruct (String.eqb key "__dict__"); cbn [snd attributes].
  - right. apply lookup_empty.
  - destruct (decide (key = "is_dict_initialized")) as [->|Hne].
    + right. apply lookup_delete_eq.
    + rewrite lookup_delete_ne by exact Hne. exact Hflag.
Qed.

Lemma pop_state key default self :
  snd (EnvConfig_pop key default self)
  = snd (try_delattr key (with_entries (dict_del key (entries self)) self)).
Proof.
  unfold EnvConfig_pop. destruct (try_delattr key _). reflexivity.
Qed.

Lemma popitem_state self key cell earlier :
  rev (entries self) = (key, cell) :: earlier ->
  snd (EnvConfig_popitem self)
  = snd (try_delattr key (with_entries (rev earlier) self)).
Proof.
  intros H. unfold EnvConfig_popitem. rewrite H.
  destruct (try_delattr key _). reflexivity.
Qed.

(** After [__init__] the flag is set, and none of the four methods clears
    it: it stays set or the attribute is deleted. *)
Lemma mutate_keeps_closed ca m self :
  attributes self !! "is_dict_initialized" = Some (PBool true)
  \/ attributes self !! "is_dict_initialized" = None ->
  (attributes (mutate ca m self) !! "is_dict_initialized" = Some (PBool true)
   \/ attributes (mutate ca m self) !! "is_dict_initialized" = None)
  /\ incl (EnvConfig_keys (mutate ca m self)) (EnvConfig_keys self).
Proof.
  intros Hflag.
  destruct m as [key new|key|key default|]; unfold mutate, EnvConfig_keys.
  - unfold EnvConfig_setitem.
    destruct Hflag as [Hf|Hf]; rewrite Hf; cbn [py_truth snd];
      (split; [auto|apply incl_refl]).
  - unfold EnvConfig_delitem.
    destruct (dict_get key (entries self)).
    + split; [apply try_delattr_closed; exact Hflag|].
      rewrite try_delattr_entries. cbn [with_entries entries].
      apply dict_del_keys_incl.
    + split; [exact Hflag|apply incl_refl].
  - rewrite pop_state. split; [apply try_delattr_closed; exact Hflag|].
    rewrite try_delattr_entries. cbn [with_entries entries].
    apply dict_del_keys_incl.
  - destruct (rev (entries self)) as [|[key cell] earlier] eqn:Hrev.
    + unfold EnvConfig_popitem. rewrite Hrev. cbn [snd].
      split; [exact Hflag|apply incl_refl].
    + rewrite (popitem_state self key cell earlier Hrev).
      split; [apply try_delattr_closed; exact Hflag|].
      rewrite try_delattr_entries. cbn [with_entries entries].
      apply (rev_tail_keys_incl _ _ _ _ Hrev).
Qed.

(** X15. A finalized collection never takes an item again.  After
    [__init__] and any sequence of item assignments, item deletions, [pop]
    and [popitem] calls, an item assignment raises and leaves the object as
    it is: [ImmutableError] while the flag [is_dict_initialized] is there,
    [AttributeError] once a deletion under the key [is_dict_initialized]
    has taken the flag away.  The keys are among those [__init__] stored. *)
Theorem EnvConfig_stays_closed
    (class_attribute : string -> bool) (mapping : list (string * ConfigValue))
    (ms : list mutation) (key : string) (new : ConfigValue + pyval) :
  let cfg := mutate_all class_attribute ms (EnvConfig_init class_attribute mapping) in
  (EnvConfig_setitem class_attribute key new cfg
   = (Raise (MkExc ImmutableError
               [Lit "Cannot set or update values of the environment config once initalized."]),
      cfg)
   \/ EnvConfig_setitem class_attribute key new cfg
      = (Raise (MkExc AttributeError [Builtin "is_dict_initialized"]), cfg))
  /\ incl (EnvConfig_keys cfg)
          (EnvConfig_keys (EnvConfig_init class_attribute mapping)).
Proof.
  intros cfg.
  assert (Hinv : (attributes cfg !! "is_dict_initialized" = Some (PBool true)
                  \/ attributes cfg !! "is_dict_initialized" = None)
                 /\ incl (EnvConfig_keys cfg)
                         (EnvConfig_keys (EnvConfig_init class_attribute mapping))).
  { subst cfg. unfold mutate_all.
    induction ms as [|m ms IH] using rev_ind.
    - split; [left; apply EnvConfig_init_flag|apply incl_refl].
    - rewrite fold_left_app. cbn [fold_left].
      destruct IH as [Hflag Hkeys].
      destruct (mutate_keeps_closed class_attribute m _ Hflag) as [Hflag' Hkeys'].
      split; [exact Hflag'|].
      intros k Hk. apply Hkeys, Hkeys', Hk. }
  destruct Hinv as [[Hflag|Hflag] Hkeys]; split; try exact Hkeys.
  - left. unfold EnvConfig_setitem. rewrite Hflag. reflexivity.
  - right. unfold EnvConfig_setitem. rewrite Hflag. reflexivity.
Qed.

Lemma dict_set_keys_NoDup {A} k (a : A) l :
  List.NoDup (map fst l) -> List.NoDup (map fst (dict_set k a l)).
Proof.
  induction l as [|[k' a'] rest IH]; simpl; intros Hnd.
  - constructor; [intros []|constructor].
  - destruct (String.eqb_spec k k') as [->|Hne]; simpl; [exact Hnd|].
    inversion Hnd as [|? ? Hnotin Hrest]; subst.
    constructor; [|apply IH, Hrest].
    intros Hin. apply Hnotin. clear -Hin Hne.
    induction rest as [|[k2 a2] rest IH]; simpl in *.
    + destruct Hin as [Heq|[]]. exfalso. apply Hne. exact Heq.
    + destruct (String.eqb_spec k k2) as [->|Hne2]; simpl in Hin; [exact Hin|].
      destruct Hin as [Heq|Hin]; [left; exact Heq|right; apply IH, Hin].
Qed.

Lemma dict_del_keys_NoDup {A} k (l : list (string * A)) :
  List.NoDup (map fst l) -> List.NoDup (map fst (dict_del k l)).
Proof.
  induction l as [|[k' a'] rest IH]; simpl; intros Hnd; [constructor|].
  inversion Hnd as [|? ? Hnotin Hrest]; subst.
  destruct (String.eqb k k'); [exact Hrest|].
  simpl. constructor; [|apply IH, Hrest].
  intros Hin. apply Hnotin. apply (dict_del_keys_incl k rest). exact Hin.
Qed.

Lemma dict_get_In {A} k (l : list (string * A)) a :
  dict_get k l = Some a -> In k (map fst l).
Proof.
  induction l as [|[k' a'] rest IH]; simpl; [discriminate|].
  destruct (String.eqb_spec k k') as [->|Hne]; [left; reflexivity|].
  intros H. right. apply IH, H.
Qed.

Lemma dict_get_not_In {A} k (l : list (string * A)) :
  ~ In k (map fst l) -> dict_get k l = None.
Proof.
  intros Hnot. destruct (dict_get k l) as [a|] eqn:H; [|reflexivity].
  exfalso. apply Hnot. apply (dict_get_In k l a H).
Qed.

Lemma dict_get_del_same {A} k (l : list (string * A)) :
  List.NoDup (map fst l) -> dict_get k (dict_del k l) = None.
Proof.
  induction l as [|[k' a'] rest IH]; simpl; intros Hnd; [reflexivity|].
  inversion Hnd as [|? ? Hnotin Hrest]; subst.
  destruct (String.eqb_spec k k') as [->|Hne].
  - apply dict_get_not_In, Hnotin.
  - simpl. destruct (String.eqb_spec k k') as [Heq|_]; [contradiction|].
    apply IH, Hrest.
Qed.

Lemma dict_get_del_other {A} k k' (l : list (string * A)) :
  k' <> k -> dict_get k' (dict_del k l) = dict_get k' l.
Proof.
  intros Hne. induction l as [|[k2 a2] rest IH]; simpl; [reflexivity|].
  destruct (String.eqb_spec k k2) as [->|Hne2].
  - destruct (String.eqb_spec k' k2) as [Heq|_]; [contradiction|reflexivity].
  - simpl. rewrite IH. reflexivity.
Qed.

Lemma init_entries ca mapping :
  entries (EnvConfig_init ca mapping)
  = fold_left (fun acc kv => dict_set (fst kv) (snd kv) acc) mapping [].
Proof.
  unfold EnvConfig_init. cbn [set_attribute entries].
  set (stored := fold_left _ mapping []).
  set (self0 := {| entries := stored; attributes := _ |}).
  assert (H : forall l self,
             entries (fold_left
                        (fun self kv =>
                           if has_attribute ca self (fst kv) then self
                           else set_attribute (fst kv) (cv_value (snd kv)) self)
                        l self) = entries self).
  { induction l as [|kv l IH]; intros self; simpl; [reflexivity|].
    rewrite IH. destruct (has_attribute ca self (fst kv)); reflexivity. }
  rewrite H. reflexivity.
Qed.

Lemma init_keys_NoDup ca mapping : List.NoDup (EnvConfig_keys (EnvConfig_init ca mapping)).
Proof.
  unfold EnvConfig_keys. rewrite init_entries.
  assert (H : forall l (acc : list (string * ConfigValue)),
             List.NoDup (map fst acc) ->
             List.NoDup (map fst (fold_left (fun acc kv => dict_set (fst kv) (snd kv) acc)
                               l acc))).
  { induction l as [|kv l IH]; intros acc Hacc; simpl; [exact Hacc|].
    apply IH, dict_set_keys_NoDup, Hacc. }
  apply H. constructor.
Qed.

Lemma mutate_keeps_NoDup ca m self :
  List.NoDup (EnvConfig_keys self) -> List.NoDup (EnvConfig_keys (mutate ca m self)).
Proof.
  intros Hnd. unfold EnvConfig_keys in *.
  destruct m as [key new|key|key default|]; unfold mutate.
  - unfold EnvConfig_setitem.
    destruct (attributes self !! "is_dict_initialized") as [flag|]; [|exact Hnd].
    destruct (py_truth flag) as [[]| |]; try exact Hnd.
    destruct new as [cell|v]; [|exact Hnd].
    destruct (has_attribute ca _ key); cbn [snd set_attribute with_entries entries];
      apply dict_set_keys_NoDup, Hnd.
  - unfold EnvConfig_delitem.
    destruct (dict_get key (entries self)); [|exact Hnd].
    rewrite try_delattr_entries. cbn [with_entries entries].
    apply dict_del_keys_NoDup, Hnd.
  - rewrite pop_state, try_delattr_entries. cbn [with_entries entries].
    apply dict_del_keys_NoDup, Hnd.
  - destruct (rev (entries self)) as [|[key cell] earlier] eqn:Hrev.
    + unfold EnvConfig_popitem. rewrite Hrev. exact Hnd.
    + rewrite (popitem_state self key cell earlier Hrev), try_delattr_entries.
      cbn [with_entries entries].
      rewrite <- (rev_involutive (entries self)), Hrev in Hnd. simpl in Hnd.
      rewrite map_app in Hnd. apply List.NoDup_app_remove_r in Hnd. exact Hnd.
Qed.

Lemma mutate_all_keys_NoDup ca ms mapping :
  List.NoDup (EnvConfig_keys (mutate_all ca ms (EnvConfig_init ca mapping))).
Proof.
  unfold mutate_all. induction ms as [|m ms IH] using rev_ind.
  - apply init_keys_NoDup.
  - rewrite fold_left_app. cbn [fold_left]. apply mutate_keeps_NoDup, IH.
Qed.

(** X16. [pop] on a collection that [__init__] built, after any calls of
    the changing methods.  It returns the cell stored under the key, or the
    default for a key that is not there, for every key but [__class__]:
    there the [TypeError] of [delattr], which the handler does not catch,
    is raised once the entry has been removed.  Afterwards item access with
    the key raises [KeyError] and the other keys are as before.  The
    instance attribute of that name is gone, even when the key was not in
    the collection; under the key [__dict__] every instance attribute is
    gone; under [__class__] none is touched; no other attribute changes.
    [__delitem__] does the same for a key of the collection, and for any
    other key raises [KeyError] and changes nothing. *)
Theorem EnvConfig_pop_removes
    (class_attribute : string -> bool) (mapping : list (string * ConfigValue))
    (ms : list mutation) (key : string) (default : pyval) :
  let cfg := mutate_all class_attribute ms (EnvConfig_init class_attribute mapping) in
  let after := snd (EnvConfig_pop key default cfg) in
  fst (EnvConfig_pop key default cfg)
  = (if String.eqb key "__class__" then Raise (MkExc TypeError [Builtin "delattr"])
     else Return (match dict_get key (entries cfg) with
                  | Some cell => PConfigValue (cv_value cell)
                  | None => default
                  end))
  /\ EnvConfig_getitem key after = Raise (MkExc KeyError [Lit key])
  /\ attributes after !! key
     = (if String.eqb key "__class__" then attributes cfg !! key else None)
  /\ (forall other, other <> key ->
        EnvConfig_getitem other after = EnvConfig_getitem other cfg
        /\ attributes after !! other
           = (if String.eqb key "__dict__" then None else attributes cfg !! other))
  /\ EnvConfig_delitem key cfg
     = if str_in key (EnvConfig_keys cfg)
       then (if String.eqb key "__class__"
             then Raise (MkExc TypeError [Builtin "delattr"]) else Return tt,
             after)
       else (Raise (MkExc KeyError [Lit key]), cfg).
Proof.
  intros cfg after.
  pose proof (mutate_all_keys_NoDup class_attribute ms mapping) as Hnd.
  fold cfg in Hnd. unfold EnvConfig_keys in Hnd.
  subst after. unfold EnvConfig_pop, EnvConfig_getitem, EnvConfig_delitem, try_delattr.
  unfold EnvConfig_keys. rewrite dict_get_keys.
  destruct (String.eqb key "__class__") eqn:Hclass;
    [|destruct (String.eqb key "__dict__") eqn:Hdict];
    cbn [fst snd with_entries entries attributes obind].
  - split; [reflexivity|]. split.
    { rewrite (dict_get_del_same key (entries cfg) Hnd). reflexivity. }
    split; [reflexivity|]. split.
    { intros other Hne. rewrite (dict_get_del_other key other (entries cfg) Hne).
      split; [reflexivity|].
      apply String.eqb_eq in Hclass. subst key. reflexivity. }
    destruct (dict_get key (entries cfg)); reflexivity.
  - split; [reflexivity|]. split.
    { rewrite (dict_get_del_same key (entries cfg) Hnd). reflexivity. }
    split; [apply lookup_empty|]. split.
    { intros other Hne. rewrite (dict_get_del_other key other (entries cfg) Hne).
      split; [reflexivity|apply lookup_empty]. }
    destruct (dict_get key (entries cfg)); reflexivity.
  - split; [reflexivity|]. split.
    { rewrite (dict_get_del_same key (entries cfg) Hnd). reflexivity. }
    split; [apply lookup_delete_eq|]. split.
    { intros other Hne. rewrite (dict_get_del_other key other (entries cfg) Hne).
      split; [reflexivity|]. apply lookup_delete_ne. congruence. }
    destruct (dict_get key (entries cfg)); reflexivity.
Qed.

Lemma fold_attributes ca key :
  forall (l : list (string * ConfigValue)) (self : EnvConfig),
    attributes
      (fold_left
         (fun self kv =>
            if has_attribute ca self (fst kv) then self
            else set_attribute (fst kv) (cv_value (snd kv)) self)
         l self) !! key
    = match attributes self !! key with
      | Some v => Some v
      | None =>
          if ca key then None
          else match dict_get key l with
               | Some cell => Some (cv_value cell)
               | None => None
               end
      end.
Proof.
  induction l as [|[k c] rest IH]; intros self.
  - simpl. destruct (attributes self !! key); [reflexivity|].
    destruct (ca key); reflexivity.
  - cbn [fold_left fst snd]. rewrite IH. cbn [dict_get].
    unfold has_attribute.
    destruct (String.eqb_spec key k) as [->|Hne].
    + destruct (attributes self !! k) as [v|] eqn:Hk.
      * rewrite ?Hk. reflexivity.
      * destruct (ca k) eqn:Hca.
        -- rewrite ?Hk, ?Hca. reflexivity.
        -- unfold set_attribute. cbn [attributes].
           rewrite lookup_insert_eq. reflexivity.
    + assert (Hsame : attributes
                        (if match attributes self !! k with
                            | Some _ => true
                            | None => ca k
                            end
                         then self
                         else set_attribute k (cv_value c) self) !! key
                      = attributes self !! key).
      { destruct (match attributes self !! k with Some _ => true | None => ca k end);
          [reflexivity|].
        unfold set_attribute. cbn [attributes].
        apply lookup_insert_ne. congruence. }
      rewrite Hsame. reflexivity.
Qed.

(** X17. What [__init__] leaves as instance attributes.  A key of the
    collection becomes an attribute holding the unwrapped value that item
    access returns, unless the class already has an attribute of that name
    (a method such as [get] or [keys]): then no instance attribute is
    made, and attribute access keeps giving the method.  A name that is no
    key is no attribute.  The flag [is_dict_initialized] is set, also when
    it is a key. *)
Theorem EnvConfig_init_attributes
    (class_attribute : string -> bool) (mapping : list (string * ConfigValue))
    (key : string) :
  let cfg := EnvConfig_init class_attribute mapping in
  attributes cfg !! "is_dict_initialized" = Some (PBool true)
  /\ (key <> "is_dict_initialized" ->
      attributes cfg !! key
      = if class_attribute key then None
        else match EnvConfig_getitem key cfg with
             | Return v => Some v
             | _ => None
             end).
Proof.
  intros cfg. split; [apply EnvConfig_init_flag|].
  intros Hne. unfold EnvConfig_getitem. subst cfg. rewrite init_entries.
  unfold EnvConfig_init, set_attribute at 1. cbn [attributes].
  rewrite lookup_insert_ne by congruence.
  rewrite fold_attributes. cbn [attributes].
  rewrite lookup_singleton_ne by congruence.
  destruct (class_attribute key); [reflexivity|].
  destruct (dict_get key _); reflexivity.
Qed.

Lemma getitem_keys_values (l : list (string * ConfigValue)) :
  List.NoDup (map fst l) ->
  map (fun k => match dict_get k l with
                | Some cell => Return (cv_value cell)
                | None => raise KeyError [Lit k]
                end) (map fst l)
  = map (fun kv => Return (cv_value (snd kv))) l.
Proof.
  induction l as [|[k c] rest IH]; intros Hnd; [reflexivity|].
  inversion Hnd as [|? ? Hnotin Hrest]; subst.
  cbn [map fst snd dict_get]. rewrite String.eqb_refl. f_equal.
  rewrite <- (IH Hrest). apply map_ext_in. intros k' Hk'.
  destruct (String.eqb_spec k' k) as [->|_]; [contradiction|reflexivity].
Qed.

(** X18. The read methods agree with each other, on a collection that
    [__init__] built and after any calls of the changing methods:
    [items()] pairs each key of [keys()] with the value [values()] lists at
    the same place, that value is what item access with the key returns,
    and [get_config_value] returns what item access returns, or [None] for
    a key that is not there. *)
Theorem EnvConfig_views_agree
    (class_attribute : string -> bool) (mapping : list (string * ConfigValue))
    (ms : list mutation) :
  let cfg := mutate_all class_attribute ms (EnvConfig_init class_attribute mapping) in
  EnvConfig_items cfg = combine (EnvConfig_keys cfg) (EnvConfig_values cfg)
  /\ map (fun k => EnvConfig_getitem k cfg) (EnvConfig_keys cfg)
     = map Return (EnvConfig_values cfg)
  /\ (forall key,
        EnvConfig_get_config_value key cfg
        = match EnvConfig_getitem key cfg with
          | Return v => v
          | _ => PNone
          end).
Proof.
  intros cfg.
  pose proof (mutate_all_keys_NoDup class_attribute ms mapping) as Hnd.
  fold cfg in Hnd. unfold EnvConfig_keys in Hnd.
  unfold EnvConfig_items, EnvConfig_keys, EnvConfig_values, EnvConfig_getitem,
    EnvConfig_get_config_value, EnvConfig_get.
  split; [|split].
  - clear Hnd. induction (entries cfg) as [|[k c] rest IH]; [reflexivity|].
    cbn [map combine fst snd]. rewrite IH. reflexivity.
  - rewrite (getitem_keys_values (entries cfg) Hnd). rewrite map_map. reflexivity.
  - intros key. destruct (dict_get key (entries cfg)); reflexivity.
Qed.

Lemma repr_item_masked k form original :
  repr_item (k, PSecure form original)
  = Return (quoted k ++ ": "
            ++ (if isinstance (PSecure form original) Cstr
                then quoted "******" else "******")).
Proof. reflexivity. Qed.

(** X19. [repr] and [str] of a collection do not depend on what its
    masking proxies wrap.  Two collections with the same keys, whose values
    are proxies that agree on being instances of [str], have the same
    text, in which every value reads as the marker. *)
Theorem EnvConfig_repr_hides_masked (cfg1 cfg2 : EnvConfig) :
  Forall2
    (fun a b : string * ConfigValue =>
       fst a = fst b
       /\ is_secure (cv_value (snd a)) = true
       /\ is_secure (cv_value (snd b)) = true
       /\ isinstance (cv_value (snd a)) Cstr = isinstance (cv_value (snd b)) Cstr)
    (entries cfg1) (entries cfg2) ->
  EnvConfig_repr cfg1 = EnvConfig_repr cfg2
  /\ exists text, EnvConfig_repr cfg1 = Return text.
Proof.
  intros Hsame. unfold EnvConfig_repr, EnvConfig_items.
  assert (H : sequence (map repr_item
                          (map (fun kv => (fst kv, cv_value (snd kv))) (entries cfg1)))
              = sequence (map repr_item
                            (map (fun kv => (fst kv, cv_value (snd kv))) (entries cfg2)))
              /\ exists l, sequence (map repr_item
                                       (map (fun kv => (fst kv, cv_value (snd kv)))
                                          (entries cfg1))) = Return l).
  { induction Hsame as [|[k1 c1] [k2 c2] l1 l2 (Hk & Hs1 & Hs2 & Hstr) _ IH].
    - split; [reflexivity|exists []; reflexivity].
    - destruct IH as [IHeq [l IHl]].
      cbn [map fst snd sequence] in *. subst k2.
      destruct (cv_value c1) as [| | | | | | | | | | |f1 o1]; try discriminate Hs1.
      destruct (cv_value c2) as [| | | | | | | | | | |f2 o2]; try discriminate Hs2.
      rewrite !repr_item_masked, Hstr, <- IHeq, IHl. cbn [obind].
      split; [reflexivity|eexists; reflexivity]. }
  destruct H as [Heq [l Hl]]. rewrite <- Heq, Hl. cbn [obind].
  split; [reflexivity|eexists; reflexivity].
Qed.

Lemma EnvConfig_repr_hides_masked_witness :
  EnvConfig_repr
    (EnvConfig_init public_class_names
       [("db_password",
         {| cv_value_validator := SecretDataType None;
            cv_value := PSecure Immutable (PStr "Pass123") |})])
  = EnvConfig_repr
      (EnvConfig_init public_class_names
         [("db_password",
           {| cv_value_validator := SecretDataType None;
              cv_value := PSecure Immutable (PStr "another") |})])
  /\ exists text,
       EnvConfig_repr
         (EnvConfig_init public_class_names
            [("db_password",
              {| cv_value_validator := SecretDataType None;
                 cv_value := PSecure Immutable (PStr "Pass123") |})])
       = Return text.
Proof.
  apply EnvConfig_repr_hides_masked.
  constructor; [|constructor]. repeat split; reflexivity.
Defined.

(** ** Loading a configuration *)

Lemma dict_set_fresh {A} k (a : A) l :
  ~ In k (map fst l) -> dict_set k a l = (l ++ [(k, a)])%list.
Proof.
  induction l as [|[k' a'] rest IH]; simpl; intros Hnot; [reflexivity|].
  destruct (String.eqb_spec k k') as [->|Hne].
  - exfalso. apply Hnot. left. reflexivity.
  - rewrite IH; [reflexivity|]. intros Hin. apply Hnot. right. exact Hin.
Qed.

Lemma fold_dict_set_fresh {A} (cells acc : list (string * A)) :
  List.NoDup (map fst (acc ++ cells)%list) ->
  fold_left (fun a kc => dict_set (fst kc) (snd kc) a) cells acc = (acc ++ cells)%list.
Proof.
  revert acc. induction cells as [|[k c] rest IH]; intros acc Hnd; simpl.
  - rewrite app_nil_r. reflexivity.
  - rewrite dict_set_fresh.
    + rewrite IH; rewrite <- app_assoc; [reflexivity|exact Hnd].
    + rewrite map_app in Hnd. simpl in Hnd.
      apply List.NoDup_remove_2 in Hnd. intros Hin. apply Hnd.
      apply in_or_app. left. exact Hin.
Qed.

(** What the loop has put into [derieved_config] when it ends. *)
Lemma load_entries_Return ft js tld mc pol V items :
  forall acc out,
    load_entries ft js tld mc pol V items acc = Return out ->
    exists cells,
      Forall2 (fun (kv : string * pyval) (kc : string * ConfigValue) =>
                 fst kc = fst kv
                 /\ load_entry ft js tld mc pol V (fst kv) (snd kv) = Return (snd kc))
        items cells
      /\ out = fold_left (fun a kc => dict_set (fst kc) (snd kc) a) cells acc.
Proof.
  induction items as [|[k v] rest IH]; intros acc out H; simpl in H.
  - injection H as <-. exists []. split; [constructor|reflexivity].
  - destruct (load_entry ft js tld mc pol V k v) as [cell| |] eqn:Hcell;
      try discriminate H.
    simpl in H. destruct (IH _ _ H) as (cells & Hcells & ->).
    exists ((k, cell) :: cells). split; [|reflexivity].
    constructor; [split; [reflexivity|exact Hcell]|exact Hcells].
Qed.

Lemma Forall2_keys (items : list (string * pyval)) (cells : list (string * ConfigValue))
    (P : string * pyval -> string * ConfigValue -> Prop) :
  Forall2 (fun kv kc => fst kc = fst kv /\ P kv kc) items cells ->
  map fst cells = map fst items.
Proof.
  induction 1 as [|kv kc items cells [Hk _] _ IH]; [reflexivity|].
  simpl. rewrite Hk, IH. reflexivity.
Qed.

Lemma load_entry_Return ft js tld mc pol V key raw cell :
  load_entry ft js tld mc pol V key raw = Return cell ->
  exists after,
    set_value ft js tld mc pol raw (validator_for V key) = (Return tt, after)
    /\ value after = Some (cv_value cell).
Proof.
  unfold load_entry, validator_for.
  assert (H : forall d,
             (let '(o, after) := set_value ft js tld mc pol raw d in
              let* _ := o in ConfigValue_init after) = Return cell ->
             exists after,
               set_value ft js tld mc pol raw d = (Return tt, after)
               /\ value after = Some (cv_value cell)).
  { intros d. destruct (set_value ft js tld mc pol raw d) as [[[]| |] after];
      try discriminate.
    cbn [obind]. unfold ConfigValue_init.
    destruct (value after) as [v|] eqn:Hv; try discriminate.
    intros Hc. injection Hc as <-. exists after. split; [reflexivity|exact Hv]. }
  destruct (dict_get key V) as [[d|other]|]; [apply H|discriminate|apply H].
Qed.

(** X20. When [BaseEnvironment.__load_config] returns on a dictionary, the
    collection it leaves in [self.config] has the keys of the dictionary in
    their order; [items()] pairs each key with the value that the key's
    validator, or an [AnyDataType] when there is none, stored when it
    accepted the value of the dictionary; and the collection is finalized:
    item assignment raises [ImmutableError]. *)
Theorem load_config_result
    (float_of_text : string -> option pyfloat) (json_loads : string -> option json)
    (get_tld : string -> bool)
    (member_call : pyval -> string -> list pyval -> outcome pyval)
    (class_attribute : string -> bool) (pol : policy)
    (items : list (string * pyval)) (validators : list (string * (descriptor + pyval)))
    (cfg : EnvConfig) :
  List.NoDup (map fst items) ->
  load_config float_of_text json_loads get_tld member_call class_attribute pol
    (inl items) validators = Return cfg ->
  Forall2
    (fun (given stored : string * pyval) =>
       fst stored = fst given
       /\ exists after,
            set_value float_of_text json_loads get_tld member_call pol (snd given)
              (validator_for validators (fst given)) = (Return tt, after)
            /\ value after = Some (snd stored))
    items (EnvConfig_items cfg)
  /\ (forall key new,
        EnvConfig_setitem class_attribute key new cfg
        = (Raise (MkExc ImmutableError
                    [Lit "Cannot set or update values of the environment config once initalized."]),
           cfg)).
Proof.
  intros Hnd Hload. unfold load_config in Hload.
  destruct (load_entries _ _ _ _ _ _ items []) as [out| |] eqn:Hout;
    try discriminate Hload.
  cbn [obind] in Hload. injection Hload as <-.
  apply load_entries_Return in Hout as (cells & Hcells & ->).
  assert (Hkeys : map fst cells = map fst items)
    by (apply (Forall2_keys items cells _ Hcells)).
  assert (Hcellsnd : List.NoDup (map fst ([] ++ cells)%list))
    by (simpl; rewrite Hkeys; exact Hnd).
  rewrite (fold_dict_set_fresh cells [] Hcellsnd). cbn [app].
  split.
  - unfold EnvConfig_items. rewrite init_entries.
    rewrite (fold_dict_set_fresh cells [] Hcellsnd). cbn [app].
    clear -Hcells. induction Hcells as [|[k v] [k' c] items cells [Hk Hc] _ IH].
    + constructor.
    + cbn [map fst snd] in *. constructor; [|exact IH].
      split; [exact Hk|]. apply load_entry_Return in Hc. exact Hc.
  - intros key new. unfold EnvConfig_setitem.
    rewrite EnvConfig_init_flag. reflexivity.
Qed.

Lemma AnyDataType_accepts ft js tld mc pol v :
  is_secure v = false -> v <> PStr "NOT_SET" ->
  set_value ft js tld mc pol v (AnyDataType None)
  = (Return tt, with_value (AnyDataType None) v).
Proof.
  intros Hs Hne.
  destruct v; try discriminate Hs; try reflexivity.
  unfold set_value, convert_to_secure_value.
  cbn [mask_value AnyDataType StandardDataType andb].
  match goal with
  | |- sbind (lift (Return ?v)) ?k ?d = ?r => change (k v d = r); cbv beta
  end.
  match goal with
  | |- sbind (put_value ?v) ?k ?d = ?r => change (k tt (with_value d v) = r); cbv beta
  end.
  rewrite (sbind_step _ _ _ _ _ (precheck_text mc _ s ltac:(congruence))).
  reflexivity.
Qed.

(** X21. Without validators, [__load_config] stores a dictionary as it is:
    when no value is a masking proxy or the text NOT_SET, the method
    returns and [items()] of the collection is the dictionary given.  A
    value that is the text NOT_SET makes the turn of its key raise
    [ValueError("Value not set.")]. *)
Theorem load_config_without_validators
    (float_of_text : string -> option pyfloat) (json_loads : string -> option json)
    (get_tld : string -> bool)
    (member_call : pyval -> string -> list pyval -> outcome pyval)
    (class_attribute : string -> bool) (pol : policy)
    (items : list (string * pyval)) :
  List.NoDup (map fst items) ->
  (Forall (fun kv => is_secure (snd kv) = false /\ snd kv <> PStr "NOT_SET") items ->
   exists cfg,
     load_config float_of_text json_loads get_tld member_call class_attribute pol
       (inl items) [] = Return cfg
     /\ EnvConfig_items cfg = items)
  /\ (forall key,
        load_entry float_of_text json_loads get_tld member_call pol [] key
          (PStr "NOT_SET")
        = Raise (MkExc ValueError [Lit "Value not set."])).
Proof.
  intros Hnd. split; [|intros key; reflexivity].
  intros Hplain.
  assert (Hentries :
            forall acc,
              load_entries float_of_text json_loads get_tld member_call pol [] items acc
              = Return
                  (fold_left (fun a kc => dict_set (fst kc) (snd kc) a)
                     (map (fun kv =>
                             (fst kv,
                              {| cv_value_validator :=
                                   with_value (AnyDataType None) (snd kv);
                                 cv_value := snd kv |})) items) acc)).
  { clear Hnd. induction Hplain as [|[k v] rest [Hs Hne] _ IH]; intros acc.
    - reflexivity.
    - cbn [load_entries map fold_left fst snd] in *.
      unfold load_entry. cbn [dict_get].
      rewrite (AnyDataType_accepts _ _ _ _ _ v Hs Hne). cbn [obind ConfigValue_init].
      cbn [value with_value obind]. apply IH. }
  set (cells := map (fun kv : string * pyval =>
                       (fst kv,
                        {| cv_value_validator := with_value (AnyDataType None) (snd kv);
                           cv_value := snd kv |})) items) in *.
  assert (Hcellsnd : List.NoDup (map fst ([] ++ cells)%list)).
  { simpl. subst cells. rewrite map_map. simpl. exact Hnd. }
  exists (EnvConfig_init class_attribute cells). split.
  - unfold load_config. rewrite Hentries.
    rewrite (fold_dict_set_fresh cells [] Hcellsnd). reflexivity.
  - unfold EnvConfig_items. rewrite init_entries.
    rewrite (fold_dict_set_fresh cells [] Hcellsnd). cbn [app].
    subst cells. rewrite map_map. simpl.
    clear. induction items as [|[k v] rest IH]; [reflexivity|].
    simpl. rewrite IH. reflexivity.
Qed.

Lemma load_config_result_witness :
  Forall2
    (fun (given stored : string * pyval) =>
       fst stored = fst given
       /\ exists after,
            set_value no_float no_json no_tld no_member reveal_off_mutable (snd given)
              (validator_for [("db_port", inl (PositiveIntegerDataType None true))]
                 (fst given)) = (Return tt, after)
            /\ value after = Some (snd stored))
    [("db_host", PStr "localhost"); ("db_port", PStr "27017")]
    (EnvConfig_items
       (EnvConfig_init public_class_names
          [("db_host",
            {| cv_value_validator := with_value (AnyDataType None) (PStr "localhost");
               cv_value := PStr "localhost" |});
           ("db_port",
            {| cv_value_validator :=
                 with_value (PositiveIntegerDataType None true) (PInt 27017);
               cv_value := PInt 27017 |})]))
  /\ (forall key new,
        EnvConfig_setitem public_class_names key new
          (EnvConfig_init public_class_names
             [("db_host",
               {| cv_value_validator := with_value (AnyDataType None) (PStr "localhost");
                  cv_value := PStr "localhost" |});
              ("db_port",
               {| cv_value_validator :=
                    with_value (PositiveIntegerDataType None true) (PInt 27017);
                  cv_value := PInt 27017 |})])
        = (Raise (MkExc ImmutableError
                    [Lit "Cannot set or update values of the environment config once initalized."]),
           EnvConfig_init public_class_names
             [("db_host",
               {| cv_value_validator := with_value (AnyDataType None) (PStr "localhost");
                  cv_value := PStr "localhost" |});
              ("db_port",
               {| cv_value_validator :=
                    with_value (PositiveIntegerDataType None true) (PInt 27017);
                  cv_value := PInt 27017 |})])).
Proof.
  apply (load_config_result no_float no_json no_tld no_member public_class_names
           reveal_off_mutable
           [("db_host", PStr "localhost"); ("db_port", PStr "27017")]
           [("db_port", inl (PositiveIntegerDataType None true))]).
  - repeat constructor; simpl; intros H;
      repeat (destruct H as [H|H]; [discriminate H|]); exact H.
  - reflexivity.
Defined.

Lemma load_config_without_validators_witness :
  exists cfg,
    load_config no_float no_json no_tld no_member public_class_names reveal_off_mutable
      (inl [("db_host", PStr "localhost"); ("test", PList [PInt 1])]) [] = Return cfg
    /\ EnvConfig_items cfg = [("db_host", PStr "localhost"); ("test", PList [PInt 1])].
Proof.
  refine (proj1 (load_config_without_validators no_float no_json no_tld no_member
                   public_class_names reveal_off_mutable
                   [("db_host", PStr "localhost"); ("test", PList [PInt 1])] _) _).
  - repeat constructor; simpl; intros H;
      repeat (destruct H as [H|H]; [discriminate H|]); exact H.
  - repeat constructor; discriminate.
Defined.

Lemma load_entries_app ft js tld mc pol V a b acc :
  load_entries ft js tld mc pol V (a ++ b)%list acc
  = let* mid := load_entries ft js tld mc pol V a acc in
    load_entries ft js tld mc pol V b mid.
Proof.
  revert acc. induction a as [|[k v] rest IH]; intros acc; [reflexivity|].
  cbn [app load_entries].
  destruct (load_entry ft js tld mc pol V k v); cbn [obind]; [apply IH| |]; reflexivity.
Qed.

(** X22. [__load_config] stops at the first key whose value is refused:
    when the keys before it are accepted, the method raises what the
    pipeline of that key raised, unchanged, whatever comes after it in the
    dictionary; and an object under that key in [validators] that is no
    descriptor raises [InvalidEnvironmentConfigError] before the value is
    looked at. *)
Theorem load_config_stops_at_first_refusal
    (float_of_text : string -> option pyfloat) (json_loads : string -> option json)
    (get_tld : string -> bool)
    (member_call : pyval -> string -> list pyval -> outcome pyval)
    (class_attribute : string -> bool) (pol : policy)
    (validators : list (string * (descriptor + pyval)))
    (before later : list (string * pyval)) (key : string) (raw : pyval) :
  (exists accepted,
      load_entries float_of_text json_loads get_tld member_call pol validators
        before [] = Return accepted) ->
  (forall e,
      fst (set_value float_of_text json_loads get_tld member_call pol raw
             (validator_for validators key)) = Raise e ->
      (forall other, dict_get key validators <> Some (inr other)) ->
      load_config float_of_text json_loads get_tld member_call class_attribute pol
        (inl (before ++ (key, raw) :: later)%list) validators = Raise e)
  /\ (forall other,
        dict_get key validators = Some (inr other) ->
        load_config float_of_text json_loads get_tld member_call class_attribute pol
          (inl (before ++ (key, raw) :: later)%list) validators
        = Raise (InvalidEnvironmentConfigError
                   [Lit "Environment validator for "; Lit key;
                    Lit (" must be a subclass of BaseDataType."
                         ++ String (char_of 10) "Import from classes.py")])).
Proof.
  intros [accepted Hbefore]. unfold load_config.
  rewrite load_entries_app, Hbefore. cbn [obind load_entries].
  unfold load_entry, validator_for. split.
  - intros e He Hdesc.
    destruct (dict_get key validators) as [[d|other]|].
    + destruct (set_value _ _ _ _ _ raw d) as [o after]. cbn [fst] in He.
      subst o. reflexivity.
    + exfalso. apply (Hdesc other). reflexivity.
    + destruct (set_value _ _ _ _ _ raw (AnyDataType None)) as [o after].
      cbn [fst] in He. subst o. reflexivity.
  - intros other Hother. rewrite Hother. reflexivity.
Qed.

Lemma load_config_stops_at_first_refusal_witness :
  load_config no_float no_json no_tld no_member public_class_names reveal_off_mutable
    (inl ([("db_host", PStr "localhost")]
          ++ ("db_port", PInt 0) :: [("db_name", PStr "test_db")])%list)
    [("db_port", inl (PositiveIntegerDataType None true))]
  = Raise (MkExc ValueError
             [Lit "Value "; Fmt (PInt 0); Lit " must be a positive integer."]).
Proof.
  refine (proj1 (load_config_stops_at_first_refusal no_float no_json no_tld no_member
                   public_class_names reveal_off_mutable
                   [("db_port", inl (PositiveIntegerDataType None true))]
                   [("db_host", PStr "localhost")] [("db_name", PStr "test_db")]
                   "db_port" (PInt 0) _) _ eq_refl _).
  - eexists. reflexivity.
  - intros other H. discriminate H.
Defined.

(** ** Validators of the classes *)

(** X23. [StrongPasswordDataType.__init__] does not compare the two
    bounds.  A descriptor built with a maximum length that is not zero and
    is below the minimum length accepts no value at all: every call of
    [__set_value__] raises or fails.  A maximum length of [0] counts as
    none given. *)
Theorem StrongPassword_crossed_bounds
    (float_of_text : string -> option pyfloat) (json_loads : string -> option json)
    (get_tld : string -> bool)
    (member_call : pyval -> string -> list pyval -> outcome pyval)
    (pol : policy) (check : option (pyval -> option exception))
    (shortest longest : Z) (sc nb up lo : bool) (scl : option string) (raw : pyval) :
  longest <> 0%Z ->
  (longest < shortest)%Z ->
  fst (set_value float_of_text json_loads get_tld member_call pol raw
         (StrongPasswordDataType check shortest (Some longest) sc nb up lo scl))
  <> Return tt
  /\ StrongPasswordDataType check shortest (Some 0%Z) sc nb up lo scl
     = StrongPasswordDataType check shortest None sc nb up lo scl.
Proof.
  intros Hnz Hlt. split; [|reflexivity].
  intros Hret.
  destruct (set_value float_of_text json_loads get_tld member_call pol raw
              (StrongPasswordDataType check shortest (Some longest) sc nb up lo scl))
    as [o d1] eqn:Hrun.
  cbn [fst] in Hret. subst o.
  apply set_value_Return_stages in Hrun
    as (v & c & _ & _ & _ & _ & Hcheck & _ & _).
  unfold value_validator in Hcheck.
  cbn [kind with_value StrongPasswordDataType] in Hcheck.
  unfold StrongPassword_value_validator in Hcheck. unfold_steps Hcheck.
  cbn [min_length max_length with_value StrongPasswordDataType] in Hcheck.
  assert (Hmax : match longest with 0%Z => None | _ => Some longest end = Some longest)
    by (destruct longest; [contradiction|reflexivity|reflexivity]).
  rewrite Hmax in Hcheck.
  case_if Hcheck.
  - case_in Hcheck (_original_data c). case_in Hcheck (py_len a).
    destruct (a0 <? shortest)%Z eqn:Hshort; [discriminate Hcheck|].
    destruct (longest <? a0)%Z eqn:Hlong; [discriminate Hcheck|].
    apply Z.ltb_ge in Hshort, Hlong. lia.
  - case_in Hcheck (py_len c).
    destruct (a <? shortest)%Z eqn:Hshort; [discriminate Hcheck|].
    destruct (longest <? a)%Z eqn:Hlong; [discriminate Hcheck|].
    apply Z.ltb_ge in Hshort, Hlong. lia.
Qed.

Lemma StrongPassword_crossed_bounds_witness :
  fst (set_value no_float no_json no_tld no_member reveal_off_mutable
         (PStr "Xkcd-pass9!")
         (StrongPasswordDataType None 12 (Some 8%Z) true true true true None))
  <> Return tt
  /\ StrongPasswordDataType None 12 (Some 0%Z) true true true true None
     = StrongPasswordDataType None 12 None true true true true None.
Proof.
  apply (StrongPassword_crossed_bounds no_float no_json no_tld no_member
           reveal_off_mutable None 12 8 true true true true None (PStr "Xkcd-pass9!"));
    [discriminate|reflexivity].
Defined.

(** X24. Inside [__set_value__] the class validators of a String and of an
    Integer descriptor cannot fail: they test for [str] and [int] what
    [validate_type] has tested just before, so their [ValueError] is never
    raised and a value of the wrong class is reported by the [TypeError] of
    [validate_type]. *)
Theorem class_validator_after_validate_type
    (get_tld : string -> bool) (check : option (pyval -> option exception))
    (conv sb : bool) (v : pyval) :
  (fst (validate_type (with_value (StringDataType check) v)) = Return tt ->
   value_validator get_tld (with_value (StringDataType check) v)
   = (Return tt, with_value (StringDataType check) v))
  /\ (fst (validate_type (with_value (IntegerDataType check conv sb) v)) = Return tt ->
      value_validator get_tld (with_value (IntegerDataType check conv sb) v)
      = (Return tt, with_value (IntegerDataType check conv sb) v))
  /\ (isinstance v Cstr = false ->
      validate_type (with_value (StringDataType check) v)
      = (Raise (MkExc TypeError
                  [Lit "Data must be of type "; Lit "string"; Lit " for value ";
                   Fmt v; Lit "."]),
         with_value (StringDataType check) v)).
Proof.
  unfold validate_type, value_validator, sbind, get_value, sraise, raise, lift, sret.
  cbn [value with_value kind data_type datatype_name StringDataType IntegerDataType
       set_convert set_support StandardDataType].
  split; [|split].
  - destruct (isinstance v Cstr); [reflexivity|discriminate].
  - destruct (isinstance v Cint); [reflexivity|discriminate].
  - intros ->. reflexivity.
Qed.

(** ** The application object *)

Lemma str_in_In s l : str_in s l = true -> In s l.
Proof.
  unfold str_in. intros H. apply existsb_exists in H as (x & Hx & Heq).
  apply String.eqb_eq in Heq. subst x. exact Hx.
Qed.

Lemma py_truth_text v :
  py_truth v = Return true -> isinstance v Cstr = true ->
  is_secure v = false ->
  exists s, v = PStr s /\ s <> EmptyString.
Proof.
  intros Ht Hs Hplain. destruct v; try discriminate Hs; try discriminate Hplain.
  exists s. split; [reflexivity|]. intros ->. discriminate Ht.
Qed.

Lemma key_in_true env keys :
  key_in env keys = Return true -> exists s, env = PStr s /\ In s keys.
Proof.
  destruct env; try discriminate. cbn [key_in]. intros H. injection H as H.
  exists s. split; [reflexivity|apply str_in_In, H].
Qed.

(** X25. [PyAppEnv.set_env] with a dictionary of configurations.  When it
    returns, the result is a text that is not empty; when the dictionary is
    not empty the result is one of its keys, and, unless the empty text is
    a key, the variable [ENV] of the process is not consulted: the outcome
    is the same whatever it holds.  When the dictionary is empty and
    neither [env_name] nor [default_env] is given, the result is [ENV] when
    that is set and not empty, and otherwise the call raises: the last
    fallback to [default_env] never returns. *)
Theorem set_env_result
    (env_name default_env : pyval) (keys : list string) (getenv : option string) :
  (keys <> [] -> ~ In EmptyString keys ->
   set_env env_name default_env (inl keys) getenv
   = set_env env_name default_env (inl keys) None)
  /\ (forall r,
        set_env env_name default_env (inl keys) getenv = Return r ->
        exists s, r = PStr s /\ s <> EmptyString
                  /\ (keys <> [] -> ~ In EmptyString keys -> In s keys))
  /\ (py_truth env_name = Return false ->
      py_truth default_env = Return false ->
      set_env env_name default_env (inl []) getenv
      = match getenv with
        | Some (String c rest) => Return (PStr (String c rest))
        | _ => Raise (InvalidEnvironmentConfigError
                        [Lit "Environment not defined in application or code."])
        end).
Proof.
  split; [|split].
  - intros Hkeys Hempty. unfold set_env, py_or.
    destruct (py_truth env_name) as [t| |]; cbn [obind]; try reflexivity.
    set (env := if t then env_name else default_env).
    destruct (py_truth env) as [named| |] eqn:Hnamed; cbn [obind]; try reflexivity.
    destruct (named && negb (isinstance env Cstr)); [reflexivity|].
    destruct keys as [|k keys]; [contradiction|].
    destruct (key_in env (k :: keys)) as [found| |] eqn:Hfound;
      cbn [obind]; try reflexivity.
    destruct found; cbn [negb]; [|reflexivity].
    destruct named; [reflexivity|].
    exfalso. apply key_in_true in Hfound as (s & Hs & Hin).
    rewrite Hs in Hnamed. cbn [py_truth] in Hnamed.
    injection Hnamed as Hnamed. apply negb_false_iff, String.eqb_eq in Hnamed.
    subst s. apply Hempty, Hin.
  - intros r Hr. unfold set_env, py_or in Hr.
    destruct (py_truth env_name) as [t| |] eqn:Ht; cbn [obind] in Hr;
      try discriminate Hr.
    set (env := if t then env_name else default_env) in *.
    destruct (py_truth env) as [named| |] eqn:Hnamed; cbn [obind] in Hr;
      try discriminate Hr.
    destruct (named && negb (isinstance env Cstr)) eqn:Hstr; [discriminate Hr|].
    assert (Hmissing :
              match keys with
              | [] => Return false
              | _ :: _ => let* found := key_in env keys in Return (negb found)
              end = Return false
              /\ (keys <> [] -> exists s, env = PStr s /\ In s keys)).
    { destruct keys as [|k keys]; [split; [reflexivity|intros H; contradiction]|].
      destruct (key_in env (k :: keys)) as [found| |] eqn:Hfound;
        cbn [obind] in Hr |- *; try discriminate Hr.
      destruct found; [|discriminate Hr].
      split; [reflexivity|]. intros _. apply key_in_true, Hfound. }
    destruct Hmissing as [Hmiss Hin]. rewrite Hmiss in Hr. cbn [obind] in Hr.
    destruct named.
    + injection Hr as <-.
      rewrite andb_true_l in Hstr. apply negb_false_iff in Hstr.
      destruct env; try discriminate Hstr; try discriminate Hnamed.
      * exists s. split; [reflexivity|]. split.
        -- intros ->. discriminate Hnamed.
        -- intros Hk _. destruct (Hin Hk) as (s' & Hs' & Hins).
           injection Hs' as <-. exact Hins.
      * destruct form; [discriminate Hnamed|].
        destruct env; discriminate Hnamed.
    + assert (Hde : py_truth default_env = Return false).
      { subst env. destruct t; [|exact Hnamed].
        rewrite Ht in Hnamed. discriminate Hnamed. }
      rewrite Hde in Hr. cbn [obind negb] in Hr.
      destruct getenv as [[|c rest]|]; try discriminate Hr.
      injection Hr as <-. exists (String c rest).
      split; [reflexivity|]. split; [discriminate|].
      intros Hk Hempty. exfalso.
      destruct (Hin Hk) as (s & Hs & Hins).
      rewrite Hs in Hnamed. cbn [py_truth] in Hnamed.
      injection Hnamed as Hnamed. apply negb_false_iff, String.eqb_eq in Hnamed.
      subst s. apply Hempty, Hins.
  - intros Hname Hdefault. unfold set_env, py_or.
    rewrite Hname. cbn [obind]. rewrite Hdefault. cbn [obind andb negb].
    destruct getenv as [[|c rest]|]; reflexivity.
Qed.

Lemma set_env_result_witness :
  exists s,
    PStr "TEST" = PStr s /\ s <> EmptyString
    /\ (["TEST"; "PROD"] <> [] -> ~ In EmptyString ["TEST"; "PROD"] ->
        In s ["TEST"; "PROD"]).
Proof.
  exact (proj1 (proj2 (set_env_result (PStr "TEST") (PStr "PROD") ["TEST"; "PROD"]
                         (Some "STAGING")))
           (PStr "TEST") eq_refl).
Defined.

(** X26. The masking policy is fixed by [PyAppEnv.__init__].  When the two
    arguments it was given are not [None], every later assignment to the
    property [show_secured_values] or [make_secured_values_mutable] raises
    [ImmutableError], and neither the attributes of the object nor the
    switches that the descriptors read change, whatever the sequence of
    assignments. *)
Theorem masking_policy_set_once
    (show mutable : pyval) (before : masking_switches)
    (assignments : list switch_assignment) :
  show <> PNone -> mutable <> PNone ->
  let switches := init_switches show mutable before in
  fold_left (fun s a => snd (assign_switch a s)) assignments switches = switches
  /\ Forall (fun a => exists message,
                 assign_switch a switches
                 = (Raise (MkExc ImmutableError message), switches))
       assignments
  /\ glb_show_secured_values switches = show
  /\ glb_make_secured_values_mutable switches = mutable.
Proof.
  intros Hshow Hmutable switches.
  assert (Hraise : forall a, exists message,
             assign_switch a switches
             = (Raise (MkExc ImmutableError message), switches)).
  { intros [v|v]; unfold assign_switch, show_secured_values_setter,
      make_secured_values_mutable_setter; subst switches;
      cbn [init_switches set_secured_mutable set_secured_values
           _show_secured_values _make_secured_values_mutable].
    - destruct show; try contradiction; eexists; reflexivity.
    - destruct mutable; try contradiction; eexists; reflexivity. }
  split; [|split; [|split; reflexivity]].
  - induction assignments as [|a rest IH]; [reflexivity|].
    cbn [fold_left]. destruct (Hraise a) as [message ->]. exact IH.
  - apply Forall_forall. intros a _. apply Hraise.
Qed.

Lemma masking_policy_set_once_witness :
  let switches :=
    init_switches (PBool false) (PBool true)
      {| _show_secured_values := PBool false;
         _make_secured_values_mutable := PBool true;
         glb_show_secured_values := PBool true;
         glb_make_secured_values_mutable := PBool false |} in
  fold_left (fun s a => snd (assign_switch a s))
    [AssignShow (PBool true); AssignMutable (PBool false)] switches = switches
  /\ Forall (fun a => exists message,
                 assign_switch a switches
                 = (Raise (MkExc ImmutableError message), switches))
       [AssignShow (PBool true); AssignMutable (PBool false)]
  /\ glb_show_secured_values switches = PBool false
  /\ glb_make_secured_values_mutable switches = PBool true.
Proof.
  apply (masking_policy_set_once (PBool false) (PBool true)); discriminate.
Defined.
